(** * Workspace provisioning and screenshot capture: a shallow embedding

    The development follows the server sources:
    - [container-manager] ([spinUpContainer], [stopContainer],
      [cleanupUserContainers]) over a model of the Docker daemon,
    - the routes [POST /api/container/spin-up], [POST /api/container/stop]
      and [POST /api/submit],
    - [MongoDBService.saveScreenshot],
    - [PuppeteerScreenshotService] ([captureDesktopScreen],
      [captureScreenshot], [captureDesktopAndSaveToMongoDB]),
    - the rest of their life cycle: [cleanupAllContainers],
      [getSystemScreenSize], [initBrowser], [captureAndSaveToMongoDB] and
      [cleanup],
    - the queries of [MongoDBService] over the screenshots, the
      screen-share events and the logs, and [getMonitoringStats],
    - the logs of [HybridStorage] and the route
      [POST /api/admin/clear-all-logs].

    Asynchronous functions are embedded in the order of their [await]s, one
    call at a time; everything the outside world decides (the port chosen by
    [getPort], the clock, what the page answers to each probe) is an explicit
    input. *)

From Stdlib Require Import ZArith Lia Ascii String.
From stdpp Require Import base tactics option list strings pretty.

Local Open Scope string_scope.
Local Open Scope list_scope.
Local Open Scope Z_scope.

(** ** JavaScript values, strings and exceptions *)

Module Js.

(** The outcome of a call: a value, or a thrown [Error] with its message. *)
Inductive outcome (A : Type) : Type :=
| Ret (a : A)
| Throw (message : string).
Arguments Ret {A} a.
Arguments Throw {A} message.

(** The values a property lookup on a plain object can produce here. *)
Inductive value : Type :=
| Undefined
| Null
| Num (n : Z)
| Str (s : string)
| Function (name : string)
| Object.

(** [!v] is [negb (truthy v)]. *)
Definition truthy (v : value) : bool :=
  match v with
  | Undefined => false
  | Null => false
  | Num n => negb (n =? 0)%Z
  | Str s => negb (String.eqb s "")
  | Function _ => true
  | Object => true
  end.

(** [s.startsWith(p)] *)
Definition startsWith (s p : string) : bool := String.prefix p s.

(** [s.includes(p)] *)
Fixpoint includes (s p : string) : bool :=
  String.prefix p s ||
  match s with
  | EmptyString => false
  | String _ s' => includes s' p
  end.

(** [s.endsWith(p)]: some suffix of [s] is [p]. *)
Fixpoint endsWith (s p : string) : bool :=
  String.eqb s p ||
  match s with
  | EmptyString => false
  | String _ s' => endsWith s' p
  end.

(** White space removed by [trim], among the characters of one byte: tab,
    line feed, vertical tab, form feed, carriage return, space and the
    no-break space (U+00A0). *)
Definition is_white (c : ascii) : bool :=
  let n := Ascii.nat_of_ascii c in
  ((9 <=? n)%nat && (n <=? 13)%nat) || (n =? 32)%nat || (n =? 160)%nat.

Fixpoint trimStart (s : string) : string :=
  match s with
  | EmptyString => EmptyString
  | String c s' => if is_white c then trimStart s' else s
  end.

Fixpoint trimEnd (s : string) : string :=
  match s with
  | EmptyString => EmptyString
  | String c s' =>
      match trimEnd s' with
      | EmptyString => if is_white c then EmptyString else String c EmptyString
      | rest => String c rest
      end
  end.

(** [s.trim()] *)
Definition trim (s : string) : string := trimEnd (trimStart s).

(** [s.length], for strings of one-byte characters. *)
Definition strLength (s : string) : Z := Z.of_nat (String.length s).

(** A [Map<number, V>]: entries in insertion order, keys unique. *)
Abbreviation Map V := (list (Z * V)).

Section JsMap.
Context {V : Type}.

Fixpoint get (k : Z) (m : Map V) : option V :=
  match m with
  | [] => None
  | (k', v) :: m' => if (k' =? k)%Z then Some v else get k m'
  end.

Definition has (k : Z) (m : Map V) : bool :=
  match get k m with Some _ => true | None => false end.

(** [m.set(k, v)]: an existing key keeps its position. *)
Fixpoint set (k : Z) (v : V) (m : Map V) : Map V :=
  match m with
  | [] => [(k, v)]
  | (k', v') :: m' =>
      if (k' =? k)%Z then (k, v) :: m' else (k', v') :: set k v m'
  end.

(** [m.delete(k)] *)
Definition delete (k : Z) (m : Map V) : Map V :=
  filter (fun e => negb (fst e =? k)%Z) m.
End JsMap.

(** Calls that read and change a state [S] and may throw. *)
Definition M (S A : Type) : Type := S → outcome A * S.

#[export] Instance M_ret {S} : MRet (M S) := fun A a s => (Ret a, s).
#[export] Instance M_bind {S} : MBind (M S) := fun A B f m s =>
  match m s with
  | (Ret a, s') => f a s'
  | (Throw e, s') => (Throw e, s')
  end.

Definition throw {S A} (message : string) : M S A := fun s => (Throw message, s).

(** [try { m } catch (err) { h err.message }] *)
Definition tryCatch {S A} (m : M S A) (h : string → M S A) : M S A := fun s =>
  match m s with
  | (Ret a, s') => (Ret a, s')
  | (Throw e, s') => h e s'
  end.

End Js.

Import Js.

(** ** The Docker daemon, as dockerode shows it

    The daemon is outside the repository.  It is modelled by what its
    calls answer: [createContainer] needs a known image name and an unused
    container name, [start] needs the host port to be free, [stop] answers
    304 or 404 (which dockerode raises as errors) unless the container is
    running, and a stopped container disappears because every container is
    created with [AutoRemove: true].  A request to stop a running container
    can fail as well (a server error, a lost connection): [refuses] says
    for which containers the daemon fails it, leaving them running.
    [inspect] and [logs] are taken as the daemon answers them for a
    container that it has just started. *)

Module Docker.

(** The container name [`codespace_${userId}_${Date.now()}`], kept as the
    two numbers it is built from. *)
Record name : Type := { nUser : Z; nStamp : Z }.

Definition name_eqb (a b : name) : bool :=
  (nUser a =? nUser b)%Z && (nStamp a =? nStamp b)%Z.

Record container : Type := {
  cId : string;
  cName : name;
  cImage : string;
  cHostPort : string;   (* PortBindings["8080/tcp"][0].HostPort *)
  cRunning : bool
}.

Record daemon : Type := {
  images : list string;          (* images that have been built *)
  containers : list container;
  nextId : N;                    (* identifiers are never handed out twice *)
  refuses : string → bool        (* containers that the daemon fails to stop *)
}.

Definition with_containers (cs : list container) (d : daemon) : daemon :=
  {| images := images d; containers := cs; nextId := nextId d;
     refuses := refuses d |}.

Definition has_id (id : string) (c : container) : bool := String.eqb (cId c) id.

Definition find (id : string) (d : daemon) : option container :=
  List.find (has_id id) (containers d).

Definition is_running (id : string) (d : daemon) : bool :=
  existsb (fun c => has_id id c && cRunning c) (containers d).

Definition port_in_use (p : string) (d : daemon) : bool :=
  existsb (fun c => cRunning c && String.eqb (cHostPort c) p) (containers d).

(** [docker.createContainer({name, Image, HostConfig: {PortBindings,
    AutoRemove: true}, ...})]; the answer is the new container's Id.  An
    [Image] that is not a string is refused with status 400; the wording
    after the status is the daemon's own. *)
Definition createContainer (n : name) (image : value) (hostPort : string)
    (d : daemon) : outcome string * daemon :=
  match image with
  | Str img =>
      if bool_decide (img ∈ images d) then
        if existsb (fun c => name_eqb (cName c) n) (containers d) then
          (Throw "(HTTP code 409) unexpected - Conflict. The container name is already in use", d)
        else
          let id := pretty (nextId d) in
          (Ret id,
           {| images := images d;
              containers := containers d ++
                [{| cId := id; cName := n; cImage := img;
                    cHostPort := hostPort; cRunning := false |}];
              nextId := N.succ (nextId d);
              refuses := refuses d |})
      else (Throw "(HTTP code 404) no such container - No such image", d)
  | _ => (Throw "(HTTP code 400) bad parameter - invalid reference format", d)
  end.

Definition set_running (id : string) (c : container) : container :=
  if has_id id c then
    {| cId := cId c; cName := cName c; cImage := cImage c;
       cHostPort := cHostPort c; cRunning := true |}
  else c.

(** [container.start()] *)
Definition start (id : string) (d : daemon) : outcome unit * daemon :=
  match find id d with
  | None => (Throw "(HTTP code 404) no such container", d)
  | Some c =>
      if cRunning c then (Throw "(HTTP code 304) container already started", d)
      else if port_in_use (cHostPort c) d then
        (Throw "(HTTP code 500) server error - port is already allocated", d)
      else (Ret tt, with_containers (map (set_running id) (containers d)) d)
  end.

Definition remove (id : string) (d : daemon) : daemon :=
  with_containers (filter (fun c => negb (has_id id c)) (containers d)) d.

(** [container.stop()]: a running container stops and, being created with
    [AutoRemove], is removed, unless the daemon fails the request, which
    leaves the container running. *)
Definition stop (id : string) (d : daemon) : outcome unit * daemon :=
  match find id d with
  | None => (Throw "(HTTP code 404) no such container", d)
  | Some c =>
      if is_running id d then
        if refuses d id then
          (Throw "(HTTP code 500) server error - cannot stop container", d)
        else (Ret tt, remove id d)
      else (Throw "(HTTP code 304) container already stopped", d)
  end.

(** What [container.inspect()] is read for: [data.Id] and
    [data.NetworkSettings.Ports["8080/tcp"]?.[0]?.HostPort]. *)
Record inspection : Type := { Id : string; HostPort : option string }.

Definition inspect (id : string) (d : daemon) : outcome inspection :=
  match find id d with
  | None => Throw "(HTTP code 404) no such container"
  | Some c =>
      Ret {| Id := cId c;
             HostPort := if cRunning c then Some (cHostPort c) else None |}
  end.

(** [container.logs({stdout, stderr})] *)
Definition logs (id : string) (d : daemon) : outcome unit :=
  match find id d with
  | None => Throw "(HTTP code 404) no such container"
  | Some _ => Ret tt
  end.

(** The running workspace containers of a user. *)
Definition live (userId : Z) (d : daemon) : list container :=
  filter (fun c => cRunning c && (nUser (cName c) =? userId)%Z) (containers d).

End Docker.

(** ** container-manager *)

Module ContainerManager.
Import Docker.

(** Module state: the [activeContainers] map, the daemon the [docker]
    client talks to, and whether [template-workspace] exists on disk. *)
Record state : Type := {
  activeContainers : Map (list string);
  docker : daemon;
  templateWorkspace : bool
}.

(** What one call of [spinUpContainer] reads from outside. *)
Record env : Type := {
  getPort : Z;    (* await getPort() *)
  now : Z         (* Date.now() *)
}.

Abbreviation M := (Js.M state).

Definition with_docker (d : daemon) (s : state) : state :=
  {| activeContainers := activeContainers s; docker := d;
     templateWorkspace := templateWorkspace s |}.

Definition with_active (m : Map (list string)) (s : state) : state :=
  {| activeContainers := m; docker := docker s;
     templateWorkspace := templateWorkspace s |}.

(** A call to the daemon that changes it. *)
Definition call {A} (f : daemon → outcome A * daemon) : M A := fun s =>
  let (r, d) := f (docker s) in (r, with_docker d s).

(** A call to the daemon that only reads. *)
Definition query {A} (f : daemon → outcome A) : M A := fun s => (f (docker s), s).

Definition modify_active (f : Map (list string) → Map (list string)) : M unit :=
  fun s => (Ret tt, with_active (f (activeContainers s)) s).

(** [subjectToImage]: the four own properties of the object literal. *)
Definition ownImage (subject : string) : option string :=
  if String.eqb subject "JavaScript" then Some "codespace-javascript"
  else if String.eqb subject "Java" then Some "codespace-java"
  else if String.eqb subject "C++" then Some "codespace-cpp"
  else if String.eqb subject "Python" then Some "codespace-python"
  else None.

(** The object literal inherits from [Object.prototype]; these are the
    names a lookup finds there. *)
Definition objectPrototype : list string :=
  ["constructor"; "__defineGetter__"; "__defineSetter__"; "hasOwnProperty";
   "__lookupGetter__"; "__lookupSetter__"; "isPrototypeOf";
   "propertyIsEnumerable"; "toString"; "valueOf"; "__proto__";
   "toLocaleString"].

(** [subjectToImage[subject]] *)
Definition subjectToImage (subject : string) : value :=
  match ownImage subject with
  | Some image => Str image
  | None =>
      if bool_decide (subject ∈ objectPrototype) then
        if String.eqb subject "__proto__" then Object else Function subject
      else Undefined
  end.

Definition supported : list string := ["JavaScript"; "Python"; "Java"; "C++"].

(** The containers tracked for a user: [activeContainers.get(userId) || []]. *)
Definition tracked (userId : Z) (m : Map (list string)) : list string :=
  default [] (get userId m).

(** The loop of [cleanupUserContainers]: each [container.stop()] sits in
    its own [try]/[catch], which only logs. *)
Fixpoint stopEach (ids : list string) : M unit :=
  match ids with
  | [] => mret tt
  | containerId :: rest =>
      tryCatch (call (stop containerId)) (fun _ => mret tt) ;;
      stopEach rest
  end.

Definition cleanupUserContainers (userId : Z) : M unit := fun s =>
  let userContainers := tracked userId (activeContainers s) in
  ((stopEach userContainers ;;
    modify_active (delete userId)) : M unit) s.

(** [containers.indexOf(id)] and [containers.splice(index, 1)] *)
Fixpoint removeFirst (id : string) (l : list string) : list string :=
  match l with
  | [] => []
  | x :: l' => if String.eqb x id then l' else x :: removeFirst id l'
  end.

(** The tracking loop of [stopContainer]: the first entry whose array holds
    the identifier loses it, and is deleted when the array becomes empty
    (the keys of a [Map] are unique, so [delete(userId)] removes the entry
    being visited); then [break]. *)
Fixpoint untrack (id : string) (m : Map (list string)) : Map (list string) :=
  match m with
  | [] => []
  | (userId, cs) :: m' =>
      if existsb (String.eqb id) cs then
        match removeFirst id cs with
        | [] => m'
        | cs' => (userId, cs') :: m'
        end
      else (userId, cs) :: untrack id m'
  end.

Definition stopContainer (containerId : string) : M unit :=
  tryCatch
    (call (stop containerId) ;;
     modify_active (untrack containerId))
    (fun _ => mret tt).

(** [if (!activeContainers.has(userId)) activeContainers.set(userId, []);
     activeContainers.get(userId)!.push(containerId)] *)
Definition track (userId : Z) (containerId : string)
    (m : Map (list string)) : Map (list string) :=
  let m1 := if has userId m then m else set userId [] m in
  set userId (tracked userId m1 ++ [containerId]) m1.

(** [if (!fs.existsSync(workspacePath)) { mkdirSync; writeFileSync }] *)
Definition ensureTemplateWorkspace : M unit := fun s =>
  (Ret tt, {| activeContainers := activeContainers s; docker := docker s;
              templateWorkspace := true |}).

Definition spinUpContainer (subject : string) (userId : Z) (e : env)
    : M (string * string) :=
  cleanupUserContainers userId ;;
  let hostPort := getPort e in
  let image := subjectToImage subject in
  if negb (truthy image) then
    throw ("No Docker image defined for subject: " +:+ subject)
  else
    let containerName := {| nUser := userId; nStamp := now e |} in
    ensureTemplateWorkspace ;;
    container ← call (createContainer containerName image (pretty hostPort)) ;
    call (start container) ;;
    data ← query (inspect container) ;
    match HostPort data with
    | Some hostMappedPort =>
        if String.eqb hostMappedPort "" then
          throw "❌ Could not determine mapped host port for container"
        else
          let containerId := Id data in
          let url := "http://localhost:" +:+ hostMappedPort in
          modify_active (track userId containerId) ;;
          query (logs container) ;;
          mret (url, containerId)
    | None => throw "❌ Could not determine mapped host port for container"
    end.

End ContainerManager.

(** ** The routes that drive the provisioner and the submission capture *)

Module Routes.
Import Docker ContainerManager.

Inductive body : Type :=
| Workspace (url containerId : string)    (* { url, containerId } *)
| Message (message : string)              (* { message } *)
| Success                                 (* { success: true } *)
| Submitted (id : Z).                     (* the stored submission *)

Record response : Type := { status : Z; json : body }.

(** [POST /api/container/spin-up]; [user] is [req.user?.id], and an id of
    0 is as falsy as a missing one. *)
Definition spinUp (language : string) (user : option Z) (e : env)
    (s : state) : response * state :=
  match user with
  | None => ({| status := 401; json := Message "Unauthorized: user not found" |}, s)
  | Some id =>
      if (id =? 0)%Z then
        ({| status := 401; json := Message "Unauthorized: user not found" |}, s)
      else
        match spinUpContainer language id e s with
        | (Ret (url, containerId), s') =>
            ({| status := 200; json := Workspace url containerId |}, s')
        | (Throw message, s') =>
            if negb (String.eqb message "")
               && startsWith message "No Docker image defined" then
              ({| status := 400; json := Message "Unsupported language" |}, s')
            else
              ({| status := 500;
                  json := Message (if String.eqb message ""
                                   then "Failed to spin up container"
                                   else message) |}, s')
        end
  end.

(** [POST /api/container/stop] *)
Definition stop (containerId : string) (s : state) : response * state :=
  match stopContainer containerId s with
  | (Ret _, s') => ({| status := 200; json := Success |}, s')
  | (Throw _, s') =>
      ({| status := 500; json := Message "Failed to stop container" |}, s')
  end.

(** The submissions table behind [storage.createSubmission]. *)
Record submission : Type := {
  subId : Z; subUser : Z; subSubject : string; subCode : string
}.

Record storage : Type := {
  submissions : list submission;
  currentSubmissionId : Z
}.

Definition createSubmission (userId : Z) (subject code : string)
    (st : storage) : submission * storage :=
  let row := {| subId := currentSubmissionId st; subUser := userId;
                subSubject := subject; subCode := code |} in
  (row, {| submissions := submissions st ++ [row];
           currentSubmissionId := currentSubmissionId st + 1 |}).

(** The arguments of a call to [captureAndSaveToMongoDB]. *)
Record captureCall : Type := {
  containerUrl : string;
  captureUser : Z;
  captureSubject : string;
  captureEvent : string
}.

(** [POST /api/submit]: the submission is stored, the capture is started
    without being awaited, and the response is sent.  [subject] and
    [code] are the fields of [req.body], [None] when they are not
    strings (the schema then rejects the body). *)
Definition submit (user : option Z) (subject code : option string)
    (st : storage) : response * storage * option captureCall :=
  match user with
  | None => ({| status := 401; json := Message "Unauthorized" |}, st, None)
  | Some userId =>
      match subject, code with
      | Some subject, Some code =>
          let (result, st') := createSubmission userId subject code st in
          let containerUrl := "http://localhost:" +:+ pretty (8080 + userId) in
          ({| status := 201; json := Submitted (subId result) |}, st',
           Some {| containerUrl := containerUrl; captureUser := userId;
                   captureSubject := subject; captureEvent := "submission" |})
      | _, _ =>
          ({| status := 400; json := Message "Invalid submission data" |}, st, None)
      end
  end.

End Routes.

(** ** MongoDBService: the screenshots collection *)

Module MongoDB.

Record metadata : Type := {
  timestamp : string;
  captureMethod : string;
  containerUrl : option string;     (* absent in the legacy format *)
  subject : string;
  filename : string;
  captureEvent : string;
  screenResolution : Z * Z;
  fileSize : Z;
  isCodespaceCapture : bool;
  captureQuality : string;
  captureType : string
}.

(** [screenshotData]; [image] is whatever the caller put there. *)
Record screenshotData : Type := {
  userId : Z;
  type : string;
  image : value;
  meta : metadata
}.

Record document : Type := {
  _id : N;
  data : screenshotData;
  createdAt : Z
}.

(** The collection, the next [ObjectId], and whether the server answers. *)
Record collection : Type := {
  docs : list document;
  nextObjectId : N;
  online : bool
}.

Definition insertOne (d : screenshotData) (date : Z) : M collection N := fun c =>
  if online c then
    (Ret (nextObjectId c),
     {| docs := docs c ++ [{| _id := nextObjectId c; data := d; createdAt := date |}];
        nextObjectId := N.succ (nextObjectId c);
        online := online c |})
  else (Throw "MongoNetworkError: connection closed", c).

Definition findOne (id : N) (c : collection) : option document :=
  List.find (fun doc => (_id doc =? id)%N) (docs c).

(** [collection.findOne({ _id: insertedId })], a miss being the error of
    [saveScreenshot]. *)
Definition retrieve (insertedId : N) : M collection document := fun c =>
  match findOne insertedId c with
  | Some savedDoc => (Ret savedDoc, c)
  | None => (Throw "Failed to retrieve saved screenshot", c)
  end.

(** [typeof v !== 'string'] *)
Definition notString (v : value) : bool :=
  match v with Str _ => false | _ => true end.

(** [saveScreenshot(screenshotData)]; [date] is [new Date()]. *)
Definition saveScreenshot (screenshotData : screenshotData) (date : Z)
    : M collection document :=
  if negb (truthy (image screenshotData)) || notString (image screenshotData) then
    throw "Invalid screenshot: image data is missing or not a string"
  else
    match image screenshotData with
    | Str img =>
        if negb (startsWith img "data:image/") then
          throw "Invalid screenshot: image must include data URI prefix (data:image/...)"
        else
          insertOne screenshotData date ≫= retrieve
    | _ => throw "Invalid screenshot: image data is missing or not a string"
    end.

End MongoDB.

(** ** PuppeteerScreenshotService *)

Module Capture.

(** *** String helpers of the capture code *)

Definition lower (c : ascii) : ascii :=
  let n := Ascii.nat_of_ascii c in
  if ((65 <=? n)%nat && (n <=? 90)%nat)%bool then Ascii.ascii_of_nat (n + 32) else c.

(** [s.toLowerCase()], on one-byte characters. *)
Fixpoint toLowerCase (s : string) : string :=
  match s with
  | EmptyString => EmptyString
  | String c s' => String (lower c) (toLowerCase s')
  end.

(** [s.replace(/[:.]/g, '-')] *)
Fixpoint dashed (s : string) : string :=
  match s with
  | EmptyString => EmptyString
  | String c s' =>
      String (if (Ascii.eqb c ":" || Ascii.eqb c ".")%bool then "-"%char else c)
             (dashed s')
  end.

(** [s.split(',')] *)
Fixpoint splitComma (s : string) : list string :=
  match s with
  | EmptyString => [EmptyString]
  | String c s' =>
      if Ascii.eqb c "," then EmptyString :: splitComma s'
      else match splitComma s' with
           | [] => [String c EmptyString]
           | h :: t => String c h :: t
           end
  end.

(** [Math.round(bytes / 1024)] for a byte count. *)
Definition kilobytes (bytes : Z) : Z := (bytes + 512) / 1024.

Definition anyIncludes (s : string) (needles : list string) : bool :=
  existsb (includes s) needles.

Definition anyEndsWith (s : string) (suffixes : list string) : bool :=
  existsb (endsWith s) suffixes.

(** *** The document, as the readiness analysis queries it *)

Record dom : Type := {
  viewLines : list string;       (* textContent of each '.monaco-editor .view-lines' *)
  tabLabels : list string;       (* textContent of each '.tab .label-name' *)
  terminals : list string;       (* textContent of each '.terminal .xterm-screen' *)
  workbench : bool;              (* '.monaco-workbench' *)
  explorer : bool;               (* '.explorer-viewlet' *)
  activitybar : bool;            (* '.activitybar' *)
  otherEditor : bool             (* '.monaco-editor' without view lines, '.ace_editor',
                                    '.CodeMirror', '.cm-editor', 'pre code', '.highlight' *)
}.

(** [{ found, type, content }] *)
Record analysis : Type := { found : bool; kind : string; content : string }.

Definition placeholders : list string :=
  ["Get Started"; "Welcome"; "Choose a language"].

Definition codeTokens : list string :=
  ["function"; "console.log"; "print("; "public class"; "#include"; "def ";
   "="; "{"; ";"].

Definition codeFileSuffixes : list string :=
  [".js"; ".py"; ".java"; ".cpp"; ".html"; ".css"; ".json"; ".md"].

(** The first loop of the analysis, over the Monaco view lines. *)
Fixpoint monacoCode (editors : list string) : option analysis :=
  match editors with
  | [] => None
  | textContent :: rest =>
      let content := trim textContent in
      if (negb (String.eqb textContent "") && (10 <? strLength content)%Z
          && negb (anyIncludes content placeholders)
          && anyIncludes content codeTokens)%bool
      then Some {| found := true; kind := "monaco-code";
                   content := String.substring 0 100 content |}
      else monacoCode rest
  end.

(** The loop over the terminals. *)
Fixpoint terminalText (screens : list string) : option analysis :=
  match screens with
  | [] => None
  | textContent :: rest =>
      if (negb (String.eqb textContent "")
          && (10 <? strLength (trim textContent))%Z)%bool
      then Some {| found := true; kind := "terminal";
                   content := String.substring 0 100 textContent |}
      else terminalText rest
  end.

(** The open tab of a code file with some text in the first editor. *)
Definition codeFile (d : dom) : option analysis :=
  if existsb (fun text => anyEndsWith text codeFileSuffixes) (tabLabels d) then
    match viewLines d with
    | activeEditor :: _ =>
        let content := trim activeEditor in
        if (negb (String.eqb activeEditor "") && (5 <? strLength content)%Z)%bool
        then Some {| found := true; kind := "code-file";
                     content := String.substring 0 100 content |}
        else None
    | [] => None
    end
  else None.

(** The function evaluated in the page as [hasContent]. *)
Definition hasContent (d : dom) : analysis :=
  match monacoCode (viewLines d) with
  | Some a => a
  | None =>
      match codeFile d with
      | Some a => a
      | None =>
          match terminalText (terminals d) with
          | Some a => a
          | None =>
              if (workbench d && (explorer d || activitybar d))%bool
              then {| found := true; kind := "workspace";
                      content := "VS Code workspace loaded" |}
              else {| found := false; kind := "none"; content := "" |}
          end
      end
  end.

(** Whether the selector list awaited before the analysis matches. *)
Definition editorInterface (d : dom) : bool :=
  (match viewLines d with [] => false | _ => true end
   || workbench d || otherEditor d)%bool.

(** *** What the service does to the outside, in order *)

Inductive selector : Type :=
| Button              (* 'button' *)
| EditorShell         (* '.monaco-editor, .monaco-workbench, .vs-dark, ...' *)
| Workbench           (* '.monaco-workbench' *)
| EditorInterface.    (* '.monaco-editor, .monaco-workbench, .ace_editor, ...' *)

Inductive event : Type :=
| Launch (headless : bool)            (* puppeteer.launch *)
| NewPage                             (* browser.newPage and setViewport *)
| DetectScreen                        (* evaluate reading screen.width/height *)
| SetContent                          (* page.setContent(desktopCaptureHtml) *)
| Goto (url : string)                 (* page.goto(url, { timeout: 45000 }) *)
| Sleep (ms : Z)                      (* await new Promise(r => setTimeout(r, ms)) *)
| WaitForSelector (sel : selector) (timeout : Z)
| ListButtons                         (* page.$$eval('button', ...) *)
| TrustSearch                         (* the in-page search that clicks the trust button *)
| TrustTextSearch                     (* page.$$('button') and the text loop *)
| ClickTrust                          (* btn.click() of that loop *)
| DebugSnapshot                       (* page.screenshot({ path: 'debug-trust-popup.jpeg' }) *)
| PasswordProbe                       (* frameContext.$('input[type=password]') *)
| TypePassword (text : string)
| Press (key : string)
| DismissOverlays
| OpenFirstFile
| QueryTabs
| QueryFiles
| OpenFile (name : string)
| TypeSample (language : string)        (* type(..., sampleCode), by its language *)
| TypeFileName (name : string)
| FocusEditor
| ContentAnalysis (result : analysis)
| PollCapture                         (* evaluate reading capturedImageData and captureError *)
| ClickButton                         (* page.click('button') *)
| Screenshot (path : string)
| WriteFile (path : string)
| Unlink (path : string)
| ClosePage
| CloseBrowser.

(** The service object, the screenshots directory, the collection behind
    [mongoService], and the calls made so far. *)
Record service : Type := {
  browser : bool;                       (* this.browser is not null *)
  systemScreenSize : option (Z * Z);
  files : list (string * string);
  screenshots : MongoDB.collection;
  trace : list event
}.

Abbreviation M := (Js.M service).

Definition emit (e : event) : M unit := fun s =>
  (Ret tt, {| browser := browser s; systemScreenSize := systemScreenSize s;
              files := files s; screenshots := screenshots s;
              trace := trace s ++ [e] |}).

(** The machine the service runs on. *)
Record host : Type := {
  screen : option (Z * Z);       (* the detected resolution; None when detection fails *)
  launches : bool;               (* puppeteer.launch and newPage succeed *)
  stampIso : string;             (* new Date().toISOString() for the file name *)
  resultIso : string;            (* new Date().toISOString() for the result *)
  saveDate : Z                   (* new Date() of saveScreenshot *)
}.

Definition getSystemScreenSize (h : host) : M (Z * Z) := fun s =>
  match systemScreenSize s with
  | Some size => (Ret size, s)
  | None =>
      let (size, calls) :=
        match screen h with
        | Some size => (size, [Launch false; NewPage; DetectScreen; CloseBrowser])
        | None => ((1920, 1080), [Launch false])
        end in
      (Ret size, {| browser := browser s; systemScreenSize := Some size;
                    files := files s; screenshots := screenshots s;
                    trace := trace s ++ calls |})
  end.

(** [this.browser = await puppeteer.launch({ headless: true, ... })] *)
Definition launchShared (h : host) : M unit := fun s =>
  if launches h then
    (Ret tt, {| browser := true; systemScreenSize := systemScreenSize s;
                files := files s; screenshots := screenshots s;
                trace := trace s ++ [Launch true] |})
  else
    (Throw "Failed to launch the browser process",
     {| browser := browser s; systemScreenSize := systemScreenSize s;
        files := files s; screenshots := screenshots s;
        trace := trace s ++ [Launch true] |}).

Definition initBrowser (h : host) : M unit := fun s =>
  if browser s then (Ret tt, s)
  else ((getSystemScreenSize h ;; launchShared h) : M unit) s.

Definition waitForSelector (sel : selector) (timeout : Z) (appears : bool) : M unit :=
  emit (WaitForSelector sel timeout) ;;
  if appears then mret tt
  else throw "Waiting for selector failed: timeout exceeded".

Definition storeFile (path content : string) : M unit := fun s =>
  (Ret tt, {| browser := browser s; systemScreenSize := systemScreenSize s;
              files := (path, content) :: files s; screenshots := screenshots s;
              trace := trace s |}).

Definition writeFileSync (path content : string) : M unit :=
  emit (WriteFile path) ;; storeFile path content.

Definition lookupFile (path : string) (fs : list (string * string)) : option string :=
  snd <$> List.find (fun f => String.eqb (fst f) path) fs.

Definition readFileSync (path : string) : M string := fun s =>
  match lookupFile path (files s) with
  | Some content => (Ret content, s)
  | None => (Throw "ENOENT: no such file or directory", s)
  end.

Definition unlinkSync (path : string) : M unit := fun s =>
  match lookupFile path (files s) with
  | Some _ =>
      (Ret tt, {| browser := browser s; systemScreenSize := systemScreenSize s;
                  files := filter (fun f => negb (String.eqb (fst f) path)) (files s);
                  screenshots := screenshots s;
                  trace := trace s ++ [Unlink path] |})
  | None => (Throw "ENOENT: no such file or directory", s)
  end.

(** [await mongoService.saveScreenshot(screenshotData)] *)
Definition saveToMongo (d : MongoDB.screenshotData) (date : Z) : M unit := fun s =>
  let (r, c) := MongoDB.saveScreenshot d date (screenshots s) in
  (match r with Ret _ => Ret tt | Throw e => Throw e end,
   {| browser := browser s; systemScreenSize := systemScreenSize s;
      files := files s; screenshots := c; trace := trace s |}).

(** [ScreenshotResult] *)
Record ScreenshotResult : Type := {
  success : bool;
  filePath : option string;
  filename : option string;
  timestamp : option string;
  containerUrl : string;
  userId : Z;
  subject : string;
  error : option string;
  imageSize : option Z;
  screenInfo : option (Z * Z);
  captureType : string
}.

Definition failed (message containerUrl : string) (userId : Z)
    (subject captureType : string) : ScreenshotResult :=
  {| success := false; filePath := None; filename := None; timestamp := None;
     containerUrl := containerUrl; userId := userId; subject := subject;
     error := Some message; imageSize := None; screenInfo := None;
     captureType := captureType |}.

Section Strategies.

(** [Buffer.from(text, 'base64')] and [buffer.toString('base64')]. *)
Variables fromBase64 toBase64 : string → string.

(** *** Strategy B: the whole display *)

(** What one [page.evaluate] of the polling loop reads from the window. *)
Record snapshot : Type := {
  capturedImageData : option string;
  captureError : option string
}.

Definition nonEmpty (o : option string) : bool :=
  match o with
  | Some text => negb (String.eqb text "")
  | None => false
  end.

Definition usable (o : option string) : bool :=
  match o with
  | Some text => (negb (String.eqb text "") && (1000 <? strLength text)%Z)%bool
  | None => false
  end.

(** [while (attempts > 0 && !imageData) { ... attempts--; ... }]; [round]
    counts the evaluations made so far. *)
Fixpoint pollLoop (page : nat → snapshot) (attempts round : nat)
    : M (option string) :=
  match attempts with
  | O => mret None
  | S attempts' =>
      emit PollCapture ;;
      let result := page round in
      if nonEmpty (captureError result) then
        throw ("Desktop capture failed: " +:+ default "" (captureError result))
      else if usable (capturedImageData result) then
        mret (capturedImageData result)
      else
        (if (attempts <=? 5)%nat
         then emit ClickButton ;; emit (Sleep 1000)
         else mret tt) ;;
        emit (Sleep 3000) ;;
        pollLoop page attempts' (S round)
  end.

Definition launchDedicated (h : host) : M unit :=
  emit (Launch false) ;;
  if launches h then mret tt else throw "Failed to launch the browser process".

(** The staging of the captured frame and the successful result. *)
Definition stageDesktop (h : host) (screenSize : Z * Z) (imageData : string)
    (userId : Z) (subject captureEvent : string) : M ScreenshotResult :=
  let timestamp := dashed (stampIso h) in
  let filename := "desktop-user-" +:+ pretty userId +:+ "-" +:+ subject +:+ "-"
                  +:+ captureEvent +:+ "-" +:+ timestamp +:+ ".jpg" in
  let filePath := "screenshots/" +:+ filename in
  match splitComma imageData !! 1%nat with
  | None => throw "The first argument must be of type string or an instance of Buffer"
  | Some base64Data =>
      let buffer := fromBase64 base64Data in
      writeFileSync filePath buffer ;;
      let imageSize := kilobytes (strLength buffer) in
      mret {| success := true; filePath := Some filePath; filename := Some filename;
              timestamp := Some (resultIso h); containerUrl := "desktop-capture";
              userId := userId; subject := subject; error := None;
              imageSize := Some imageSize; screenInfo := Some screenSize;
              captureType := "desktop" |}
  end.

(** [finally { try { if (page) await page.close();
                      if (browser) await browser.close() } catch {} }],
    as it runs when both calls succeed. *)
Definition closeDedicated (h : host) : M unit :=
  if launches h then emit ClosePage ;; emit CloseBrowser else mret tt.

Definition captureDesktopScreen (h : host) (page : nat → snapshot)
    (userId : Z) (subject captureEvent : string) : M ScreenshotResult :=
  result ← tryCatch
    (screenSize ← getSystemScreenSize h ;
     launchDedicated h ;;
     emit NewPage ;;
     emit SetContent ;;
     emit (Sleep 3000) ;;
     imageData ← pollLoop page 8 0 ;
     match imageData with
     | None => throw "Desktop capture timed out - could not capture screen data"
     | Some imageData =>
         stageDesktop h screenSize imageData userId subject captureEvent
     end)
    (fun message =>
       mret (failed message "desktop-capture" userId subject "desktop")) ;
  closeDedicated h ;;
  mret result.

(** The document handed to [saveScreenshot] by the two saving wrappers. *)
Definition toScreenshotData (result : ScreenshotResult) (imageBuffer : string)
    (userId : Z) (containerUrl captureEvent : string) (codespace : bool)
    : MongoDB.screenshotData :=
  {| MongoDB.userId := userId;
     MongoDB.type := "screenshot";
     MongoDB.image := Str ("data:image/jpeg;base64," +:+ toBase64 imageBuffer);
     MongoDB.meta :=
       {| MongoDB.timestamp := default "" (timestamp result);
          MongoDB.captureMethod := "puppeteer-server-side";
          MongoDB.containerUrl := Some containerUrl;
          MongoDB.subject := subject result;
          MongoDB.filename := default "" (filename result);
          MongoDB.captureEvent := captureEvent;
          MongoDB.screenResolution := default (1920, 1080) (screenInfo result);
          MongoDB.fileSize := default 0 (imageSize result);
          MongoDB.isCodespaceCapture := codespace;
          MongoDB.captureQuality := "high";
          MongoDB.captureType := captureType result |} |}.

Definition withError (result : ScreenshotResult) (message : string)
    : ScreenshotResult :=
  {| success := false; filePath := filePath result; filename := filename result;
     timestamp := timestamp result; containerUrl := containerUrl result;
     userId := userId result; subject := subject result;
     error := Some message; imageSize := imageSize result;
     screenInfo := screenInfo result; captureType := captureType result |}.

(** [if (result.success && result.filePath) { try { ... } catch { ... } }
     return result] *)
Definition persist (h : host) (result : ScreenshotResult) (userId : Z)
    (containerUrl captureEvent : string) (codespace : bool)
    : M ScreenshotResult :=
  match filePath result with
  | Some path =>
      if (success result && negb (String.eqb path ""))%bool then
        tryCatch
          (imageBuffer ← readFileSync path ;
           saveToMongo (toScreenshotData result imageBuffer userId containerUrl
                          captureEvent codespace) (saveDate h) ;;
           tryCatch (unlinkSync path) (fun _ => mret tt) ;;
           mret result)
          (fun message =>
             mret (withError result ("MongoDB save failed: " +:+ message)))
      else mret result
  | None => mret result
  end.

(** *** Strategy A: the editor viewport *)

(** What the editor page answers to each probe of one capture. *)
Record editorPage : Type := {
  navigates : bool;           (* page.goto settles within 45 s *)
  buttonAppears : bool;       (* some button shows up within 20 s *)
  trustInPage : bool;         (* the in-page search finds the trust button *)
  trustByText : bool;         (* the text loop over the handles finds it *)
  debugSnapshot : bool;       (* the diagnostic page.screenshot succeeds *)
  debugJpeg : string;         (* the bytes it writes *)
  passwordInput : bool;       (* a password input is on the page *)
  shellAppears : bool;        (* the editor shell shows up within 15 s of the login *)
  workbenchAppears : bool;    (* '.monaco-workbench' within 10 s *)
  hasOpenFile : bool;         (* a tab other than Get Started / Welcome is open *)
  existingFiles : list string;   (* textContent of the explorer rows *)
  stillNeedFile : bool;       (* no such tab after trying to open a file *)
  editorTextarea : bool;      (* '.monaco-editor textarea' exists *)
  saveInput : bool;           (* the file-name input exists *)
  document : dom;             (* the document when readiness is analysed *)
  screenshotOk : bool;        (* the final page.screenshot succeeds *)
  jpeg : string               (* the bytes it writes *)
}.

(** The file of the diagnostic screenshot, in the working directory. *)
Definition debugPath : string := "debug-trust-popup.jpeg".

(** Workspace trust popup handler.  When no trust control has been clicked
    the page is written to [debugPath]. *)
Definition trustDialog (p : editorPage) : M unit :=
  emit (Sleep 2000) ;;
  emit ListButtons ;;
  tryCatch
    (waitForSelector Button 20000 (buttonAppears p) ;;
     emit TrustSearch ;;
     clicked ←
       (if trustInPage p then mret true
        else
          emit TrustTextSearch ;;
          if trustByText p then emit ClickTrust ;; mret true else mret false) ;
     if (clicked : bool) then emit (Sleep 2000)
     else
       emit DebugSnapshot ;;
       if debugSnapshot p then storeFile debugPath (debugJpeg p)
       else throw "Protocol error (Page.captureScreenshot)")
    (fun _ => mret tt).

(** Code-server authentication, if a password is asked for. *)
Definition authenticate (p : editorPage) : M unit :=
  tryCatch
    (emit PasswordProbe ;;
     if passwordInput p then
       emit (TypePassword "cs1234") ;;
       emit (Press "Enter") ;;
       emit (Sleep 5000) ;;
       waitForSelector EditorShell 15000 (shellAppears p) ;;
       emit (Sleep 3000)
     else mret tt)
    (fun _ => mret tt).

Definition fileExtension (subject : string) : string :=
  if String.eqb (toLowerCase subject) "javascript" then "js"
  else if String.eqb (toLowerCase subject) "python" then "py"
  else if String.eqb (toLowerCase subject) "java" then "java"
  else if String.eqb (toLowerCase subject) "c++" then "cpp"
  else "js".

(** The language of [sampleCode]: the C++ text is the one for every
    subject outside the table, for which the extension is [js]. *)
Definition sampleLanguage (subject : string) : string :=
  if String.eqb (toLowerCase subject) "javascript" then "javascript"
  else if String.eqb (toLowerCase subject) "python" then "python"
  else if String.eqb (toLowerCase subject) "java" then "java"
  else "c++".

(** Typing into a selector fails when nothing matches it. *)
Definition typeInto (present : bool) (e : event) : M unit :=
  if present then emit e else throw "No element found for selector".

(** Creating and saving a sample file. *)
Definition createSampleFile (p : editorPage) (subject : string) : M unit :=
  emit (Press "Control+n") ;;
  emit (Sleep 1000) ;;
  typeInto (editorTextarea p) (TypeSample (sampleLanguage subject)) ;;
  emit (Sleep 1000) ;;
  emit (Press "Control+s") ;;
  emit (Sleep 500) ;;
  typeInto (saveInput p) (TypeFileName ("student_work." +:+ fileExtension subject)) ;;
  emit (Press "Enter") ;;
  emit (Sleep 2000).

Definition openOrCreateFile (p : editorPage) (subject : string) : M unit :=
  emit QueryFiles ;;
  (match filter (fun file => anyEndsWith file codeFileSuffixes)
           (filter (fun file => negb (String.eqb file "")) (existingFiles p))
   with
   | first :: _ => emit (OpenFile first) ;; emit (Sleep 2000)
   | [] => mret tt
   end) ;;
  emit QueryTabs ;;
  if stillNeedFile p then createSampleFile p subject else mret tt.

(** Workspace setup and welcome screen dismissal. *)
Definition setupWorkspace (p : editorPage) (subject : string) : M unit :=
  tryCatch
    (waitForSelector Workbench 10000 (workbenchAppears p) ;;
     emit DismissOverlays ;;
     emit (Sleep 2000) ;;
     emit OpenFirstFile ;;
     emit (Sleep 2000) ;;
     emit QueryTabs ;;
     (if hasOpenFile p then mret tt else openOrCreateFile p subject) ;;
     emit FocusEditor ;;
     emit (Sleep 1000))
    (fun _ => mret tt).

(** Content detection before the screenshot. *)
Definition contentReadiness (p : editorPage) : M unit :=
  tryCatch
    (waitForSelector EditorInterface 10000 (editorInterface (document p)) ;;
     emit (Sleep 3000) ;;
     emit (ContentAnalysis (hasContent (document p))) ;;
     if found (hasContent (document p)) then emit (Sleep 2000) else mret tt)
    (fun _ => mret tt).

Definition goto (p : editorPage) (url : string) : M unit :=
  emit (Goto url) ;;
  if navigates p then mret tt else throw "Navigation timeout of 45000 ms exceeded".

(** The final [page.screenshot] with its clip, and the successful result. *)
Definition shoot (h : host) (p : editorPage) (screenSize : Z * Z)
    (containerUrl : string) (userId : Z) (subject captureEvent : string)
    : M ScreenshotResult :=
  let timestamp := dashed (stampIso h) in
  let filename := "user-" +:+ pretty userId +:+ "-" +:+ subject +:+ "-"
                  +:+ captureEvent +:+ "-" +:+ timestamp +:+ ".jpg" in
  let filePath := "screenshots/" +:+ filename in
  emit (Screenshot filePath) ;;
  (if screenshotOk p then storeFile filePath (jpeg p)
   else throw "Protocol error (Page.captureScreenshot)") ;;
  let imageSize := kilobytes (strLength (jpeg p)) in
  mret {| success := true; filePath := Some filePath; filename := Some filename;
          timestamp := Some (resultIso h); containerUrl := containerUrl;
          userId := userId; subject := subject; error := None;
          imageSize := Some imageSize; screenInfo := Some screenSize;
          captureType := "browser" |}.

(** [finally { if (page) await page.close() }]: the page exists once the
    shared browser does. *)
Definition closePage : M unit := fun s =>
  if browser s then emit ClosePage s else (Ret tt, s).

Definition captureScreenshot (h : host) (p : editorPage)
    (containerUrl : string) (userId : Z) (subject captureEvent : string)
    : M ScreenshotResult :=
  result ← tryCatch
    (initBrowser h ;;
     screenSize ← getSystemScreenSize h ;
     emit NewPage ;;
     goto p containerUrl ;;
     trustDialog p ;;
     emit (Sleep 3000) ;;
     authenticate p ;;
     setupWorkspace p subject ;;
     contentReadiness p ;;
     shoot h p screenSize containerUrl userId subject captureEvent)
    (fun message => mret (failed message containerUrl userId subject "browser")) ;
  closePage ;;
  mret result.

Definition captureAndSaveToMongoDB (h : host) (p : editorPage)
    (containerUrl : string) (userId : Z) (subject captureEvent : string)
    : M ScreenshotResult :=
  result ← captureScreenshot h p containerUrl userId subject captureEvent ;
  persist h result userId (Capture.containerUrl result) captureEvent true.

Definition captureDesktopAndSaveToMongoDB (h : host) (page : nat → snapshot)
    (userId : Z) (subject captureEvent : string) : M ScreenshotResult :=
  result ← captureDesktopScreen h page userId subject captureEvent ;
  persist h result userId "desktop-capture" captureEvent false.

End Strategies.

End Capture.

(** ** Predicates of the statements, and the inputs of the examples

    [Spec] holds the invariant of the provisioner, the closed forms of
    [cleanupUserContainers] and [spinUpContainer] that the proofs rewrite
    with, and the predicates over the calls of a capture. *)

Module Spec.
Import Docker ContainerManager.

(** [id] was handed out by the daemon. *)
Definition issued (d : daemon) (id : string) : Prop :=
  ∃ k : N, (k < nextId d)%N ∧ id = pretty k.

(** The provisioner's invariant: identifiers in use were handed out by the
    daemon, and every running workspace container is tracked under the
    user its name bears. *)
Record wf (s : state) : Prop := {
  wf_ids : ∀ c, c ∈ containers (docker s) → issued (docker s) (cId c);
  wf_tracked_ids :
    ∀ entry id, entry ∈ activeContainers s → id ∈ snd entry →
                issued (docker s) id;
  wf_live_tracked :
    ∀ c, c ∈ containers (docker s) → cRunning c = true →
         cId c ∈ tracked (nUser (cName c)) (activeContainers s)
}.

(** The daemon stops every running container that it is asked to stop. *)
Definition obliging (d : daemon) : Prop := ∀ id, refuses d id = false.

(** The daemon after a [container.stop()] whose error, if any, is caught. *)
Definition afterStop (d : daemon) (id : string) : daemon :=
  if is_running id d && negb (refuses d id) then remove id d else d.

(** The state after [cleanupUserContainers]. *)
Definition cleaned (userId : Z) (s : state) : state :=
  {| activeContainers := delete userId (activeContainers s);
     docker := foldl afterStop (docker s) (tracked userId (activeContainers s));
     templateWorkspace := templateWorkspace s |}.

(** The container that [spinUpContainer] asks the daemon for. *)
Definition newContainer (d : daemon) (userId : Z) (e : env) (image : string)
    (running : bool) : container :=
  {| cId := pretty (nextId d);
     cName := {| nUser := userId; nStamp := now e |};
     cImage := image;
     cHostPort := pretty (getPort e);
     cRunning := running |}.

Definition added (c : container) (d : daemon) : daemon :=
  {| images := images d; containers := containers d ++ [c];
     nextId := N.succ (nextId d); refuses := refuses d |}.

(** [spinUpContainer] by cases, on a state that satisfies the invariant
    (see [spinUpContainer_flat]). *)
Definition spinUpFlat (subject : string) (userId : Z) (e : env) (s : state)
    : outcome (string * string) * state :=
  let s1 := cleaned userId s in
  let d1 := docker s1 in
  let ready d := {| activeContainers := activeContainers s1; docker := d;
                    templateWorkspace := true |} in
  match ownImage subject with
  | None =>
      if bool_decide (subject ∈ objectPrototype) then
        (Throw "(HTTP code 400) bad parameter - invalid reference format", ready d1)
      else (Throw ("No Docker image defined for subject: " +:+ subject), s1)
  | Some image =>
      if bool_decide (image ∈ images d1) then
        if existsb (fun c => name_eqb (cName c) {| nUser := userId; nStamp := now e |})
                   (containers d1)
        then (Throw "(HTTP code 409) unexpected - Conflict. The container name is already in use",
              ready d1)
        else if port_in_use (pretty (getPort e)) d1 then
          (Throw "(HTTP code 500) server error - port is already allocated",
           ready (added (newContainer d1 userId e image false) d1))
        else
          (Ret ("http://localhost:" +:+ pretty (getPort e), pretty (nextId d1)),
           {| activeContainers :=
                track userId (pretty (nextId d1)) (activeContainers s1);
              docker := added (newContainer d1 userId e image true) d1;
              templateWorkspace := true |})
      else (Throw "(HTTP code 404) no such container - No such image", ready d1)
  end.

(** At most one live workspace instance per user. *)
Definition oneLive (s : state) : Prop :=
  ∀ userId, (length (live userId (docker s)) ≤ 1)%nat.

(** The state of a fresh server process next to a daemon without
    workspace containers, which stops what it is asked to stop. *)
Definition fresh (imgs : list string) : state :=
  {| activeContainers := [];
     docker := {| images := imgs; containers := []; nextId := 0;
                  refuses := fun _ => false |};
     templateWorkspace := false |}.

(** Provisioning that waits for the instance: whatever answers on the
    network, a returned editor URL is one that answers (otherwise the call
    ends in an error). *)
Definition waitsForReachability : Prop :=
  ∀ (reachable : string → bool) subject userId e s,
    subject ∈ supported →
    match spinUpContainer subject userId e s with
    | (Ret (url, _), _) => reachable url = true
    | (Throw _, _) => True
    end.

(** What the payload validation of [saveScreenshot] is claimed to refuse. *)
Definition missing (image : value) : Prop := image = Undefined ∨ image = Null.
Definition zeroLength (image : value) : Prop := image = Str "".
Definition untagged (image : value) : Prop :=
  ∃ text, image = Str text ∧ startsWith text "data:image/" = false.

Import Capture.

(** The trust step of a capture: waiting for a button and searching it. *)
Definition trustStep (e : event) : bool :=
  match e with
  | WaitForSelector Button _ | TrustSearch | TrustTextSearch | ClickTrust
  | DebugSnapshot => true
  | _ => false
  end.

Definition authProbe (e : event) : bool :=
  match e with PasswordProbe => true | _ => false end.

(** The order the claim gives: every search for the trust button comes
    after the probe for the password input. *)
Definition authBeforeTrust (events : list event) : Prop :=
  ∀ before after, events = before ++ TrustSearch :: after →
                  PasswordProbe ∈ before.

Definition notAuth (e : event) : bool := negb (authProbe e).
Definition notTrust (e : event) : bool := negb (trustStep e).
Definition plain (e : event) : bool := (notAuth e && notTrust e)%bool.

(** The order of the code: navigation, then the trust step, then the probe
    for the password input.  Nothing of either step comes before the
    navigation, the wait for the trust button lies between the navigation
    and the first probe, and no part of the trust step comes after it. *)
Definition trustBeforeAuth (url : string) (events : list event) : Prop :=
  ∃ pre mid after,
    events = pre ++ Goto url :: mid ++ PasswordProbe :: after
    ∧ forallb plain pre = true
    ∧ WaitForSelector Button 20000 ∈ mid
    ∧ forallb notAuth mid = true
    ∧ forallb notTrust after = true.

(** A document that shows only the placeholder texts. *)
Definition placeholderOnly (d : dom) : Prop :=
  (∀ text, text ∈ viewLines d → text ∈ ["Welcome"; "Get Started"])
  ∧ (∀ text, text ∈ tabLabels d → text ∈ ["Welcome"; "Get Started"])
  ∧ terminals d = [].

(** The calls of the readiness check. *)
Definition readinessEvents (d : dom) : list event :=
  WaitForSelector EditorInterface 10000 ::
  (if editorInterface d then
     [Sleep 3000; ContentAnalysis (hasContent d)]
     ++ (if found (hasContent d) then [Sleep 2000] else [])
   else []).

(** Texts that begin, or end, with something [trim] leaves in place. *)
Definition startsNonWhite (p : string) : bool :=
  match p with
  | EmptyString => false
  | String c _ => negb (is_white c)
  end.

Fixpoint endsNonWhite (p : string) : bool :=
  match p with
  | EmptyString => false
  | String c EmptyString => negb (is_white c)
  | String _ p' => endsNonWhite p'
  end.

(** The readiness analysis as the specification words it: the sample
    function is content, placeholder text alone is not. *)
Definition readinessClaim : Prop :=
  (∀ d text, text ∈ viewLines d →
             includes text "function isPrime(num)" = true →
             found (hasContent d) = true)
  ∧ (∀ d, placeholderOnly d → found (hasContent d) = false).

(** The workbench shell that the last test of the analysis accepts. *)
Definition shell (d : dom) : bool :=
  (workbench d && (explorer d || activitybar d))%bool.

(** The service after further calls. *)
Definition logged (events : list event) (s : service) : service :=
  {| browser := browser s; systemScreenSize := systemScreenSize s;
     files := files s; screenshots := screenshots s;
     trace := trace s ++ events |}.

(** The calls of the polling loop with [attempts] rounds left when nothing
    ever resolves. *)
Fixpoint quietEvents (attempts : nat) : list event :=
  match attempts with
  | O => []
  | S attempts' =>
      PollCapture ::
      (if (attempts <=? 5)%nat then [ClickButton; Sleep 1000] else [])
      ++ Sleep 3000 :: quietEvents attempts'
  end.

(** The same for the eight rounds of a capture: three plain rounds, then
    five that trigger the grant again. *)
Definition quietRounds : list event :=
  concat (replicate 3 [PollCapture; Sleep 3000])
  ++ concat (replicate 5 [PollCapture; ClickButton; Sleep 1000; Sleep 3000]).

(** A round that shows neither an error nor a usable frame. *)
Definition quiet (r : snapshot) : Prop :=
  nonEmpty (captureError r) = false ∧ usable (capturedImageData r) = false.

(** [m] only adds calls that satisfy [P], whatever its outcome. *)
Definition emits {A} (P : event → bool) (m : M A) : Prop :=
  ∀ s, ∃ events,
    trace (snd (m s)) = trace s ++ events ∧ forallb P events = true.

(** [m] first makes the call [e], then only calls that satisfy [P]. *)
Definition emitsFirst {A} (e : event) (P : event → bool) (m : M A) : Prop :=
  ∀ s, ∃ events,
    trace (snd (m s)) = trace s ++ e :: events ∧ forallb P events = true.

Definition isPoll (e : event) : bool :=
  match e with PollCapture => true | _ => false end.

Definition isClick (e : event) : bool :=
  match e with ClickButton => true | _ => false end.

Definition occurrences (p : event → bool) (events : list event) : nat :=
  length (filter p events).

(** The calls of [getSystemScreenSize]. *)
Definition screenDetection (h : host) (s : service) : list event :=
  match systemScreenSize s with
  | Some _ => []
  | None =>
      match screen h with
      | Some _ => [Launch false; NewPage; DetectScreen; CloseBrowser]
      | None => [Launch false]
      end
  end.

Definition sleepTime (e : event) : Z :=
  match e with Sleep ms => ms | _ => 0 end.

Definition totalSleep (events : list event) : Z :=
  foldr (fun e acc => sleepTime e + acc) 0 events.

End Spec.

Module Examples.
Import Docker ContainerManager Capture.

Definition allImages : list string :=
  ["codespace-javascript"; "codespace-java"; "codespace-cpp"; "codespace-python"].

Definition server : state := Spec.fresh allImages.

Definition firstCall : env := {| getPort := 51234; now := 1700000000000 |}.
Definition secondCall : env := {| getPort := 51877; now := 1700000060000 |}.

(** The state after user 7 has been given a JavaScript workspace. *)
Definition provisioned : state := snd (spinUpContainer "JavaScript" 7 firstCall server).

(** The same state next to a daemon that fails every request to stop
    container 0. *)
Definition stubborn : state :=
  {| activeContainers := activeContainers provisioned;
     docker := {| images := images (docker provisioned);
                  containers := containers (docker provisioned);
                  nextId := nextId (docker provisioned);
                  refuses := String.eqb "0" |};
     templateWorkspace := templateWorkspace provisioned |}.

Definition desktopMeta : MongoDB.metadata :=
  {| MongoDB.timestamp := "2024-05-01T10:00:01.000Z";
     MongoDB.captureMethod := "puppeteer-server-side";
     MongoDB.containerUrl := Some "desktop-capture";
     MongoDB.subject := "desktop";
     MongoDB.filename := "desktop-user-7-desktop-manual-2024-05-01T10-00-00-000Z.jpg";
     MongoDB.captureEvent := "manual";
     MongoDB.screenResolution := (1920, 1080);
     MongoDB.fileSize := 120;
     MongoDB.isCodespaceCapture := false;
     MongoDB.captureQuality := "high";
     MongoDB.captureType := "desktop" |}.

(** An artifact whose payload is raw base64 without the data URI prefix. *)
Definition untaggedShot : MongoDB.screenshotData :=
  {| MongoDB.userId := 7; MongoDB.type := "screenshot";
     MongoDB.image := Str "/9j/4AAQSkZJRgABAQAAAQABAAD";
     MongoDB.meta := desktopMeta |}.

Definition emptyStore : MongoDB.collection :=
  {| MongoDB.docs := []; MongoDB.nextObjectId := 0; MongoDB.online := true |}.

Definition machine : host :=
  {| screen := Some (1920, 1080); launches := true;
     stampIso := "2024-05-01T10:00:00.000Z";
     resultIso := "2024-05-01T10:00:01.000Z";
     saveDate := 1714557601000 |}.

Definition idle : service :=
  {| browser := false; systemScreenSize := None; files := [];
     screenshots := emptyStore; trace := [] |}.

(** A display-media grant that never resolves. *)
Definition neverResolves : nat → snapshot :=
  fun _ => {| capturedImageData := None; captureError := None |}.

Definition bareDocument (lines : list string) : dom :=
  {| viewLines := lines; tabLabels := []; terminals := [];
     workbench := false; explorer := false; activitybar := false;
     otherEditor := false |}.

(** The welcome page of the editor: placeholder text inside the workbench. *)
Definition welcomePage : dom :=
  {| viewLines := ["Get Started"]; tabLabels := ["Welcome"]; terminals := [];
     workbench := true; explorer := false; activitybar := true;
     otherEditor := false |}.

Definition primeSource : string :=
  "function isPrime(num) { if (num <= 1) return false; return true; }".

(** An editor page that asks for the password and shows the trust dialog. *)
Definition editor (d : dom) : editorPage :=
  {| navigates := true; buttonAppears := true; trustInPage := true;
     trustByText := false; debugSnapshot := true; debugJpeg := "JFIF trust";
     passwordInput := true;
     shellAppears := true; workbenchAppears := true; hasOpenFile := true;
     existingFiles := []; stillNeedFile := false; editorTextarea := true;
     saveInput := true; document := d; screenshotOk := true;
     jpeg := "JFIF" |}.

(** The same page without a trust control: the trust step ends in the
    diagnostic screenshot. *)
Definition undecided (d : dom) : editorPage :=
  {| navigates := true; buttonAppears := true; trustInPage := false;
     trustByText := false; debugSnapshot := true; debugJpeg := "JFIF trust";
     passwordInput := true;
     shellAppears := true; workbenchAppears := true; hasOpenFile := true;
     existingFiles := []; stillNeedFile := false; editorTextarea := true;
     saveInput := true; document := d; screenshotOk := true;
     jpeg := "JFIF" |}.

(** The calls made by a capture of that page. *)
Definition editorRun : list event :=
  trace (snd (captureScreenshot machine (editor (bareDocument [primeSource]))
                "http://localhost:8087" 7 "JavaScript" "manual" idle)).

End Examples.

(** ** container-manager: the shutdown path *)

Module Shutdown.
Import Docker ContainerManager.

(** [for (const [userId, containers] of activeContainers.entries())
      await cleanupUserContainers(userId)]: the body deletes the entry that
    is being visited and touches no other, so the iterator visits the
    entries that were there when the loop began, in insertion order. *)
Fixpoint cleanupEach (userIds : list Z) : M unit :=
  match userIds with
  | [] => mret tt
  | userId :: rest => cleanupUserContainers userId ;; cleanupEach rest
  end.

(** [cleanupAllContainers()], called on SIGINT and SIGTERM. *)
Definition cleanupAllContainers : M unit := fun s =>
  ((cleanupEach (map fst (activeContainers s)) ;;
    modify_active (fun _ => [])) : M unit) s.

(** Every tracked identifier belongs to a container of the user it is
    tracked for, if the daemon still has a container of that identifier. *)
Definition owned (s : state) : Prop :=
  ∀ entry id c,
    entry ∈ activeContainers s → id ∈ snd entry →
    c ∈ containers (docker s) → cId c = id →
    nUser (cName c) = fst entry.

(** A state in which user 7 and user 9 each have a workspace. *)
Definition twoUsers : state :=
  snd (spinUpContainer "Python" 9
         {| getPort := 51400; now := 1700000030000 |} Examples.provisioned).

End Shutdown.

(** ** PuppeteerScreenshotService: releasing the shared browser *)

Module Release.
Import Capture.

Definition setBrowser (b : bool) : M unit := fun s =>
  (Ret tt, {| browser := b; systemScreenSize := systemScreenSize s;
              files := files s; screenshots := screenshots s;
              trace := trace s |}).

(** [await this.browser.close()] *)
Definition closeShared (closes : bool) : M unit :=
  emit CloseBrowser ;;
  if closes then mret tt else throw "Protocol error: Connection closed".

(** [cleanup()]: [this.browser] is set to [null] in the [try] and in the
    [catch]. *)
Definition cleanup (closes : bool) : M unit := fun s =>
  if browser s then
    tryCatch (closeShared closes ;; setBrowser false)
             (fun _ => setBrowser false) s
  else (Ret tt, s).

(** What a step of a capture leaves alone, whether it returns or throws:
    the staged files and the collection. *)
Definition keeps {A} (m : M A) : Prop :=
  ∀ s, files (snd (m s)) = files s ∧ screenshots (snd (m s)) = screenshots s.

(** The path under which [captureScreenshot] stages its picture. *)
Definition stagedPath (h : host) (userId : Z) (subject captureEvent : string) : string :=
  "screenshots/" +:+ ("user-" +:+ pretty userId +:+ "-" +:+ subject +:+ "-"
                      +:+ captureEvent +:+ "-" +:+ dashed (stampIso h) +:+ ".jpg").

(** The path under which [captureDesktopScreen] stages its picture. *)
Definition stagedDesktopPath (h : host) (userId : Z) (subject captureEvent : string)
    : string :=
  "screenshots/" +:+ ("desktop-user-" +:+ pretty userId +:+ "-" +:+ subject +:+ "-"
                      +:+ captureEvent +:+ "-" +:+ dashed (stampIso h) +:+ ".jpg").

(** The object [captureScreenshot] returns after a successful
    [page.screenshot]. *)
Definition shot (h : host) (p : editorPage) (screenSize : Z * Z)
    (containerUrl : string) (userId : Z) (subject captureEvent : string)
    : ScreenshotResult :=
  {| success := true;
     filePath := Some (stagedPath h userId subject captureEvent);
     filename := Some ("user-" +:+ pretty userId +:+ "-" +:+ subject +:+ "-"
                       +:+ captureEvent +:+ "-" +:+ dashed (stampIso h) +:+ ".jpg");
     timestamp := Some (resultIso h); containerUrl := containerUrl;
     userId := userId; subject := subject; error := None;
     imageSize := Some (kilobytes (strLength (jpeg p)));
     screenInfo := Some screenSize; captureType := "browser" |}.

(** The object [captureDesktopScreen] returns after it has written
    [buffer] to the staging file. *)
Definition desktopShot (h : host) (screenSize : Z * Z) (buffer : string)
    (userId : Z) (subject captureEvent : string) : ScreenshotResult :=
  {| success := true;
     filePath := Some (stagedDesktopPath h userId subject captureEvent);
     filename := Some ("desktop-user-" +:+ pretty userId +:+ "-" +:+ subject +:+ "-"
                       +:+ captureEvent +:+ "-" +:+ dashed (stampIso h) +:+ ".jpg");
     timestamp := Some (resultIso h); containerUrl := "desktop-capture";
     userId := userId; subject := subject; error := None;
     imageSize := Some (kilobytes (strLength buffer));
     screenInfo := Some screenSize; captureType := "desktop" |}.

(** What the trust step writes: the diagnostic screenshot, when a button
    has shown up, no trust control has been clicked and the screenshot
    succeeds. *)
Definition debugFile (p : editorPage) : list (string * string) :=
  if buttonAppears p && negb (trustInPage p) && negb (trustByText p)
     && debugSnapshot p
  then [(debugPath, debugJpeg p)] else [].

(** What the body of [captureScreenshot] can end in. *)
Definition bodyOutcome (h : host) (p : editorPage) (url : string) (userId : Z)
    (subject captureEvent : string) (s : service)
    (res : outcome ScreenshotResult * service) : Prop :=
  match res with
  | (Ret r, s1) =>
      (∃ size, r = shot h p size url userId subject captureEvent)
      ∧ files s1 = (stagedPath h userId subject captureEvent, jpeg p)
                   :: debugFile p ++ files s
      ∧ screenshots s1 = screenshots s
  | (Throw _, s1) =>
      (files s1 = files s ∨ files s1 = debugFile p ++ files s)
      ∧ screenshots s1 = screenshots s
  end.

(** What the body of [captureDesktopScreen] can end in. *)
Definition desktopOutcome (h : host) (userId : Z) (subject captureEvent : string)
    (s : service) (res : outcome ScreenshotResult * service) : Prop :=
  match res with
  | (Ret r, s1) =>
      ∃ size buffer,
        r = desktopShot h size buffer userId subject captureEvent
        ∧ files s1 = (stagedDesktopPath h userId subject captureEvent, buffer) :: files s
        ∧ screenshots s1 = screenshots s
  | (Throw _, s1) => files s1 = files s ∧ screenshots s1 = screenshots s
  end.



End Release.

(** ** MongoDBService: queries, screen-share events, logs *)

Module MongoQueries.
Import MongoDB.

(** *** Cursors *)

Section Cursor.
Context {A : Type} (date : A → Z).

(** [cursor.sort({ createdAt: -1 })], newest first.  The server may return
    documents of one date in any order; this sort keeps their order of
    insertion. *)
Fixpoint insertNewest (x : A) (l : list A) : list A :=
  match l with
  | [] => [x]
  | y :: l' => if (date y <=? date x)%Z then x :: y :: l' else y :: insertNewest x l'
  end.

Definition newestFirst (l : list A) : list A := foldr insertNewest [] l.

(** [cursor.limit(n)]: 0 stands for no limit, and a negative [n] is taken
    by its absolute value. *)
Definition limitTo (limit : Z) (l : list A) : list A :=
  if (limit =? 0)%Z then l else take (Z.abs_nat limit) l.
End Cursor.

Definition networkError : string := "MongoNetworkError: connection closed".

(** *** Screenshots *)

(** The query [userId ? { userId } : {}]: a user id of 0 is as falsy as a
    missing one. *)
Definition byUser (userId : option Z) (owner : Z) : bool :=
  match userId with
  | Some u => (u =? 0)%Z || (owner =? u)%Z
  | None => true
  end.

(** [getScreenshots(userId?, limit = 100)] *)
Definition getScreenshots (userId limit : option Z) (c : collection)
    : outcome (list document) :=
  if online c then
    Ret (limitTo (default 100 limit)
           (newestFirst createdAt
              (filter (fun doc => byUser userId (MongoDB.userId (data doc))) (docs c))))
  else Throw networkError.

(** [getAllScreenshots()] *)
Definition getAllScreenshots (c : collection) : outcome (list document) :=
  if online c then Ret (newestFirst createdAt (docs c)) else Throw networkError.

(** [getScreenshotsByDateRange(startDate, endDate, userId?)]: the query
    [{ createdAt: { $gte: startDate, $lte: endDate } }], with [userId]
    added when it is truthy. *)
Definition getScreenshotsByDateRange (startDate endDate : Z) (userId : option Z)
    (c : collection) : outcome (list document) :=
  if online c then
    Ret (newestFirst createdAt
           (filter (fun doc => (startDate <=? createdAt doc)%Z
                               && (createdAt doc <=? endDate)%Z
                               && byUser userId (MongoDB.userId (data doc)))
                   (docs c)))
  else Throw networkError.

(** *** The other collections *)

(** A stored document: its [_id], what was saved, and [createdAt]. *)
Record stored (A : Type) : Type := { oid : N; payload : A; created : Z }.
Arguments oid {A} _.
Arguments payload {A} _.
Arguments created {A} _.

(** A collection and whether the server answers. *)
Record table (A : Type) : Type := { rows : list (stored A); up : bool }.
Arguments rows {A} _.
Arguments up {A} _.

Section Table.
Context {A : Type}.

(** [collection.insertOne(document)]; [id] is the [ObjectId] the driver
    makes for the document, which the collection's unique index on [_id]
    refuses when it is already there. *)
Definition insertRow (id : N) (document : A) (date : Z) : M (table A) N := fun t =>
  if up t then
    if existsb (fun r => (oid r =? id)%N) (rows t) then
      (Throw "E11000 duplicate key error collection: index: _id_", t)
    else
      (Ret id, {| rows := rows t ++ [{| oid := id; payload := document; created := date |}];
                  up := up t |})
  else (Throw networkError, t).

Definition findRow (id : N) (t : table A) : option (stored A) :=
  List.find (fun r => (oid r =? id)%N) (rows t).

(** [collection.findOne({ _id: result.insertedId })], a miss being the
    error [message]. *)
Definition retrieveRow (message : string) (id : N) : M (table A) (stored A) := fun t =>
  match findRow id t with
  | Some savedDoc => (Ret savedDoc, t)
  | None => (Throw message, t)
  end.

(** [collection.deleteMany(filter)]; the answer is [deletedCount]. *)
Definition deleteMany (matches : stored A → bool) : M (table A) Z := fun t =>
  if up t then
    (Ret (Z.of_nat (length (filter (fun r => matches r) (rows t)))),
     {| rows := filter (fun r => negb (matches r)) (rows t); up := up t |})
  else (Throw networkError, t).

(** [collection.countDocuments()] *)
Definition countDocuments (t : table A) : outcome Z :=
  if up t then Ret (Z.of_nat (length (rows t))) else Throw networkError.
End Table.

(** *** Screen-share events *)

(** [shareData]: [action] is whatever the request body held. *)
Record shareData : Type := {
  shUserId : Z;
  shType : string;
  action : value;
  shTimestamp : value;
  streamInfo : option (Z * Z * string);
  shError : option string
}.

(** [saveScreenShareEvent(shareData)] *)
Definition saveScreenShareEvent (share : shareData) (id : N) (date : Z)
    : M (table shareData) (stored shareData) :=
  insertRow id share date
  ≫= retrieveRow "Failed to retrieve saved screen share event".

(** The stage [{ $group: { _id: '$userId', lastEvent: { $first: '$$ROOT' } } }]
    after the sort: for every user the first document of the sorted
    sequence; [seen] holds the users that already have their group.  The
    groups come in the order of their first documents; the server may
    return them in any order. *)
Fixpoint groupFirst (sorted : list (stored shareData)) (seen : list Z)
    : list (stored shareData) :=
  match sorted with
  | [] => []
  | r :: rest =>
      if bool_decide (shUserId (payload r) ∈ seen) then groupFirst rest seen
      else r :: groupFirst rest (shUserId (payload r) :: seen)
  end.

(** The stage [{ $match: { 'lastEvent.action': 'start' } }] *)
Definition isStart (r : stored shareData) : bool :=
  match action (payload r) with
  | Str a => String.eqb a "start"
  | _ => false
  end.

(** [getActiveScreenShares()]: sort, group, match, replaceRoot. *)
Definition getActiveScreenShares (t : table shareData)
    : outcome (list (stored shareData)) :=
  if up t then
    Ret (filter (fun r => isStart r) (groupFirst (newestFirst created (rows t)) []))
  else Throw networkError.

(** *** Logs *)

(** [logData]: [data] is [any]; the routes store a JSON text or nothing. *)
Record logData : Type := {
  lgUserId : Z;
  lgType : string;
  lgData : option string;
  lgTimestamp : string
}.

(** [saveLog(logData)] *)
Definition saveLog (log : logData) (id : N) (date : Z)
    : M (table logData) (stored logData) :=
  insertRow id log date ≫= retrieveRow "Failed to retrieve saved log".

(** The query of [getLogs]: [if (type) query.type = type;
    if (userId) query.userId = userId]. *)
Definition logQuery (type : option string) (userId : option Z)
    (r : stored logData) : bool :=
  match type with
  | Some t => String.eqb t "" || String.eqb (lgType (payload r)) t
  | None => true
  end
  && byUser userId (lgUserId (payload r)).

(** [getLogs(type?, userId?, limit = 100)] *)
Definition getLogs (type : option string) (userId limit : option Z)
    (t : table logData) : outcome (list (stored logData)) :=
  if up t then
    Ret (limitTo (default 100 limit)
           (newestFirst created (filter (fun r => logQuery type userId r) (rows t))))
  else Throw networkError.

(** *** Statistics *)

(** The three collections of the monitoring database. *)
Record database : Type := {
  screenshotsOf : collection;
  screenShares : table shareData;
  logsOf : table logData
}.

Record stats : Type := {
  totalScreenshots : Z;
  totalScreenShares : Z;
  activeScreenShares : Z;
  totalLogs : Z
}.

Definition countScreenshots (c : collection) : outcome Z :=
  if online c then Ret (Z.of_nat (length (docs c))) else Throw networkError.

(** [getMonitoringStats()]: [getActiveScreenShares] is awaited while the
    array for [Promise.all] is built, so its error comes first; the three
    counts fail with one and the same error. *)
Definition getMonitoringStats (db : database) : outcome stats :=
  match getActiveScreenShares (screenShares db) with
  | Throw e => Throw e
  | Ret active =>
      match countScreenshots (screenshotsOf db), countDocuments (screenShares db),
            countDocuments (logsOf db) with
      | Ret shots, Ret shares, Ret logs =>
          Ret {| totalScreenshots := shots; totalScreenShares := shares;
                 activeScreenShares := Z.of_nat (length active); totalLogs := logs |}
      | Throw e, _, _ => Throw e
      | _, Throw e, _ => Throw e
      | _, _, Throw e => Throw e
      end
  end.

(** *** Predicates of the statements *)

(** Newest first: every element is at least as new as all that follow. *)
Fixpoint descending {A} (date : A → Z) (l : list A) : Prop :=
  match l with
  | [] => True
  | x :: l' => Forall (fun y => (date y ≤ date x)%Z) l' ∧ descending date l'
  end.

(** No two events of one user bear the same date. *)
Definition datesTellApart (events : list (stored shareData)) : Prop :=
  ∀ a b, a ∈ events → b ∈ events →
         shUserId (payload a) = shUserId (payload b) → created a = created b → a = b.

(** [r] is the latest event of its user. *)
Definition latestOfUser (events : list (stored shareData)) (r : stored shareData) : Prop :=
  r ∈ events
  ∧ ∀ other, other ∈ events → shUserId (payload other) = shUserId (payload r) →
             (created other ≤ created r)%Z.

(** Examples: user 7 started and stopped sharing, user 9 started. *)
Definition shareEvent (user : Z) (what : string) (id : N) (date : Z) : stored shareData :=
  {| oid := id;
     payload := {| shUserId := user; shType := "screen-share"; action := Str what;
                   shTimestamp := Str "2024-05-01T10:00:00.000Z";
                   streamInfo := None; shError := None |};
     created := date |}.

Definition shareLog : table shareData :=
  {| rows := [shareEvent 7 "start" 1 1000; shareEvent 9 "start" 2 2000;
              shareEvent 7 "stop" 3 3000];
     up := true |}.

Definition stopOf (user : Z) : shareData :=
  {| shUserId := user; shType := "screen-share"; action := Str "stop";
     shTimestamp := Str "2024-05-01T10:05:00.000Z"; streamInfo := None;
     shError := None |}.

(** Examples: three captures, two of user 7 and one of user 9. *)
Definition shotOf (user : Z) (id : N) (date : Z) : document :=
  {| _id := id;
     data := {| MongoDB.userId := user; MongoDB.type := "screenshot";
                image := Str "data:image/jpeg;base64,/9j/4AAQSkZJRg";
                meta := Examples.desktopMeta |};
     createdAt := date |}.

Definition album : collection :=
  {| docs := [shotOf 7 0 1000; shotOf 9 1 3000; shotOf 7 2 2000];
     nextObjectId := 3; online := true |}.

Definition monitoring : database :=
  {| screenshotsOf := album; screenShares := shareLog;
     logsOf := {| rows := []; up := true |} |}.

End MongoQueries.

(** ** Text functions of the server *)

Module Text.

Definition isDigit (c : ascii) : bool :=
  let n := Ascii.nat_of_ascii c in ((48 <=? n)%nat && (n <=? 57)%nat)%bool.

(** The value of a character as a digit, for a radix up to 36. *)
Definition digitValue (c : ascii) : option Z :=
  let n := Ascii.nat_of_ascii c in
  if ((48 <=? n)%nat && (n <=? 57)%nat)%bool then Some (Z.of_nat n - 48)
  else if ((97 <=? n)%nat && (n <=? 122)%nat)%bool then Some (Z.of_nat n - 87)
  else if ((65 <=? n)%nat && (n <=? 90)%nat)%bool then Some (Z.of_nat n - 55)
  else None.

(** The longest run of digits of [radix] at the start of [s], as a number;
    [acc] is what has been read so far, [None] when nothing has. *)
Fixpoint parseDigits (radix : Z) (s : string) (acc : option Z) : option Z :=
  match s with
  | EmptyString => acc
  | String c s' =>
      match digitValue c with
      | Some v =>
          if (v <? radix)%Z
          then parseDigits radix s' (Some (default 0 acc * radix + v))
          else acc
      | None => acc
      end
  end.

(** [parseInt(s)]: leading white space is skipped, a sign is read, a
    prefix [0x] selects radix 16, and the longest run of digits is the
    number; [None] stands for [NaN].  The number is the exact integer:
    that is what JavaScript returns for up to 15 decimal digits, which stay
    below 2^53; for longer runs JavaScript rounds to a double, which is
    not followed here. *)
Definition parseInt (s : string) : option Z :=
  let s1 := trimStart s in
  let (sign, s2) :=
    match s1 with
    | String "-" rest => (-1, rest)
    | String "+" rest => (1, rest)
    | _ => (1, s1)
    end in
  let (radix, s3) :=
    match s2 with
    | String "0" (String "x" rest) => (16, rest)
    | String "0" (String "X" rest) => (16, rest)
    | _ => (10, s2)
    end in
  (fun n => sign * n) <$> parseDigits radix s3 None.

Definition hexDigit (n : N) : ascii :=
  match n with
  | 0 => "0" | 1 => "1" | 2 => "2" | 3 => "3" | 4 => "4" | 5 => "5" | 6 => "6"
  | 7 => "7" | 8 => "8" | 9 => "9" | 10 => "a" | 11 => "b" | 12 => "c"
  | 13 => "d" | 14 => "e" | _ => "f"
  end%N%char.

(** The [digits] low hexadecimal digits of [n], most significant first. *)
Fixpoint hexText (digits : nat) (n : N) : string :=
  match digits with
  | O => EmptyString
  | S d => String (hexDigit ((n / 16 ^ N.of_nat d) mod 16)%N) (hexText d n)
  end.

(** [objectId.toString()]: the twelve bytes as 24 hexadecimal digits. *)
Definition objectIdText (id : N) : string := hexText 24 id.

(** An [ObjectId]: four bytes of time stamp in seconds, then eight bytes
    of process value and counter. *)
Definition objectId (seconds rest : N) : N := (seconds * 2 ^ 64 + rest)%N.

End Text.

(** ** HybridStorage: logs in MongoDB *)

Module HybridStorage.
Import MongoQueries Text.

(** [InsertLog] *)
Record InsertLog : Type := {
  inUserId : Z;
  inType : string;
  inData : option string
}.

(** [Log], the row format of the relational schema; [id] is [None] when
    it is [NaN]. *)
Record Log : Type := {
  id : option Z;
  userId : Z;
  type : string;
  data : string;
  timestamp : Z
}.

(** The conversion of a MongoDB log:
    [id: parseInt(log._id?.toString() || '0')] and
    [data: typeof log.data === 'string' ? log.data : JSON.stringify(log.data)],
    a missing [data] being stored as [null]. *)
Definition toLog (log : stored logData) : Log :=
  {| id := parseInt (objectIdText (oid log));
     userId := lgUserId (payload log);
     type := lgType (payload log);
     data := default "null" (lgData (payload log));
     timestamp := created log |}.

(** [try { return (await mongoService.getLogs(...)).map(...) }
     catch { return [] }] *)
Definition converted (found : outcome (list (stored logData))) : list Log :=
  match found with
  | Ret mongoLogs => map toLog mongoLogs
  | Throw _ => []
  end.

(** [getLogs()] *)
Definition getLogs (t : table logData) : list Log :=
  converted (MongoQueries.getLogs None None None t).

(** [getLogsByUserId(userId)] *)
Definition getLogsByUserId (userId : Z) (t : table logData) : list Log :=
  converted (MongoQueries.getLogs None (Some userId) None t).

(** [getLogsByType(type)] *)
Definition getLogsByType (type : string) (t : table logData) : list Log :=
  converted (MongoQueries.getLogs (Some type) None None t).

(** [createLog(insertLog)]; [iso] is [new Date().toISOString()], [id] the
    new [ObjectId] and [date] the [new Date()] of [saveLog].  An error is
    thrown again. *)
Definition createLog (insertLog : InsertLog) (iso : string) (id : N) (date : Z)
    : M (table logData) Log :=
  mongoLog ← saveLog {| lgUserId := inUserId insertLog; lgType := inType insertLog;
                        lgData := inData insertLog; lgTimestamp := iso |} id date ;
  mret (toLog mongoLog).

(** [deleteLogsByType(type)]: [deleteMany({ type })], the answer being
    [result.deletedCount || 0]. *)
Definition deleteLogsByType (type : string) : M (table logData) Z :=
  deleteMany (fun log => String.eqb (lgType (payload log)) type).

End HybridStorage.

(** ** The routes of the event logs *)

Module LogRoutes.
Import MongoQueries HybridStorage.

(** The body of the answer of [POST /api/admin/clear-all-logs]. *)
Record cleared : Type := {
  clStatus : Z;
  clSuccess : bool;
  sqliteCount : Z;
  mongoCount : Z;
  totalCleared : Z
}.

(** The filter of the third step:
    [{ $or: [{ type: 'screenshot', 'data.image': { $exists: true } },
             { type: 'screenshot', data: { $regex: 'data:image' } }] }];
    [data] is a text here, so that only the second branch can match. *)
Definition corrupted (log : stored logData) : bool :=
  String.eqb (lgType (payload log)) "screenshot"
  && match lgData (payload log) with
     | Some text => includes text "data:image"
     | None => false
     end.

(** [POST /api/admin/clear-all-logs], once the caller is known to be an
    administrator: three steps, each in its own [try]/[catch] that logs. *)
Definition clearAllLogsRoute (t : table logData) : cleared * table logData :=
  let sqliteCount := Z.of_nat (length (HybridStorage.getLogs t)) in
  let (_, t1) :=
    tryCatch
      (deleteLogsByType "screenshot" ;;
       deleteLogsByType "tab-switch" ;;
       deleteLogsByType "screen-share" ;;
       deleteLogsByType "screenshot-error" ;;
       mret tt)
      (fun _ => mret tt) t in
  let (counted, t2) := tryCatch (deleteMany (fun _ => true)) (fun _ => mret 0) t1 in
  let mongoCount := match counted with Ret n => n | Throw _ => 0 end in
  let (_, t3) := tryCatch (deleteMany corrupted ;; mret tt) (fun _ => mret tt) t2 in
  ({| clStatus := 200; clSuccess := true; sqliteCount := sqliteCount;
      mongoCount := mongoCount; totalCleared := sqliteCount + mongoCount |}, t3).

(** The four types that the first step deletes. *)
Definition clearedByType : list string :=
  ["screenshot"; "tab-switch"; "screen-share"; "screenshot-error"].

Definition otherType (log : stored logData) : bool :=
  negb (bool_decide (lgType (payload log) ∈ clearedByType)).

(** Examples: a log collection with 150 tab switches and 2 forum posts. *)
Definition logOf (user : Z) (type : string) (id : N) (date : Z) : stored logData :=
  {| oid := id;
     payload := {| lgUserId := user; lgType := type; lgData := None;
                   lgTimestamp := "2024-05-01T10:00:00.000Z" |};
     created := date |}.

Definition manyLogs : table logData :=
  {| rows := map (fun n => logOf 7 "tab-switch" (N.of_nat n) (Z.of_nat n)) (seq 0 150)
             ++ [logOf 7 "note" 150 150; logOf 9 "note" 151 151];
     up := true |}.

(** Examples: two logs made within one second by one process. *)
Definition firstOfSecond : stored logData :=
  logOf 7 "tab-switch" (Text.objectId 1714557600 1) 1714557600123.

Definition secondOfSecond : stored logData :=
  logOf 9 "screenshot" (Text.objectId 1714557600 2) 1714557600456.

(** Examples: a log of user 9 made after [manyLogs]. *)
Definition laterLog : InsertLog :=
  {| inUserId := 9; inType := "tab-switch"; inData := None |}.

End LogRoutes.

(** * Properties *)

(** ** Sequencing *)

Module JsFacts.

Lemma bind_ret {S A B} (m : Js.M S A) (f : A → Js.M S B) s a s' :
  m s = (Ret a, s') → (m ≫= f) s = f a s'.
Proof. unfold mbind, M_bind. by intros ->. Qed.

Lemma bind_throw {S A B} (m : Js.M S A) (f : A → Js.M S B) s e s' :
  m s = (Throw e, s') → (m ≫= f) s = (Throw e, s').
Proof. unfold mbind, M_bind. by intros ->. Qed.

Lemma tryCatch_ret {S A} (m : Js.M S A) (h : string → Js.M S A) s a s' :
  m s = (Ret a, s') → tryCatch m h s = (Ret a, s').
Proof. unfold tryCatch. by intros ->. Qed.

Lemma tryCatch_throw {S A} (m : Js.M S A) (h : string → Js.M S A) s e s' :
  m s = (Throw e, s') → tryCatch m h s = h e s'.
Proof. unfold tryCatch. by intros ->. Qed.

End JsFacts.

(** ** The provisioner *)

Module Provisioning.
Import Docker ContainerManager Spec JsFacts.

(** *** The daemon *)

Lemma find_Some id d c : find id d = Some c → c ∈ containers d ∧ cId c = id.
Proof.
  unfold find. intros H. apply find_some in H as [Hin Hid].
  split; [by apply list_elem_of_In|]. unfold has_id in Hid.
  by apply String.eqb_eq in Hid.
Qed.

Lemma is_running_true id d :
  is_running id d = true ↔
  ∃ c, c ∈ containers d ∧ cId c = id ∧ cRunning c = true.
Proof.
  unfold is_running. rewrite existsb_exists. split.
  - intros (c & Hin & Hc). apply andb_true_iff in Hc as [Hid Hr].
    exists c. split; [by apply list_elem_of_In|]. split; [|done].
    by apply String.eqb_eq in Hid.
  - intros (c & Hin & Hid & Hr). exists c. split; [by apply list_elem_of_In|].
    apply andb_true_iff. split; [|done]. unfold has_id. by apply String.eqb_eq.
Qed.

Lemma is_running_false id d :
  is_running id d = false ↔
  ∀ c, c ∈ containers d → cId c = id → cRunning c = false.
Proof.
  rewrite <- not_true_iff_false, is_running_true. split.
  - intros H c Hin Hid. destruct (cRunning c) eqn:E; [|done]. destruct H; eauto.
  - intros H (c & Hin & Hid & Hr). rewrite (H c Hin Hid) in Hr. done.
Qed.

Lemma find_None id d : find id d = None → is_running id d = false.
Proof.
  intros H. apply is_running_false. intros c Hin Hid.
  unfold find in H. eapply find_none in H; [|by apply list_elem_of_In].
  unfold has_id in H. rewrite Hid, String.eqb_refl in H. done.
Qed.

Lemma stop_running id d :
  is_running id d = true → refuses d id = false → stop id d = (Ret tt, remove id d).
Proof.
  intros H R. unfold stop. destruct (find id d) eqn:E.
  - by rewrite H, R.
  - apply find_None in E. congruence.
Qed.

(** A request that the daemon fails leaves everything as it is. *)
Lemma stop_refused id d :
  is_running id d = true → refuses d id = true → ∃ m, stop id d = (Throw m, d).
Proof.
  intros H R. unfold stop. destruct (find id d) eqn:E.
  - rewrite H, R. eauto.
  - apply find_None in E. congruence.
Qed.

Lemma stop_idle id d : is_running id d = false → ∃ m, stop id d = (Throw m, d).
Proof.
  intros H. unfold stop. destruct (find id d); rewrite ?H; eauto.
Qed.

Lemma elem_of_remove id d c :
  c ∈ containers (remove id d) ↔ c ∈ containers d ∧ cId c ≠ id.
Proof.
  unfold remove. simpl. rewrite list_elem_of_filter. unfold has_id.
  destruct (String.eqb_spec (cId c) id) as [E|E]; simpl.
  - split; [intros [[] _]|intros [_ Hne]; done].
  - split; [intros [_ Hin]; done|intros [Hin _]; done].
Qed.

Lemma remove_sublist id d : containers (remove id d) `sublist_of` containers d.
Proof. apply sublist_filter. Qed.

Lemma is_running_remove id d : is_running id (remove id d) = false.
Proof.
  apply is_running_false. intros c Hin Hid.
  apply elem_of_remove in Hin as [_ Hne]. done.
Qed.

Lemma is_running_remove_ne id other d :
  other ≠ id → is_running other (remove id d) = is_running other d.
Proof.
  intros Hne. destruct (is_running other d) eqn:E.
  - apply is_running_true in E as (c & Hc & Hid & Hr). apply is_running_true.
    exists c. split; [|done]. apply elem_of_remove. split; [done|congruence].
  - rewrite is_running_false in *. intros c [Hc _]%elem_of_remove. by apply E.
Qed.

(** Containers only disappear: what is not running stays so. *)
Lemma is_running_sublist id d d' :
  containers d' `sublist_of` containers d →
  is_running id d = false → is_running id d' = false.
Proof.
  rewrite !is_running_false. intros Hsub H c Hin Hid.
  apply (H c); [|done]. eapply elem_of_sublist; eauto.
Qed.

Lemma filter_sublist_mono {A} (P : A → Prop) `{!∀ x, Decision (P x)} (l1 l2 : list A) :
  l1 `sublist_of` l2 → filter P l1 `sublist_of` filter P l2.
Proof.
  induction 1 as [|x l1 l2 Hsub IH|x l1 l2 Hsub IH]; [done| |].
  - rewrite !filter_cons. destruct (decide (P x)); [by apply sublist_skip|done].
  - rewrite filter_cons. destruct (decide (P x)); [by apply sublist_cons|done].
Qed.

Lemma live_sublist userId d d' :
  containers d' `sublist_of` containers d →
  live userId d' `sublist_of` live userId d.
Proof. apply filter_sublist_mono. Qed.

(** *** Stopping the containers of a user *)

Lemma with_docker_id s : with_docker (docker s) s = s.
Proof. by destruct s. Qed.

Lemma stop_caught id s :
  tryCatch (call (stop id)) (fun _ => mret tt) s
  = (Ret tt, with_docker (afterStop (docker s) id) s).
Proof.
  unfold tryCatch, call, afterStop. destruct (is_running id (docker s)) eqn:E.
  - destruct (refuses (docker s) id) eqn:R; cbn [negb andb].
    + destruct (stop_refused _ _ E R) as [m ->]. by rewrite with_docker_id.
    + by rewrite (stop_running _ _ E R).
  - cbn [andb]. destruct (stop_idle _ _ E) as [m ->]. by rewrite with_docker_id.
Qed.

Lemma stopEach_eq ids s :
  stopEach ids s = (Ret tt, with_docker (foldl afterStop (docker s) ids) s).
Proof.
  revert s. induction ids as [|id ids IH]; intros s; simpl.
  - by rewrite with_docker_id.
  - unfold mbind, M_bind. rewrite stop_caught, IH. by destruct s.
Qed.

Lemma cleanupUserContainers_eq userId s :
  cleanupUserContainers userId s = (Ret tt, cleaned userId s).
Proof.
  unfold cleanupUserContainers, mbind, M_bind. by rewrite stopEach_eq.
Qed.

Lemma afterStop_sublist d id : containers (afterStop d id) `sublist_of` containers d.
Proof. unfold afterStop. destruct (_ && _); [apply remove_sublist|done]. Qed.

Lemma afterStop_images d id : images (afterStop d id) = images d.
Proof. unfold afterStop. by destruct (_ && _). Qed.

Lemma afterStop_nextId d id : nextId (afterStop d id) = nextId d.
Proof. unfold afterStop. by destruct (_ && _). Qed.

Lemma afterStop_refuses d id : refuses (afterStop d id) = refuses d.
Proof. unfold afterStop. by destruct (_ && _). Qed.

(** A container that the daemon does not refuse to stop is stopped. *)
Lemma afterStop_idle d id :
  refuses d id = false → is_running id (afterStop d id) = false.
Proof.
  intros R. unfold afterStop. rewrite R, andb_true_r.
  destruct (is_running id d) eqn:E; [apply is_running_remove|done].
Qed.

(** One that it refuses to stop goes on as before. *)
Lemma afterStop_refused d id other :
  refuses d id = true → is_running id (afterStop d other) = is_running id d.
Proof.
  intros R. unfold afterStop. destruct (is_running other d && _) eqn:E; [|done].
  apply is_running_remove_ne. intros ->. by rewrite R, andb_false_r in E.
Qed.

Lemma stopAll_sublist ids d : containers (foldl afterStop d ids) `sublist_of` containers d.
Proof.
  revert d. induction ids as [|id ids IH]; intros d; simpl; [done|].
  etrans; [apply IH|apply afterStop_sublist].
Qed.

Lemma stopAll_images ids d : images (foldl afterStop d ids) = images d.
Proof.
  revert d. induction ids as [|id ids IH]; intros d; simpl; [done|].
  by rewrite IH, afterStop_images.
Qed.

Lemma stopAll_nextId ids d : nextId (foldl afterStop d ids) = nextId d.
Proof.
  revert d. induction ids as [|id ids IH]; intros d; simpl; [done|].
  by rewrite IH, afterStop_nextId.
Qed.

Lemma stopAll_refuses ids d : refuses (foldl afterStop d ids) = refuses d.
Proof.
  revert d. induction ids as [|id ids IH]; intros d; simpl; [done|].
  by rewrite IH, afterStop_refuses.
Qed.

(** Every container of the list that the daemon does not refuse to stop is
    stopped afterwards. *)
Lemma stopAll_idle ids d id :
  id ∈ ids → refuses d id = false → is_running id (foldl afterStop d ids) = false.
Proof.
  revert d. induction ids as [|x ids IH]; intros d Hin R; [by apply elem_of_nil in Hin|].
  simpl. apply elem_of_cons in Hin as [->|Hin].
  - eapply is_running_sublist; [apply stopAll_sublist|by apply afterStop_idle].
  - apply IH; [done|]. by rewrite afterStop_refuses.
Qed.

(** A container that the daemon refuses to stop goes on as before. *)
Lemma stopAll_refused ids d id :
  refuses d id = true → is_running id (foldl afterStop d ids) = is_running id d.
Proof.
  revert d. induction ids as [|x ids IH]; intros d R; [done|].
  simpl. rewrite IH by (by rewrite afterStop_refuses). by apply afterStop_refused.
Qed.

(** *** The [activeContainers] map *)

Section MapFacts.
Context {V : Type}.
Implicit Types (m : Map V) (k : Z) (v : V).

Lemma get_delete k m : get k (delete k m) = None.
Proof.
  induction m as [|[k' v'] m IH]; [done|].
  unfold delete in *. rewrite filter_cons. simpl.
  destruct (Z.eqb_spec k' k); simpl; [done|].
  destruct (Z.eqb_spec k' k); [done|]. apply IH.
Qed.

Lemma get_delete_ne k k' m : k ≠ k' → get k' (delete k m) = get k' m.
Proof.
  intros Hne. induction m as [|[k0 v0] m IH]; [done|].
  unfold delete in *. rewrite filter_cons. simpl.
  destruct (Z.eqb_spec k0 k) as [->|]; simpl.
  - destruct (Z.eqb_spec k k'); [done|]. apply IH.
  - by rewrite IH.
Qed.

Lemma elem_of_delete k m e : e ∈ delete k m → e ∈ m.
Proof. unfold delete. rewrite list_elem_of_filter. by intros [_ ?]. Qed.

Lemma get_set k v m : get k (set k v m) = Some v.
Proof.
  induction m as [|[k' v'] m IH]; simpl.
  - by rewrite Z.eqb_refl.
  - destruct (Z.eqb_spec k' k) as [->|Hne]; simpl.
    + by rewrite Z.eqb_refl.
    + destruct (Z.eqb_spec k' k); [done|]. apply IH.
Qed.

Lemma get_set_ne k k' v m : k ≠ k' → get k' (set k v m) = get k' m.
Proof.
  intros Hne. induction m as [|[k0 v0] m IH]; simpl.
  - destruct (Z.eqb_spec k k'); done.
  - destruct (Z.eqb_spec k0 k) as [->|]; simpl.
    + destruct (Z.eqb_spec k k'); done.
    + by rewrite IH.
Qed.

Lemma elem_of_set k v m e : e ∈ set k v m → e ∈ m ∨ e = (k, v).
Proof.
  induction m as [|[k' v'] m IH]; simpl.
  - intros ->%list_elem_of_singleton. by right.
  - destruct (Z.eqb_spec k' k) as [->|Hne].
    + intros [->|Hin]%elem_of_cons; [by right|]. left. by apply elem_of_cons; right.
    + intros [->|Hin]%elem_of_cons; [left; by apply elem_of_cons; left|].
      destruct (IH Hin) as [?|?]; [left; by apply elem_of_cons; right|by right].
Qed.

Lemma get_elem_of k v m : get k m = Some v → (k, v) ∈ m.
Proof.
  induction m as [|[k' v'] m IH]; simpl; [done|].
  destruct (Z.eqb_spec k' k) as [->|Hne].
  - intros [= ->]. by apply elem_of_cons; left.
  - intros H. apply elem_of_cons; right. by apply IH.
Qed.
End MapFacts.

Lemma tracked_delete userId m : tracked userId (delete userId m) = [].
Proof. unfold tracked. by rewrite get_delete. Qed.

Lemma tracked_delete_ne userId other m :
  userId ≠ other → tracked other (delete userId m) = tracked other m.
Proof. intros. unfold tracked. by rewrite get_delete_ne. Qed.

Lemma tracked_track userId id m :
  tracked userId (track userId id m) = tracked userId m ++ [id].
Proof.
  unfold track, tracked, has. rewrite get_set.
  destruct (get userId m) eqn:E; simpl; [by rewrite E|by rewrite get_set].
Qed.

Lemma tracked_track_ne userId other id m :
  userId ≠ other → tracked other (track userId id m) = tracked other m.
Proof.
  intros Hne. unfold track, tracked, has. rewrite get_set_ne by done.
  destruct (get userId m); [done|]. by rewrite get_set_ne.
Qed.

Lemma tracked_elem_of userId m x :
  x ∈ tracked userId m → ∃ entry, entry ∈ m ∧ x ∈ snd entry.
Proof.
  unfold tracked. destruct (get userId m) as [l|] eqn:E; simpl.
  - intros Hx. exists (userId, l). split; [by apply get_elem_of|done].
  - by intros ?%elem_of_nil.
Qed.

Lemma elem_of_track userId id m entry x :
  entry ∈ track userId id m → x ∈ snd entry →
  x = id ∨ ∃ entry', entry' ∈ m ∧ x ∈ snd entry'.
Proof.
  intros Hentry Hx.
  unfold track in Hentry. apply elem_of_set in Hentry as [Hentry| ->].
  - right. destruct (has userId m); [by eauto|].
    apply elem_of_set in Hentry as [Hentry| ->]; [by eauto|].
    by apply elem_of_nil in Hx.
  - simpl in Hx. apply elem_of_app in Hx as [Hx|Hx].
    + right. destruct (has userId m) eqn:E; [by apply (tracked_elem_of userId)|].
      unfold tracked in Hx. rewrite get_set in Hx. by apply elem_of_nil in Hx.
    + left. by apply list_elem_of_singleton in Hx.
Qed.

Lemma elem_of_removeFirst id l x : x ∈ removeFirst id l → x ∈ l.
Proof.
  induction l as [|y l IH]; simpl; [done|].
  destruct (String.eqb y id).
  - intros ?. by apply elem_of_cons; right.
  - intros [->|?]%elem_of_cons; apply elem_of_cons; [by left|right; by apply IH].
Qed.

Lemma removeFirst_keeps id l x : x ≠ id → x ∈ l → x ∈ removeFirst id l.
Proof.
  intros Hne. induction l as [|y l IH]; simpl; [done|].
  intros [<-|Hin]%elem_of_cons.
  - destruct (String.eqb_spec x id); [done|]. by apply elem_of_cons; left.
  - destruct (String.eqb y id); [done|]. apply elem_of_cons; right. by apply IH.
Qed.

Lemma elem_of_untrack id m entry x :
  entry ∈ untrack id m → x ∈ snd entry → ∃ entry', entry' ∈ m ∧ x ∈ snd entry'.
Proof.
  revert entry. induction m as [|[u cs] m IH]; intros entry; simpl.
  - by intros ?%elem_of_nil.
  - destruct (existsb (String.eqb id) cs).
    + destruct (removeFirst id cs) as [|c cs'] eqn:E.
      * intros Hin Hx. exists entry. split; [by apply elem_of_cons; right|done].
      * intros [->|Hin]%elem_of_cons Hx.
        -- exists (u, cs). split; [by apply elem_of_cons; left|]. simpl in *.
           apply (elem_of_removeFirst id). by rewrite E.
        -- exists entry. split; [by apply elem_of_cons; right|done].
    + intros [->|Hin]%elem_of_cons Hx.
      * exists (u, cs). split; [by apply elem_of_cons; left|done].
      * destruct (IH _ Hin Hx) as (entry' & ? & ?).
        exists entry'. split; [by apply elem_of_cons; right|done].
Qed.

Lemma tracked_untrack id userId m x :
  x ≠ id → x ∈ tracked userId m → x ∈ tracked userId (untrack id m).
Proof.
  intros Hne. unfold tracked. induction m as [|[u cs] m IH]; simpl; [done|].
  destruct (existsb (String.eqb id) cs).
  - destruct (Z.eqb_spec u userId) as [->|Hu].
    + simpl. intros Hx. pose proof (removeFirst_keeps id cs x Hne Hx) as Hk.
      destruct (removeFirst id cs) as [|c cs'] eqn:E; [by apply elem_of_nil in Hk|].
      simpl. by rewrite Z.eqb_refl.
    + intros Hx. destruct (removeFirst id cs) as [|c cs']; [done|].
      simpl. by destruct (Z.eqb_spec u userId).
  - simpl. destruct (Z.eqb_spec u userId); [done|]. apply IH.
Qed.

(** *** The invariant *)

Lemma issued_mono d d' id :
  (nextId d ≤ nextId d')%N → issued d id → issued d' id.
Proof. intros Hle (k & Hk & ->). exists k. split; [lia|done]. Qed.

Lemma issued_fresh d id : issued d id → id ≠ pretty (nextId d).
Proof. intros (k & Hk & ->) Heq. apply (inj pretty) in Heq. lia. Qed.

Lemma wf_fresh imgs : wf (fresh imgs).
Proof.
  split; simpl.
  - by intros c ?%elem_of_nil.
  - by intros entry id ?%elem_of_nil.
  - by intros c ?%elem_of_nil.
Qed.

Lemma cleaned_sublist userId s :
  containers (docker (cleaned userId s)) `sublist_of` containers (docker s).
Proof. apply stopAll_sublist. Qed.

Lemma cleaned_nextId userId s : nextId (docker (cleaned userId s)) = nextId (docker s).
Proof. apply stopAll_nextId. Qed.

Lemma cleaned_refuses userId s : refuses (docker (cleaned userId s)) = refuses (docker s).
Proof. apply stopAll_refuses. Qed.

Lemma obliging_cleaned userId s : obliging (docker s) → obliging (docker (cleaned userId s)).
Proof. intros H id. by rewrite cleaned_refuses. Qed.

(** The identifiers in use stay those the daemon handed out, whatever it
    answers to the requests to stop. *)
Lemma cleaned_ids userId s :
  wf s → ∀ c, c ∈ containers (docker (cleaned userId s)) →
              issued (docker (cleaned userId s)) (cId c).
Proof.
  intros [Hids _ _] c Hc. apply (issued_mono (docker s)); [rewrite cleaned_nextId; lia|].
  apply Hids. eapply elem_of_sublist; [done|apply cleaned_sublist].
Qed.

Lemma cleaned_tracked_ids userId s :
  wf s → ∀ entry id, entry ∈ activeContainers (cleaned userId s) → id ∈ snd entry →
                     issued (docker (cleaned userId s)) id.
Proof.
  intros [_ Htr _] entry id Hentry Hid.
  apply (issued_mono (docker s)); [rewrite cleaned_nextId; lia|].
  apply (Htr entry); [|done]. apply (elem_of_delete userId). exact Hentry.
Qed.

Lemma wf_cleaned userId s : wf s → obliging (docker s) → wf (cleaned userId s).
Proof.
  intros Hwf Hob. pose proof Hwf as [Hids Htr Hlive]. split.
  - by apply cleaned_ids.
  - by apply cleaned_tracked_ids.
  - intros c Hc Hrun. simpl.
    assert (c ∈ containers (docker s)) as Hc0
      by (eapply elem_of_sublist; [done|apply cleaned_sublist]).
    destruct (decide (nUser (cName c) = userId)) as [Hu|Hu].
    + exfalso. pose proof (Hlive c Hc0 Hrun) as Ht. rewrite Hu in Ht.
      pose proof (stopAll_idle _ (docker s) _ Ht (Hob _)) as Hidle.
      rewrite is_running_false in Hidle. specialize (Hidle c Hc eq_refl). congruence.
    + rewrite tracked_delete_ne by done. by apply Hlive.
Qed.

(** After the cleanup no container of the user is running, when the daemon
    stops what it is asked to stop. *)
Lemma live_cleaned userId s :
  wf s → obliging (docker s) → live userId (docker (cleaned userId s)) = [].
Proof.
  intros [Hids Htr Hlive] Hob. unfold live.
  destruct (filter _ _) as [|c l] eqn:E; [done|]. exfalso.
  assert (c ∈ filter (fun c => cRunning c && (nUser (cName c) =? userId)%Z)
                     (containers (docker (cleaned userId s)))) as Hc
    by (rewrite E; by apply elem_of_cons; left).
  apply list_elem_of_filter in Hc as [Hp Hc].
  apply Is_true_true, andb_true_iff in Hp as [Hrun Hu]. apply Z.eqb_eq in Hu.
  assert (c ∈ containers (docker s)) as Hc0
    by (eapply elem_of_sublist; [done|apply cleaned_sublist]).
  pose proof (Hlive c Hc0 Hrun) as Ht. rewrite Hu in Ht.
  pose proof (stopAll_idle _ (docker s) _ Ht (Hob _)) as Hidle.
  rewrite is_running_false in Hidle. specialize (Hidle c Hc eq_refl). congruence.
Qed.

(** *** [spinUpContainer] by cases *)

Lemma find_fresh id l c0 :
  (∀ c, c ∈ l → cId c ≠ id) → cId c0 = id →
  List.find (has_id id) (l ++ [c0]) = Some c0.
Proof.
  intros Hl H0. induction l as [|c l IH]; simpl.
  - unfold has_id. by rewrite H0, String.eqb_refl.
  - unfold has_id at 1. destruct (String.eqb_spec (cId c) id) as [E|E].
    + destruct (Hl c); [by apply elem_of_cons; left|done].
    + apply IH. intros c' Hc'. apply Hl. by apply elem_of_cons; right.
Qed.

Lemma set_running_fresh id l :
  (∀ c, c ∈ l → cId c ≠ id) → map (set_running id) l = l.
Proof.
  intros Hl. induction l as [|c l IH]; simpl; [done|].
  rewrite IH by (intros c' Hc'; apply Hl; by apply elem_of_cons; right).
  unfold set_running, has_id. destruct (String.eqb_spec (cId c) id) as [E|E]; [|done].
  destruct (Hl c); [by apply elem_of_cons; left|done].
Qed.

Lemma pretty_N_go_nonempty x s : s ≠ "" → pretty_N_go x s ≠ "".
Proof.
  revert s. induction (N.lt_wf_0 x) as [x _ IH]; intros s Hs.
  destruct (decide (x = 0%N)) as [->|Hx]; [by rewrite pretty_N_go_0|].
  rewrite pretty_N_go_step by lia. apply IH; [apply N.div_lt; lia|done].
Qed.

Lemma pretty_N_nonempty (x : N) : pretty x ≠ "".
Proof.
  unfold pretty, pretty_N. destruct (decide (x = 0%N)); [done|].
  rewrite pretty_N_go_step by lia. by apply pretty_N_go_nonempty.
Qed.

Lemma pretty_Z_nonempty (x : Z) : pretty x ≠ "".
Proof.
  destruct x as [|p|p]; [done|apply pretty_N_nonempty|done].
Qed.

Lemma ownImage_nonempty subject image : ownImage subject = Some image → image ≠ "".
Proof.
  unfold ownImage. repeat case_match; intros [= <-]; done.
Qed.

Lemma call_eq {A} (f : daemon → outcome A * daemon) s r d :
  f (docker s) = (r, d) → call f s = (r, with_docker d s).
Proof. unfold call. by intros ->. Qed.

Lemma port_in_use_added p d c :
  cRunning c = false → port_in_use p (added c d) = port_in_use p d.
Proof.
  intros Hc. unfold port_in_use, added. simpl.
  rewrite existsb_app. simpl. rewrite Hc. simpl. by rewrite !orb_false_r.
Qed.

(** A subject without an own property never reaches a created container:
    either the lookup is undefined and the guard throws, or it finds a
    member of [Object.prototype] and the daemon refuses the request. *)
Lemma spinUpContainer_no_image subject userId e s :
  ownImage subject = None →
  spinUpContainer subject userId e s =
  if bool_decide (subject ∈ objectPrototype) then
    (Throw "(HTTP code 400) bad parameter - invalid reference format",
     {| activeContainers := activeContainers (cleaned userId s);
        docker := docker (cleaned userId s); templateWorkspace := true |})
  else
    (Throw ("No Docker image defined for subject: " +:+ subject), cleaned userId s).
Proof.
  intros Eimg. unfold spinUpContainer, subjectToImage.
  rewrite (bind_ret _ _ _ _ _ (cleanupUserContainers_eq userId s)).
  cbv zeta. rewrite Eimg.
  destruct (bool_decide (subject ∈ objectPrototype)) eqn:Eproto; [|done].
  assert (∃ v, (if String.eqb subject "__proto__" then Object
                else Function subject) = v ∧ truthy v = true
               ∧ match v with Str _ => False | _ => True end)
    as (v & -> & Hv & Hns).
  { destruct (String.eqb subject "__proto__"); eexists; split; done. }
  rewrite Hv. cbn [negb].
  erewrite bind_ret; [|reflexivity].
  erewrite bind_throw; [|apply call_eq; unfold createContainer; by destruct v].
  reflexivity.
Qed.

Lemma spinUpContainer_flat subject userId e s :
  wf s → spinUpContainer subject userId e s = spinUpFlat subject userId e s.
Proof.
  intros Hwf. destruct (ownImage subject) as [image|] eqn:Eimg.
  2:{ rewrite spinUpContainer_no_image by done. unfold spinUpFlat. by rewrite Eimg. }
  pose proof (cleaned_ids userId s Hwf) as Hids.
  unfold spinUpContainer, spinUpFlat, subjectToImage. rewrite Eimg.
  rewrite (bind_ret _ _ _ _ _ (cleanupUserContainers_eq userId s)).
  set (s1 := cleaned userId s) in *. set (d1 := docker s1) in *.
  cbv zeta.
  set (s2 := {| activeContainers := activeContainers s1; docker := d1;
                templateWorkspace := true |}).
  assert (ensureTemplateWorkspace s1 = (Ret tt, s2)) as Hensure by reflexivity.
  assert (truthy (Str image) = true) as ->.
  { simpl. apply ownImage_nonempty in Eimg.
    by destruct (String.eqb_spec image ""). }
  {
    cbn [negb]. rewrite (bind_ret _ _ _ _ _ Hensure).
    set (name := {| nUser := userId; nStamp := now e |}).
    destruct (bool_decide (image ∈ images d1)) eqn:E1.
    2:{ erewrite bind_throw; [|apply call_eq; unfold createContainer;
                                 simpl docker; by rewrite E1].
        reflexivity. }
    destruct (existsb _ (containers d1)) eqn:E2.
    { erewrite bind_throw; [|apply call_eq; unfold createContainer;
                               simpl docker; fold name; by rewrite E1, E2].
      reflexivity. }
    assert (∀ c, c ∈ containers d1 → cId c ≠ pretty (nextId d1)) as Hfresh.
    { intros c Hc. apply issued_fresh, Hids, Hc. }
    set (c0 := newContainer d1 userId e image false).
    set (c1 := newContainer d1 userId e image true).
    rewrite (bind_ret _ _ s2 (pretty (nextId d1)) (with_docker (added c0 d1) s2)).
    2:{ apply call_eq. unfold createContainer. simpl docker. fold name.
        rewrite E1, E2. reflexivity. }
    set (s3 := with_docker (added c0 d1) s2).
    assert (find (pretty (nextId d1)) (added c0 d1) = Some c0) as Hfind0
      by (by apply find_fresh).
    assert (start (pretty (nextId d1)) (docker s3)
            = if port_in_use (pretty (getPort e)) d1
              then (Throw "(HTTP code 500) server error - port is already allocated",
                    added c0 d1)
              else (Ret tt, added c1 d1)) as Hstart.
    { change (docker s3) with (added c0 d1). unfold start. rewrite Hfind0.
      simpl cRunning. cbv iota. simpl cHostPort.
      rewrite port_in_use_added by done.
      destruct (port_in_use (pretty (getPort e)) d1); [done|]. f_equal.
      unfold with_containers, added. simpl. f_equal.
      rewrite map_app, set_running_fresh by done. simpl. f_equal.
      unfold set_running, has_id. simpl. by rewrite String.eqb_refl. }
    destruct (port_in_use (pretty (getPort e)) d1) eqn:E3.
    { erewrite (bind_throw _ _ s3); [|apply call_eq, Hstart]. reflexivity. }
    rewrite (bind_ret _ _ s3 tt (with_docker (added c1 d1) s3));
      [|apply call_eq, Hstart].
    set (s4 := with_docker (added c1 d1) s3).
    assert (find (pretty (nextId d1)) (added c1 d1) = Some c1) as Hfind1
      by (by apply find_fresh).
    rewrite (bind_ret _ _ s4 {| Id := pretty (nextId d1);
                                HostPort := Some (pretty (getPort e)) |} s4).
    2:{ unfold query, inspect. change (docker s4) with (added c1 d1).
        by rewrite Hfind1. }
    cbn [HostPort Id].
    destruct (String.eqb_spec (pretty (getPort e)) "") as [E|_];
      [by apply pretty_Z_nonempty in E|].
    erewrite bind_ret; [|reflexivity].
    erewrite bind_ret.
    2:{ unfold query, logs. simpl docker. rewrite Hfind1. reflexivity. }
    reflexivity.
  }
Qed.

(** *** The invariant is kept by every operation *)

Lemma wf_ready s d :
  wf {| activeContainers := activeContainers s; docker := d;
        templateWorkspace := templateWorkspace s |} →
  wf {| activeContainers := activeContainers s; docker := d;
        templateWorkspace := true |}.
Proof. intros [H1 H2 H3]. by split. Qed.

Lemma issued_added c d : issued (added c d) (pretty (nextId d)).
Proof. exists (nextId d). split; [simpl; lia|done]. Qed.

Lemma issued_added_mono c d id : issued d id → issued (added c d) id.
Proof. apply issued_mono. simpl. lia. Qed.

Lemma wf_added_idle s c :
  wf s → cId c = pretty (nextId (docker s)) → cRunning c = false →
  wf {| activeContainers := activeContainers s; docker := added c (docker s);
        templateWorkspace := true |}.
Proof.
  intros [Hids Htr Hlive] Hid Hidle. split; simpl.
  - intros c' [Hc'| ->%list_elem_of_singleton]%elem_of_app.
    + by apply issued_added_mono, Hids.
    + rewrite Hid. apply issued_added.
  - intros entry id Hentry Hin. eapply issued_added_mono, Htr; eauto.
  - intros c' [Hc'| ->%list_elem_of_singleton]%elem_of_app Hrun.
    + by apply Hlive.
    + congruence.
Qed.

Lemma wf_added_tracked s userId e image :
  wf s →
  wf {| activeContainers :=
          track userId (pretty (nextId (docker s))) (activeContainers s);
        docker := added (newContainer (docker s) userId e image true) (docker s);
        templateWorkspace := true |}.
Proof.
  intros [Hids Htr Hlive]. split; simpl.
  - intros c' [Hc'| ->%list_elem_of_singleton]%elem_of_app.
    + by apply issued_added_mono, Hids.
    + apply issued_added.
  - intros entry id Hentry Hin.
    destruct (elem_of_track _ _ _ _ _ Hentry Hin) as [->|(entry' & He' & Hin')].
    + apply issued_added.
    + eapply issued_added_mono, Htr; eauto.
  - intros c' [Hc'| ->%list_elem_of_singleton]%elem_of_app Hrun.
    + destruct (decide (userId = nUser (cName c'))) as [Heq|Hne].
      * rewrite <- Heq, tracked_track. apply elem_of_app; left.
        rewrite Heq. by apply Hlive.
      * rewrite tracked_track_ne by done. by apply Hlive.
    + simpl. rewrite tracked_track. apply elem_of_app; right.
      by apply list_elem_of_singleton.
Qed.

Lemma state_eta s :
  {| activeContainers := activeContainers s; docker := docker s;
     templateWorkspace := templateWorkspace s |} = s.
Proof. by destruct s. Qed.

Lemma wf_spinUpFlat subject userId e s :
  wf s → obliging (docker s) → wf (snd (spinUpFlat subject userId e s)).
Proof.
  intros Hwf Hob. pose proof (wf_cleaned userId s Hwf Hob) as Hc.
  assert (wf {| activeContainers := activeContainers (cleaned userId s);
                docker := docker (cleaned userId s);
                templateWorkspace := true |}) as Hready.
  { apply (wf_ready (cleaned userId s)). by rewrite state_eta. }
  unfold spinUpFlat. cbv zeta.
  repeat case_match; cbn [snd]; try done.
  - by apply (wf_added_idle (cleaned userId s)).
  - by apply (wf_added_tracked (cleaned userId s)).
Qed.

Lemma wf_spinUpContainer subject userId e s :
  wf s → obliging (docker s) → wf (snd (spinUpContainer subject userId e s)).
Proof. intros Hwf Hob. rewrite spinUpContainer_flat by done. by apply wf_spinUpFlat. Qed.

(** No operation changes what the daemon refuses. *)
Lemma refuses_spinUpContainer subject userId e s :
  wf s → refuses (docker (snd (spinUpContainer subject userId e s))) = refuses (docker s).
Proof.
  intros Hwf. rewrite spinUpContainer_flat by done. unfold spinUpFlat. cbv zeta.
  repeat case_match; cbn [snd docker added refuses]; apply cleaned_refuses.
Qed.

Lemma obliging_spinUpContainer subject userId e s :
  wf s → obliging (docker s) →
  obliging (docker (snd (spinUpContainer subject userId e s))).
Proof. intros Hwf Hob id. by rewrite refuses_spinUpContainer. Qed.

Lemma obliging_fresh imgs : obliging (docker (fresh imgs)).
Proof. by intros id. Qed.

(** [stopContainer] never throws; it changes the state only when the
    container was running and the daemon stopped it. *)
Lemma stopContainer_eq id s :
  stopContainer id s =
  (Ret tt,
   if is_running id (docker s) && negb (refuses (docker s) id) then
     {| activeContainers := untrack id (activeContainers s);
        docker := remove id (docker s);
        templateWorkspace := templateWorkspace s |}
   else s).
Proof.
  unfold stopContainer, tryCatch.
  destruct (is_running id (docker s)) eqn:E.
  - destruct (refuses (docker s) id) eqn:R; cbn [negb andb].
    + destruct (stop_refused _ _ E R) as [m Hm].
      erewrite bind_throw; [|apply call_eq, Hm]. by rewrite with_docker_id.
    + erewrite bind_ret; [|by apply call_eq, stop_running]. reflexivity.
  - cbn [andb]. destruct (stop_idle _ _ E) as [m Hm].
    erewrite bind_throw; [|apply call_eq, Hm]. by rewrite with_docker_id.
Qed.

Lemma refuses_stopContainer id s :
  refuses (docker (snd (stopContainer id s))) = refuses (docker s).
Proof. rewrite stopContainer_eq. cbn [snd]. by destruct (_ && _). Qed.

Lemma wf_stopContainer id s : wf s → wf (snd (stopContainer id s)).
Proof.
  intros [Hids Htr Hlive]. rewrite stopContainer_eq. simpl.
  destruct (_ && _); [|by split]. split; simpl.
  - intros c [Hc _]%elem_of_remove. by apply Hids.
  - intros entry x Hentry Hx.
    destruct (elem_of_untrack _ _ _ _ Hentry Hx) as (entry' & ? & ?).
    by apply (Htr entry').
  - intros c [Hc Hne]%elem_of_remove Hrun.
    apply tracked_untrack; [done|by apply Hlive].
Qed.

Lemma wf_cleanupUserContainers userId s :
  wf s → obliging (docker s) → wf (snd (cleanupUserContainers userId s)).
Proof. rewrite cleanupUserContainers_eq. apply wf_cleaned. Qed.

(** *** At most one live instance per user *)

Lemma live_added userId c d :
  live userId (added c d) =
  live userId d ++
    (if (cRunning c && (nUser (cName c) =? userId))%bool then [c] else []).
Proof.
  unfold live, added. simpl. rewrite filter_app. f_equal.
  rewrite filter_cons, filter_nil.
  destruct (cRunning c && (nUser (cName c) =? userId))%bool eqn:E.
  - rewrite decide_True; [done|by apply Is_true_true].
  - rewrite decide_False; [done|by apply Is_true_false].
Qed.

Lemma oneLive_sublist s s' :
  containers (docker s') `sublist_of` containers (docker s) →
  oneLive s → oneLive s'.
Proof.
  intros Hsub H userId. etrans; [|apply (H userId)].
  by apply sublist_length, live_sublist.
Qed.

Lemma oneLive_spinUpContainer subject userId e s :
  wf s → obliging (docker s) → oneLive s →
  oneLive (snd (spinUpContainer subject userId e s)).
Proof.
  intros Hwf Hob Hone. rewrite spinUpContainer_flat by done.
  assert (oneLive (cleaned userId s)) as Hc
    by (eapply oneLive_sublist; [apply cleaned_sublist|done]).
  unfold spinUpFlat. cbv zeta. repeat case_match; cbn [snd]; try done.
  - intros v. cbn [docker]. rewrite live_added. cbn [newContainer cRunning andb].
    rewrite app_nil_r. apply Hc.
  - intros v. cbn [docker]. rewrite live_added.
    cbn [newContainer cRunning cName nUser andb].
    destruct (Z.eqb_spec userId v) as [<-|Hne].
    + by rewrite live_cleaned.
    + rewrite app_nil_r. apply Hc.
Qed.

Lemma oneLive_stopContainer id s : oneLive s → oneLive (snd (stopContainer id s)).
Proof.
  intros Hone. rewrite stopContainer_eq. simpl.
  destruct (_ && _); [|done].
  eapply oneLive_sublist; [|done]. apply remove_sublist.
Qed.

Lemma oneLive_fresh imgs : oneLive (fresh imgs).
Proof. intros userId. simpl. lia. Qed.

(** *** Supported and unsupported subjects *)

Lemma ownImage_supported subject :
  subject ∈ supported → ∃ image, ownImage subject = Some image.
Proof.
  unfold supported. rewrite !elem_of_cons, elem_of_nil.
  intros [->|[->|[->|[->|[]]]]]; eexists; reflexivity.
Qed.

Lemma ownImage_unsupported subject : subject ∉ supported → ownImage subject = None.
Proof.
  unfold supported, ownImage. rewrite !not_elem_of_cons. intros (H1 & H2 & H3 & H4 & _).
  destruct (String.eqb_spec subject "JavaScript"); [done|].
  destruct (String.eqb_spec subject "Java"); [done|].
  destruct (String.eqb_spec subject "C++"); [done|].
  destruct (String.eqb_spec subject "Python"); done.
Qed.

Lemma port_in_use_sublist p d d' :
  containers d' `sublist_of` containers d →
  port_in_use p d = false → port_in_use p d' = false.
Proof.
  unfold port_in_use. intros Hsub H.
  apply not_true_iff_false. intros (c & Hc & Hp)%existsb_exists.
  apply not_true_iff_false in H. apply H, existsb_exists. exists c. split; [|done].
  apply list_elem_of_In. eapply elem_of_sublist; [by apply list_elem_of_In|done].
Qed.

Lemma name_free_sublist n d d' :
  containers d' `sublist_of` containers d →
  (∀ c, c ∈ containers d → cName c ≠ n) →
  existsb (fun c => name_eqb (cName c) n) (containers d') = false.
Proof.
  intros Hsub H. apply not_true_iff_false. intros (c & Hc & Hn)%existsb_exists.
  apply list_elem_of_In in Hc. apply (H c); [by eapply elem_of_sublist|].
  unfold name_eqb in Hn. apply andb_true_iff in Hn as [Hu Ht].
  apply Z.eqb_eq in Hu, Ht. destruct (cName c), n; simpl in *; congruence.
Qed.

Lemma is_running_added id c d :
  is_running id (added c d) = (is_running id d || (has_id id c && cRunning c))%bool.
Proof.
  unfold is_running, added. simpl. rewrite existsb_app. simpl. by rewrite orb_false_r.
Qed.

(** Every error of [spinUpContainer] is the guard's or the daemon's. *)
Lemma spinUpContainer_errors subject userId e s message s' :
  wf s → spinUpContainer subject userId e s = (Throw message, s') →
  startsWith message "No Docker image defined" = true
  ∨ startsWith message "(HTTP code" = true.
Proof.
  intros Hwf. rewrite spinUpContainer_flat by done. unfold spinUpFlat. cbv zeta.
  repeat case_match; intros [= <- _]; auto.
Qed.

(** C1, as the code has it: for every supported language
    [spinUpContainer] takes the port [getPort] chose, has the daemon create
    and start the container of that language's image with port 8080
    published there, tracks it, and returns [http://localhost:<port>] as
    soon as the daemon reports the mapping.  Nothing in the call probes
    whether the editor answers, so the result is the same whether or not
    the instance ever becomes reachable. *)
Theorem C1_spinUp_returns_mapped_port subject userId e s :
  wf s →
  subject ∈ supported →
  (∀ image, ownImage subject = Some image → image ∈ images (docker s)) →
  (∀ c, c ∈ containers (docker s) →
        cName c ≠ {| nUser := userId; nStamp := now e |}) →
  port_in_use (pretty (getPort e)) (docker s) = false →
  ∃ image s',
    ownImage subject = Some image
    ∧ spinUpContainer subject userId e s
      = (Ret ("http://localhost:" +:+ pretty (getPort e),
              pretty (nextId (docker s))), s')
    ∧ newContainer (docker s) userId e image true ∈ containers (docker s')
    ∧ is_running (pretty (nextId (docker s))) (docker s') = true
    ∧ tracked userId (activeContainers s') = [pretty (nextId (docker s))].
Proof.
  intros Hwf Hsup Himg Hname Hport.
  destruct (ownImage_supported _ Hsup) as [image Eimg].
  rewrite spinUpContainer_flat by done. unfold spinUpFlat. cbv zeta.
  rewrite Eimg, !cleaned_nextId.
  rewrite bool_decide_eq_true_2
    by (cbn [cleaned docker]; rewrite stopAll_images; by apply Himg).
  rewrite (name_free_sublist _ (docker s)) by (apply cleaned_sublist || done).
  rewrite (port_in_use_sublist _ (docker s)) by (apply cleaned_sublist || done).
  exists image. eexists. split; [done|]. split; [reflexivity|].
  cbn [docker activeContainers]. repeat split.
  - unfold added. cbn [containers]. apply elem_of_app; right.
    apply list_elem_of_singleton. unfold newContainer. by rewrite cleaned_nextId.
  - rewrite is_running_added. apply orb_true_iff; right.
    unfold newContainer, has_id. cbn [cId cRunning].
    by rewrite cleaned_nextId, String.eqb_refl.
  - rewrite tracked_track. cbn [cleaned activeContainers].
    by rewrite tracked_delete.
Qed.

(** C1, the witness: a JavaScript workspace for user 7 on a fresh server. *)
Lemma C1_spinUp_returns_mapped_port_witness :
  ∃ image s',
    ownImage "JavaScript" = Some image
    ∧ spinUpContainer "JavaScript" 7 Examples.firstCall Examples.server
      = (Ret ("http://localhost:" +:+ pretty (getPort Examples.firstCall),
              pretty (nextId (docker Examples.server))), s')
    ∧ newContainer (docker Examples.server) 7 Examples.firstCall image true
        ∈ containers (docker s')
    ∧ is_running (pretty (nextId (docker Examples.server))) (docker s') = true
    ∧ tracked 7 (activeContainers s') = [pretty (nextId (docker Examples.server))].
Proof.
  apply (C1_spinUp_returns_mapped_port "JavaScript" 7 Examples.firstCall Examples.server).
  - apply wf_fresh.
  - unfold supported. apply elem_of_cons. by left.
  - intros image [= <-]. unfold Examples.server, Examples.allImages. simpl.
    apply elem_of_cons. by left.
  - intros c Hc. simpl in Hc. by apply elem_of_nil in Hc.
  - reflexivity.
Defined.

(** C1, the counterexample: on a network where nothing ever answers, the
    call still returns an editor URL as a success; there is no wait for
    reachability and no timeout error. *)
Lemma C1_no_reachability_wait : ¬ waitsForReachability.
Proof.
  intros H.
  specialize (H (fun _ => false) "JavaScript" 7 Examples.firstCall Examples.server).
  assert ("JavaScript" ∈ supported) as Hs by (apply elem_of_cons; by left).
  specialize (H Hs). vm_compute in H. discriminate H.
Qed.

(** *** One live instance per user *)

Lemma spinUpFlat_success subject userId e s url id s' :
  spinUpFlat subject userId e s = (Ret (url, id), s') →
  ∃ image,
    url = "http://localhost:" +:+ pretty (getPort e)
    ∧ id = pretty (nextId (docker (cleaned userId s)))
    ∧ s' = {| activeContainers := track userId id (activeContainers (cleaned userId s));
              docker := added (newContainer (docker (cleaned userId s)) userId e image true)
                              (docker (cleaned userId s));
              templateWorkspace := true |}.
Proof.
  unfold spinUpFlat. cbv zeta. repeat case_match; intros [= <- <- <-].
  by eexists.
Qed.



(** What the assumption on the daemon excludes: when the daemon fails the
    request to stop the first instance, the second call still provisions,
    and both instances are live while only the second is tracked. *)
Lemma refused_stop_leaves_both_live :
  ∃ s2,
    spinUpContainer "Python" 7 Examples.secondCall Examples.stubborn
    = (Ret ("http://localhost:51877", "1"), s2)
    ∧ map cId (live 7 (docker s2)) = ["0"; "1"]
    ∧ tracked 7 (activeContainers s2) = ["1"].
Proof. eexists. split; [vm_compute; reflexivity|]. split; reflexivity. Qed.

(** At any instant between calls, at most one instance per user is live:
    next to a daemon that stops what it is asked to stop, the bound holds
    on a fresh server and every operation keeps it. *)
Lemma one_live_instance_invariant :
  (∀ imgs, wf (fresh imgs) ∧ oneLive (fresh imgs) ∧ obliging (docker (fresh imgs)))
  ∧ (∀ subject userId e s, wf s → oneLive s → obliging (docker s) →
       wf (snd (spinUpContainer subject userId e s))
       ∧ oneLive (snd (spinUpContainer subject userId e s))
       ∧ obliging (docker (snd (spinUpContainer subject userId e s))))
  ∧ (∀ id s, wf s → oneLive s → obliging (docker s) →
       wf (snd (stopContainer id s)) ∧ oneLive (snd (stopContainer id s))
       ∧ obliging (docker (snd (stopContainer id s)))).
Proof.
  split; [|split].
  - intros imgs. split; [apply wf_fresh|]. split; [apply oneLive_fresh|apply obliging_fresh].
  - intros subject userId e s Hwf Hone Hob.
    split; [by apply wf_spinUpContainer|].
    split; [by apply oneLive_spinUpContainer|by apply obliging_spinUpContainer].
  - intros id s Hwf Hone Hob.
    split; [by apply wf_stopContainer|]. split; [by apply oneLive_stopContainer|].
    intros x. by rewrite refuses_stopContainer.
Qed.

(** *** Releasing *)

(** C8: [stopContainer] called twice in succession on any identifier
    returns normally both times, and the second call, which finds the
    instance stopped or unknown, leaves the state as it is. *)
Theorem C8_stopContainer_twice containerId s :
  fst (stopContainer containerId s) = Ret tt
  ∧ fst (stopContainer containerId (snd (stopContainer containerId s))) = Ret tt
  ∧ snd (stopContainer containerId (snd (stopContainer containerId s)))
    = snd (stopContainer containerId s)
  ∧ Routes.status (fst (Routes.stop containerId s)) = 200
  ∧ Routes.status
      (fst (Routes.stop containerId (snd (stopContainer containerId s)))) = 200.
Proof.
  unfold Routes.stop. rewrite !stopContainer_eq. cbn [fst snd].
  repeat split.
  destruct (is_running containerId (docker s) && negb (refuses (docker s) containerId))
    eqn:E.
  - cbn [docker]. by rewrite is_running_remove.
  - by rewrite E.
Qed.

(** A stopped or unknown instance: the call is a no-operation. *)
Lemma stopContainer_idle containerId s :
  is_running containerId (docker s) = false →
  stopContainer containerId s = (Ret tt, s).
Proof. intros H. by rewrite stopContainer_eq, H. Qed.

(** So it is when the daemon fails the request: the error is caught, the
    instance goes on running and stays tracked. *)
Lemma stopContainer_refused containerId s :
  refuses (docker s) containerId = true →
  stopContainer containerId s = (Ret tt, s).
Proof. intros H. by rewrite stopContainer_eq, H, andb_false_r. Qed.

(** *** Unsupported subjects *)

Lemma has_get userId (m : Map (list string)) :
  has userId m = true → get userId m ≠ None.
Proof. unfold has. by destruct (get userId m). Qed.

(** C9: for every user, a [spinUpContainer] call with a subject outside
    the supported set fails, but only after [cleanupUserContainers] has
    run: the user's entry is gone from [activeContainers], every instance
    that was tracked for the user and that the daemon does not refuse to
    stop is stopped, and a user who had an entry is left with a changed
    state.  An instance that the daemon refuses to stop goes on running,
    untracked.  When the lookup is undefined the error is the guard's. *)
Theorem C9_cleanup_before_language_check subject userId e s :
  subject ∉ supported →
  ∃ message s',
    spinUpContainer subject userId e s = (Throw message, s')
    ∧ get userId (activeContainers s') = None
    ∧ (∀ id, id ∈ tracked userId (activeContainers s) →
             refuses (docker s) id = false →
             is_running id (docker s') = false)
    ∧ (has userId (activeContainers s) = true → s' ≠ s)
    ∧ (subjectToImage subject = Undefined →
       message = "No Docker image defined for subject: " +:+ subject)
    ∧ (∀ id, refuses (docker s) id = true →
             is_running id (docker s') = is_running id (docker s)).
Proof.
  intros Hsub. pose proof (ownImage_unsupported _ Hsub) as Eimg.
  rewrite spinUpContainer_no_image by done.
  unfold subjectToImage. rewrite Eimg.
  destruct (bool_decide (subject ∈ objectPrototype));
    eexists; eexists; (split; [reflexivity|]); cbn [activeContainers docker cleaned].
  - split; [apply get_delete|]. split; [intros id Hid R; by apply stopAll_idle|].
    split; [|split].
    + intros Hhas Heq. apply (has_get _ _ Hhas).
      rewrite <- Heq. cbn [activeContainers]. apply get_delete.
    + by destruct (String.eqb subject "__proto__").
    + intros id R. by apply stopAll_refused.
  - split; [apply get_delete|]. split; [intros id Hid R; by apply stopAll_idle|].
    split; [|split; [done|]].
    + intros Hhas Heq. apply (has_get _ _ Hhas).
      rewrite <- Heq. cbn [activeContainers]. apply get_delete.
    + intros id R. by apply stopAll_refused.
Qed.

(** C9, the witness: user 7, who has a JavaScript workspace, asks for Ruby. *)
Lemma C9_cleanup_before_language_check_witness :
  ∃ message s',
    spinUpContainer "Ruby" 7 Examples.secondCall Examples.provisioned
      = (Throw message, s')
    ∧ get 7 (activeContainers s') = None
    ∧ (∀ id, id ∈ tracked 7 (activeContainers Examples.provisioned) →
             refuses (docker Examples.provisioned) id = false →
             is_running id (docker s') = false)
    ∧ (has 7 (activeContainers Examples.provisioned) = true →
       s' ≠ Examples.provisioned)
    ∧ (subjectToImage "Ruby" = Undefined →
       message = "No Docker image defined for subject: " +:+ "Ruby")
    ∧ (∀ id, refuses (docker Examples.provisioned) id = true →
             is_running id (docker s') = is_running id (docker Examples.provisioned)).
Proof.
  apply (C9_cleanup_before_language_check "Ruby" 7 Examples.secondCall
           Examples.provisioned).
  unfold supported. rewrite !not_elem_of_cons. repeat split; try discriminate.
  apply not_elem_of_nil.
Defined.

(** The same call next to the daemon that refuses to stop container 0:
    the entry of user 7 is deleted, and the container goes on running. *)
Lemma refused_stop_leaves_an_orphan :
  ∃ message s',
    spinUpContainer "Ruby" 7 Examples.secondCall Examples.stubborn = (Throw message, s')
    ∧ get 7 (activeContainers s') = None
    ∧ map cId (live 7 (docker s')) = ["0"].
Proof. eexists. eexists. split; [vm_compute; reflexivity|]. split; reflexivity. Qed.

(** A subject whose lookup is undefined is answered with status 400, and
    nothing is created: the daemon only loses containers. *)
Lemma spinUp_route_rejects_undefined subject userId e s :
  userId ≠ 0 → subjectToImage subject = Undefined →
  Routes.status (fst (Routes.spinUp subject (Some userId) e s)) = 400
  ∧ containers (docker (snd (Routes.spinUp subject (Some userId) e s)))
      `sublist_of` containers (docker s)
  ∧ nextId (docker (snd (Routes.spinUp subject (Some userId) e s)))
    = nextId (docker s).
Proof.
  intros Hid Hundef. unfold Routes.spinUp.
  destruct (Z.eqb_spec userId 0) as [|_]; [done|].
  assert (ownImage subject = None ∧ bool_decide (subject ∈ objectPrototype) = false)
    as [Eimg Eproto].
  { unfold subjectToImage in Hundef. destruct (ownImage subject); [done|].
    destruct (bool_decide (subject ∈ objectPrototype)); [|done].
    by destruct (String.eqb subject "__proto__"). }
  rewrite spinUpContainer_no_image, Eproto by done.
  cbn [fst snd Routes.status]. repeat split.
  - apply cleaned_sublist.
  - apply cleaned_nextId.
Qed.

(** C5, at the failing input: the subject [constructor] is outside the
    supported set, yet the lookup in the object literal finds the
    inherited [Object.prototype.constructor], the guard does not throw,
    and the route answers 500 with the daemon's error instead of 400. *)
Theorem C5_inherited_key_answers_500 :
  ("constructor" ∉ supported)
  ∧ truthy (subjectToImage "constructor") = true
  ∧ Routes.spinUp "constructor" (Some 7) Examples.firstCall Examples.server
    = ({| Routes.status := 500;
          Routes.json := Routes.Message
            "(HTTP code 400) bad parameter - invalid reference format" |},
       {| activeContainers := [];
          docker := docker Examples.server;
          templateWorkspace := true |}).
Proof.
  split; [|split; reflexivity].
  unfold supported. rewrite !not_elem_of_cons. repeat split; try discriminate.
  apply not_elem_of_nil.
Qed.

(** The same on every state: a member of [Object.prototype] is never
    answered with 400. *)
Lemma spinUp_route_inherited_key subject userId e s :
  userId ≠ 0 → subject ∈ objectPrototype →
  Routes.status (fst (Routes.spinUp subject (Some userId) e s)) = 500.
Proof.
  intros Hid Hproto. unfold Routes.spinUp.
  destruct (Z.eqb_spec userId 0) as [|_]; [done|].
  assert (ownImage subject = None) as Eimg.
  { unfold objectPrototype in Hproto. rewrite !elem_of_cons, elem_of_nil in Hproto.
    by destruct Hproto as [->|[->|[->|[->|[->|[->|[->|[->|[->|[->|[->|[->|[]]]]]]]]]]]]]. }
  rewrite spinUpContainer_no_image by done.
  by rewrite bool_decide_eq_true_2.
Qed.

(** *** The capture target of a submission *)

(** C10: the capture started by [POST /api/submit] is aimed at
    [http://localhost:<8080 + userId>], computed from the user alone,
    whereas [spinUpContainer] publishes the workspace at the port
    [getPort] chose; the two URLs coincide exactly when that port is
    [8080 + userId]. *)
Theorem C10_submission_capture_target userId subject code st language e s url id s' :
  wf s →
  spinUpContainer language userId e s = (Ret (url, id), s') →
  ∃ response st',
    Routes.submit (Some userId) (Some subject) (Some code) st
    = (response, st',
       Some {| Routes.containerUrl := "http://localhost:" +:+ pretty (8080 + userId);
               Routes.captureUser := userId;
               Routes.captureSubject := subject;
               Routes.captureEvent := "submission" |})
    ∧ url = "http://localhost:" +:+ pretty (getPort e)
    ∧ (url = "http://localhost:" +:+ pretty (8080 + userId)
       ↔ getPort e = 8080 + userId).
Proof.
  intros Hwf Hspin. rewrite spinUpContainer_flat in Hspin by done.
  apply spinUpFlat_success in Hspin as (image & -> & _ & _).
  eexists. eexists. split; [reflexivity|]. split; [done|]. split.
  - intros Heq. apply (inj (String.app _)) in Heq. by apply (inj pretty) in Heq.
  - by intros ->.
Qed.

(** C10, the witness: user 7 submits while the workspace is on port 51234. *)
Lemma C10_submission_capture_target_witness :
  ∃ response st',
    Routes.submit (Some 7) (Some "JavaScript") (Some "let x = 1;")
      {| Routes.submissions := []; Routes.currentSubmissionId := 1 |}
    = (response, st',
       Some {| Routes.containerUrl := "http://localhost:" +:+ pretty (8080 + 7);
               Routes.captureUser := 7;
               Routes.captureSubject := "JavaScript";
               Routes.captureEvent := "submission" |})
    ∧ "http://localhost:51234" = "http://localhost:" +:+ pretty (getPort Examples.firstCall)
    ∧ ("http://localhost:51234" = "http://localhost:" +:+ pretty (8080 + 7)
       ↔ getPort Examples.firstCall = 8080 + 7).
Proof.
  apply (C10_submission_capture_target 7 "JavaScript" "let x = 1;" _ "JavaScript"
           Examples.firstCall Examples.server "http://localhost:51234" "0"
           Examples.provisioned).
  - apply wf_fresh.
  - vm_compute. reflexivity.
Defined.

End Provisioning.

(** ** The artifact store *)

Module Store.
Import MongoDB Spec.

(** C3: [saveScreenshot] given an artifact whose image payload is missing,
    zero-length or without the [data:image/] prefix throws, and the
    collection is left as it was, so that no identifier retrieves anything
    it did not retrieve before. *)
Theorem C3_save_rejects_invalid_payload (d : screenshotData) (date : Z) (c : collection) :
  missing (image d) ∨ zeroLength (image d) ∨ untagged (image d) →
  ∃ message,
    saveScreenshot d date c = (Throw message, c)
    ∧ ∀ id, findOne id (snd (saveScreenshot d date c)) = findOne id c.
Proof.
  intros H.
  assert (∃ message, saveScreenshot d date c = (Throw message, c)) as [message Hm].
  { unfold missing, zeroLength, untagged, saveScreenshot in *.
    destruct H as [[H|H]|[H|(text & H & Hp)]]; rewrite H; simpl; eauto.
    destruct (String.eqb text ""); simpl; eauto.
    rewrite Hp. simpl. eauto. }
  exists message. split; [done|]. intros id. by rewrite Hm.
Qed.

(** C3, the witness: raw base64 without the prefix, offered to an empty store. *)
Lemma C3_save_rejects_invalid_payload_witness :
  ∃ message,
    saveScreenshot Examples.untaggedShot 0 Examples.emptyStore
      = (Throw message, Examples.emptyStore)
    ∧ ∀ id, findOne id (snd (saveScreenshot Examples.untaggedShot 0 Examples.emptyStore))
            = findOne id Examples.emptyStore.
Proof.
  apply (C3_save_rejects_invalid_payload Examples.untaggedShot 0 Examples.emptyStore).
  right; right. exists "/9j/4AAQSkZJRgABAQAAAQABAAD". split; reflexivity.
Defined.

(** Any value that is not a string is refused as well. *)
Lemma save_rejects_non_string (d : screenshotData) (date : Z) (c : collection) :
  notString (image d) = true →
  saveScreenshot d date c
  = (Throw "Invalid screenshot: image data is missing or not a string", c).
Proof.
  intros H. unfold saveScreenshot. rewrite H, orb_true_r. reflexivity.
Qed.

(** A tagged payload is stored under a new identifier. *)
Lemma save_accepts_tagged (d : screenshotData) (date : Z) (c : collection) text :
  image d = Str text → startsWith text "data:image/" = true → online c = true →
  docs (snd (saveScreenshot d date c))
  = docs c ++ [{| _id := nextObjectId c; data := d; createdAt := date |}].
Proof.
  intros Himg Htag Hon. unfold saveScreenshot. rewrite Himg. simpl.
  assert (String.eqb text "" = false) as ->.
  { destruct text; [discriminate Htag|done]. }
  simpl. rewrite Htag. simpl.
  unfold mbind, M_bind, insertOne. rewrite Hon.
  unfold retrieve. by destruct (findOne _ _).
Qed.

End Store.

(** ** Strings *)

Module StringFacts.
Import Spec.

Lemma prefix_nil s : String.prefix "" s = true.
Proof. by destruct s. Qed.

Lemma prefix_trans q p s :
  String.prefix q p = true → String.prefix p s = true → String.prefix q s = true.
Proof.
  revert p s. induction q as [|a q IH]; intros p s; [intros; apply prefix_nil|].
  destruct p as [|b p]; [done|]. destruct s as [|c s]; [done|]. simpl.
  destruct (ascii_dec a b) as [->|]; [|done].
  destruct (ascii_dec b c) as [->|]; [|done].
  apply IH.
Qed.

Lemma prefix_length p s :
  String.prefix p s = true → (String.length p ≤ String.length s)%nat.
Proof.
  revert s. induction p as [|a p IH]; intros s; [simpl; lia|].
  destruct s as [|b s]; [done|]. simpl. destruct (ascii_dec a b); [|done].
  intros H. apply IH in H. lia.
Qed.

Lemma includes_nil p : includes "" p = String.prefix p "".
Proof. unfold includes. apply orb_false_r. Qed.

Lemma includes_String c s p :
  includes (String c s) p = (String.prefix p (String c s) || includes s p)%bool.
Proof. reflexivity. Qed.

Lemma includes_cons c s p : includes s p = true → includes (String c s) p = true.
Proof. intros H. rewrite includes_String, H. apply orb_true_r. Qed.

Lemma includes_prefix_trans q p s :
  String.prefix q p = true → includes s p = true → includes s q = true.
Proof.
  intros Hq. induction s as [|c s IH].
  - rewrite !includes_nil. by apply prefix_trans.
  - rewrite !includes_String. intros [H|H]%orb_true_iff; apply orb_true_iff.
    + left. by eapply prefix_trans.
    + right. by apply IH.
Qed.

Lemma includes_length s p :
  includes s p = true → (String.length p ≤ String.length s)%nat.
Proof.
  induction s as [|c s IH].
  - rewrite includes_nil. apply prefix_length.
  - rewrite includes_String. intros [H|H]%orb_true_iff.
    + apply (prefix_length p (String c s)), H.
    + apply IH in H. simpl. lia.
Qed.

(** [trimStart] keeps what begins with a character that is not white. *)
Lemma includes_trimStart s p :
  startsNonWhite p = true → includes s p = true → includes (trimStart s) p = true.
Proof.
  intros Hp. induction s as [|c s IH]; [done|].
  simpl trimStart. destruct (is_white c) eqn:Ew; [|done].
  rewrite includes_String. intros [H|H]%orb_true_iff; [|by apply IH].
  destruct p as [|a p]; [done|]. simpl in H, Hp.
  destruct (ascii_dec a c) as [->|]; [|done]. by rewrite Ew in Hp.
Qed.

Lemma includes_of_trimStart s p :
  includes (trimStart s) p = true → includes s p = true.
Proof.
  induction s as [|c s IH]; [done|].
  simpl trimStart. destruct (is_white c); [|done].
  intros H. by apply includes_cons, IH.
Qed.

Lemma prefix_trimEnd s p :
  endsNonWhite p = true → String.prefix p s = true →
  String.prefix p (trimEnd s) = true.
Proof.
  revert s. induction p as [|a p IH]; intros s Hp; [done|].
  destruct s as [|c s]; [done|]. simpl String.prefix at 1.
  destruct (ascii_dec a c) as [->|]; [|done]. intros H.
  destruct p as [|b p].
  - simpl in Hp. simpl. destruct (trimEnd s).
    + destruct (is_white c); [done|]. simpl. by destruct (ascii_dec c c).
    + simpl. by destruct (ascii_dec c c).
  - assert (String.prefix (String b p) (trimEnd s) = true) as Hpre by (by apply IH).
    simpl trimEnd. destruct (trimEnd s) as [|d t]; [done|].
    simpl. destruct (ascii_dec c c); [|done]. exact Hpre.
Qed.

Lemma includes_nonempty s p : p ≠ "" → includes s p = true → s ≠ "".
Proof.
  intros Hp H ->. rewrite includes_nil in H.
  destruct p; [by contradict Hp|simpl in H; discriminate H].
Qed.

(** [trimEnd] keeps what ends with a character that is not white. *)
Lemma includes_trimEnd s p :
  endsNonWhite p = true → includes s p = true → includes (trimEnd s) p = true.
Proof.
  intros Hp. induction s as [|c s IH]; [done|].
  rewrite includes_String. intros [Hpre|Hin]%orb_true_iff.
  - assert (String.prefix p (trimEnd (String c s)) = true) as Hq
      by (by apply prefix_trimEnd).
    destruct (trimEnd (String c s)).
    + by rewrite includes_nil.
    + by rewrite includes_String, Hq.
  - specialize (IH Hin).
    assert (trimEnd s ≠ "") as Hne.
    { apply (includes_nonempty _ p); [by destruct p|done]. }
    simpl trimEnd. destruct (trimEnd s) as [|d t]; [done|].
    by apply includes_cons.
Qed.

Lemma prefix_of_trimEnd s p :
  String.prefix p (trimEnd s) = true → String.prefix p s = true.
Proof.
  revert s. induction p as [|a p IH]; intros s; [intros; apply prefix_nil|].
  destruct s as [|c s]; [done|]. simpl trimEnd.
  destruct (trimEnd s) as [|d t] eqn:E.
  - destruct (is_white c); [done|]. simpl.
    destruct (ascii_dec a c); [|done]. destruct p; [|done].
    intros _. by destruct s.
  - simpl. destruct (ascii_dec a c); [|done]. intros H.
    apply IH. by rewrite E.
Qed.

Lemma includes_of_trimEnd s p :
  p ≠ "" → includes (trimEnd s) p = true → includes s p = true.
Proof.
  intros Hp. induction s as [|c s IH]; [done|].
  simpl trimEnd. destruct (trimEnd s) as [|d t] eqn:E.
  - destruct (is_white c) eqn:Ew.
    + rewrite includes_nil. destruct p; [by contradict Hp|done].
    + rewrite !includes_String. intros [H|H]%orb_true_iff.
      * apply orb_true_iff. left.
        apply (prefix_of_trimEnd (String c s)). simpl. by rewrite E, Ew.
      * rewrite includes_nil in H.
        destruct p; [by contradict Hp|simpl in H; discriminate H].
  - rewrite !includes_String. intros [H|H]%orb_true_iff.
    + apply orb_true_iff. left.
      apply (prefix_of_trimEnd (String c s)). simpl. by rewrite E.
    + apply orb_true_iff. right. by apply IH.
Qed.

Lemma includes_trim s p :
  startsNonWhite p = true → endsNonWhite p = true →
  includes s p = true → includes (trim s) p = true.
Proof.
  intros Hs He H. unfold trim. by apply includes_trimEnd, includes_trimStart.
Qed.

Lemma includes_of_trim s p :
  p ≠ "" → includes (trim s) p = true → includes s p = true.
Proof.
  intros Hp H. unfold trim in H.
  by apply includes_of_trimStart, includes_of_trimEnd.
Qed.

End StringFacts.

(** ** The calls a computation makes *)

Module Tracing.
Import Capture Spec JsFacts.

Lemma emit_eq e s : emit e s = (Ret tt, logged [e] s).
Proof. reflexivity. Qed.

Lemma logged_logged l1 l2 s : logged l2 (logged l1 s) = logged (l1 ++ l2) s.
Proof. unfold logged. simpl. by rewrite <- app_assoc. Qed.

Lemma logged_nil s : logged [] s = s.
Proof. unfold logged. rewrite app_nil_r. by destruct s. Qed.

Lemma emit_then {A} e (k : M A) s : (emit e ;; k) s = k (logged [e] s).
Proof. reflexivity. Qed.

Lemma emit_emit a b s : (emit a ;; emit b) s = (Ret tt, logged [a; b] s).
Proof. by rewrite emit_then, emit_eq, logged_logged. Qed.

Lemma mret_eq {A} (a : A) (s : service) : (mret a : M A) s = (Ret a, s).
Proof. reflexivity. Qed.

Lemma bind_assoc {A B C} (m : M A) (f : A → M B) (g : B → M C) s :
  ((m ≫= f) ≫= g) s = (m ≫= (fun a => f a ≫= g)) s.
Proof. unfold mbind, M_bind. by destruct (m s) as [[a|e] s1]. Qed.

(** A [try] whose [catch] only logs returns normally in the state the
    body reached. *)
Lemma soft_eq (m : M unit) s : tryCatch m (fun _ => mret tt) s = (Ret tt, snd (m s)).
Proof. unfold tryCatch. by destruct (m s) as [[[]|e] s1]. Qed.

Section Emits.
Context {A B : Type} (P : event → bool).

Lemma emits_ret (a : A) : emits P (mret a : M A).
Proof. intros s. exists []. by rewrite app_nil_r. Qed.

Lemma emits_throw message : emits P (throw message : M A).
Proof. intros s. exists []. by rewrite app_nil_r. Qed.

Lemma emits_bind (m : M A) (f : A → M B) :
  emits P m → (∀ a, emits P (f a)) → emits P (m ≫= f).
Proof.
  intros Hm Hf s. destruct (Hm s) as (ev1 & Ht1 & Hp1).
  unfold mbind, M_bind. destruct (m s) as [[a|e] s1]; simpl in *.
  - destruct (Hf a s1) as (ev2 & Ht2 & Hp2). exists (ev1 ++ ev2).
    rewrite Ht2, Ht1, <- app_assoc. split; [done|].
    rewrite forallb_app. by rewrite Hp1, Hp2.
  - by exists ev1.
Qed.

Lemma emits_tryCatch (m : M A) (h : string → M A) :
  emits P m → (∀ e, emits P (h e)) → emits P (tryCatch m h).
Proof.
  intros Hm Hh s. destruct (Hm s) as (ev1 & Ht1 & Hp1).
  unfold tryCatch. destruct (m s) as [[a|e] s1]; simpl in *.
  - by exists ev1.
  - destruct (Hh e s1) as (ev2 & Ht2 & Hp2). exists (ev1 ++ ev2).
    rewrite Ht2, Ht1, <- app_assoc. split; [done|].
    rewrite forallb_app. by rewrite Hp1, Hp2.
Qed.

Lemma emitsFirst_emit e (k : M A) : emits P k → emitsFirst e P (emit e ;; k).
Proof.
  intros Hk s. rewrite emit_then. destruct (Hk (logged [e] s)) as (ev & Ht & Hp).
  exists ev. rewrite Ht. simpl. by rewrite <- app_assoc.
Qed.

Lemma emitsFirst_bind e (m : M A) (f : A → M B) :
  emitsFirst e P m → (∀ a, emits P (f a)) → emitsFirst e P (m ≫= f).
Proof.
  intros Hm Hf s. destruct (Hm s) as (ev1 & Ht1 & Hp1).
  unfold mbind, M_bind. destruct (m s) as [[a|err] s1]; simpl in *.
  - destruct (Hf a s1) as (ev2 & Ht2 & Hp2). exists (ev1 ++ ev2).
    rewrite Ht2, Ht1, <- app_assoc. split; [done|].
    rewrite forallb_app. by rewrite Hp1, Hp2.
  - by exists ev1.
Qed.

Lemma emitsFirst_tryCatch e (m : M A) (h : string → M A) :
  emitsFirst e P m → (∀ err, emits P (h err)) → emitsFirst e P (tryCatch m h).
Proof.
  intros Hm Hh s. destruct (Hm s) as (ev1 & Ht1 & Hp1).
  unfold tryCatch. destruct (m s) as [[a|err] s1]; simpl in *.
  - by exists ev1.
  - destruct (Hh err s1) as (ev2 & Ht2 & Hp2). exists (ev1 ++ ev2).
    rewrite Ht2, Ht1, <- app_assoc. split; [done|].
    rewrite forallb_app. by rewrite Hp1, Hp2.
Qed.
End Emits.

Lemma emits_emit P e : P e = true → emits P (emit e).
Proof. intros He s. exists [e]. simpl. by rewrite He. Qed.

Lemma emits_storeFile P path content : emits P (storeFile path content).
Proof. intros s. exists []. simpl. by rewrite app_nil_r. Qed.

Lemma emits_closePage P : P ClosePage = true → emits P closePage.
Proof.
  intros Hp s. unfold closePage. destruct (browser s).
  - by apply emits_emit.
  - exists []. simpl. by rewrite app_nil_r.
Qed.

(** Discharges [emits] goals over the combinators of the capture code. *)
Ltac emits_step :=
  first
    [ apply emits_ret
    | apply emits_throw
    | apply emits_emit; reflexivity
    | apply emits_storeFile
    | apply emits_closePage; reflexivity
    | apply emits_bind; [|intros ?]
    | apply emits_tryCatch; [|intros ?]
    | match goal with
      | |- emits _ (if ?b then _ else _) => destruct b
      | |- emits _ (match ?l with [] => _ | _ :: _ => _ end) => destruct l
      end ].

Ltac emits_auto := repeat emits_step.

End Tracing.

(** ** The capture engine *)

Module Engine.
Import Capture Spec JsFacts Tracing.

Lemma getSystemScreenSize_eq h s :
  ∃ size s1,
    getSystemScreenSize h s = (Ret size, s1)
    ∧ trace s1 = trace s ++ screenDetection h s
    ∧ files s1 = files s
    ∧ screenshots s1 = screenshots s
    ∧ browser s1 = browser s.
Proof.
  unfold getSystemScreenSize, screenDetection.
  destruct (systemScreenSize s) as [size|].
  - exists size, s. by rewrite app_nil_r.
  - destruct (screen h) as [size|]; eexists; eexists; (split; [reflexivity|]); done.
Qed.

Section Desktop.
Variables fromBase64 toBase64 : string → string.

Lemma pollLoop_quiet page attempts round s :
  (∀ k, (round ≤ k < round + attempts)%nat → quiet (page k)) →
  pollLoop page attempts round s = (Ret None, logged (quietEvents attempts) s).
Proof.
  revert round s. induction attempts as [|n IH]; intros round s Hq.
  - simpl. by rewrite logged_nil.
  - cbn [pollLoop quietEvents]. rewrite emit_then.
    destruct (Hq round) as [-> ->]; [lia|].
    destruct (S n <=? 5)%nat.
    + rewrite (bind_ret _ _ _ _ _ (emit_emit _ _ _)).
      rewrite emit_then, IH by (intros k Hk; apply Hq; lia).
      by rewrite !logged_logged.
    + rewrite (bind_ret _ _ _ _ _ (mret_eq _ _)).
      rewrite emit_then, IH by (intros k Hk; apply Hq; lia).
      by rewrite !logged_logged.
Qed.

Lemma quietEvents_rounds : quietEvents 8 = quietRounds.
Proof. reflexivity. Qed.

Lemma captureDesktopScreen_quiet h page userId subject captureEvent s size s1 :
  launches h = true →
  (∀ k, (k < 8)%nat → quiet (page k)) →
  getSystemScreenSize h s = (Ret size, s1) →
  captureDesktopScreen fromBase64 h page userId subject captureEvent s
  = (Ret (failed "Desktop capture timed out - could not capture screen data"
            "desktop-capture" userId subject "desktop"),
     logged ([Launch false; NewPage; SetContent; Sleep 3000]
             ++ quietRounds ++ [ClosePage; CloseBrowser]) s1).
Proof.
  intros Hlaunch Hq Hsize. unfold captureDesktopScreen.
  erewrite bind_ret.
  2:{ erewrite tryCatch_throw.
      2:{ rewrite (bind_ret _ _ _ _ _ Hsize).
          unfold launchDedicated. rewrite Hlaunch.
          rewrite (bind_ret _ _ _ tt (logged [Launch false] s1))
            by (by rewrite emit_then, mret_eq).
          rewrite !emit_then.
          erewrite bind_ret; [|apply pollLoop_quiet; intros k Hk; apply Hq; lia].
          reflexivity. }
      reflexivity. }
  unfold closeDedicated. rewrite Hlaunch.
  rewrite (bind_ret _ _ _ _ _ (emit_emit _ _ _)), mret_eq.
  by rewrite !logged_logged, quietEvents_rounds.
Qed.

(** C6: when the dedicated session starts and none of the eight
    evaluations of the polling loop shows an error or a usable frame,
    [captureDesktopAndSaveToMongoDB] polls eight times, clicks the grant
    button again in the last five rounds, sleeps 3 s before the loop and
    29 s inside it, and returns the failed result with the timeout
    message; the collection and the staging files are untouched. *)
Theorem C6_desktop_capture_times_out h page userId subject captureEvent s :
  launches h = true →
  (∀ k, (k < 8)%nat → quiet (page k)) →
  ∃ s',
    captureDesktopAndSaveToMongoDB fromBase64 toBase64 h page userId subject
      captureEvent s
    = (Ret (failed "Desktop capture timed out - could not capture screen data"
              "desktop-capture" userId subject "desktop"), s')
    ∧ screenshots s' = screenshots s
    ∧ files s' = files s
    ∧ trace s' = trace s ++ screenDetection h s
                 ++ [Launch false; NewPage; SetContent; Sleep 3000]
                 ++ quietRounds ++ [ClosePage; CloseBrowser]
    ∧ occurrences isPoll quietRounds = 8%nat
    ∧ occurrences isClick quietRounds = 5%nat
    ∧ totalSleep quietRounds = 29000.
Proof.
  intros Hlaunch Hq.
  destruct (getSystemScreenSize_eq h s) as (size & s1 & Hsize & Htr & Hf & Hdb & _).
  exists (logged ([Launch false; NewPage; SetContent; Sleep 3000]
                  ++ quietRounds ++ [ClosePage; CloseBrowser]) s1).
  split; [|by repeat split; simpl; rewrite ?Htr, ?Hf, ?Hdb, <- ?app_assoc].
  unfold captureDesktopAndSaveToMongoDB.
  by rewrite (bind_ret _ _ _ _ _
                (captureDesktopScreen_quiet _ _ _ _ _ _ _ _ Hlaunch Hq Hsize)).
Qed.

End Desktop.

(** C6, the witness: the grant never resolves on the example machine. *)
Lemma C6_desktop_capture_times_out_witness :
  ∃ s',
    captureDesktopAndSaveToMongoDB (fun b => b) (fun b => b) Examples.machine
      Examples.neverResolves 7 "desktop" "manual" Examples.idle
    = (Ret (failed "Desktop capture timed out - could not capture screen data"
              "desktop-capture" 7 "desktop" "desktop"), s')
    ∧ screenshots s' = screenshots Examples.idle
    ∧ files s' = files Examples.idle
    ∧ trace s' = trace Examples.idle ++ screenDetection Examples.machine Examples.idle
                 ++ [Launch false; NewPage; SetContent; Sleep 3000]
                 ++ quietRounds ++ [ClosePage; CloseBrowser]
    ∧ occurrences isPoll quietRounds = 8%nat
    ∧ occurrences isClick quietRounds = 5%nat
    ∧ totalSleep quietRounds = 29000.
Proof.
  apply (C6_desktop_capture_times_out (fun b => b) (fun b => b) Examples.machine
           Examples.neverResolves 7 "desktop" "manual" Examples.idle).
  - reflexivity.
  - intros k Hk. split; reflexivity.
Defined.

End Engine.

(** ** The remote editor driver *)

Module Driver.
Import Capture Spec JsFacts Tracing StringFacts.

(** *** The readiness analysis *)

Lemma monacoCode_found editors a : monacoCode editors = Some a → found a = true.
Proof.
  induction editors as [|text rest IH]; simpl; [done|].
  case_match; [by intros [= <-]|done].
Qed.

Lemma monacoCode_hit editors text :
  text ∈ editors →
  includes text "function isPrime(num)" = true →
  anyIncludes text placeholders = false →
  ∃ a, monacoCode editors = Some a.
Proof.
  intros Hin Hinc Hph. induction editors as [|t rest IH]; [by apply elem_of_nil in Hin|].
  cbn [monacoCode]. case_match; [by eexists|].
  apply elem_of_cons in Hin as [<-|Hin]; [|by apply IH].
  exfalso.
  assert (includes (trim text) "function isPrime(num)" = true) as Htrim
    by (by apply includes_trim).
  assert (String.eqb text "" = false) as Hne.
  { apply String.eqb_neq. by apply (includes_nonempty _ "function isPrime(num)"). }
  assert ((10 <? strLength (trim text)) = true) as Hlen.
  { apply Z.ltb_lt. unfold strLength. apply includes_length in Htrim. simpl in Htrim. lia. }
  assert (anyIncludes (trim text) placeholders = false) as Hph'.
  { unfold anyIncludes, placeholders in *. simpl in *.
    rewrite !orb_false_r in *.
    apply orb_false_iff in Hph as [H1 Hph]. apply orb_false_iff in Hph as [H2 H3].
    repeat (apply orb_false_iff; split);
      apply not_true_iff_false; intros Hc%includes_of_trim; try done; congruence. }
  assert (anyIncludes (trim text) codeTokens = true) as Htok.
  { unfold anyIncludes, codeTokens. simpl. apply orb_true_iff. left.
    by apply (includes_prefix_trans _ "function isPrime(num)"). }
  rewrite Hne, Hlen, Hph', Htok in *. done.
Qed.

(** A view-lines node with the sample function and no placeholder text
    makes the analysis report content. *)
Lemma hasContent_code d text :
  text ∈ viewLines d →
  includes text "function isPrime(num)" = true →
  anyIncludes text placeholders = false →
  found (hasContent d) = true.
Proof.
  intros Hin Hinc Hph. unfold hasContent.
  destruct (monacoCode_hit _ _ Hin Hinc Hph) as [a Ha]. rewrite Ha.
  by apply (monacoCode_found (viewLines d)).
Qed.

Lemma monacoCode_placeholders editors :
  (∀ text, text ∈ editors → text ∈ ["Welcome"; "Get Started"]) →
  monacoCode editors = None.
Proof.
  induction editors as [|t rest IH]; intros H; [done|].
  assert (t ∈ ["Welcome"; "Get Started"]) as Ht by (apply H, elem_of_cons; by left).
  assert (monacoCode rest = None) as Hrest
    by (apply IH; intros text Hin; apply H, elem_of_cons; by right).
  rewrite !elem_of_cons, elem_of_nil in Ht.
  destruct Ht as [->|[->|[]]]; simpl; exact Hrest.
Qed.

Lemma codeFile_placeholders d :
  (∀ text, text ∈ tabLabels d → text ∈ ["Welcome"; "Get Started"]) →
  codeFile d = None.
Proof.
  intros H. unfold codeFile.
  assert (existsb (fun text => anyEndsWith text codeFileSuffixes) (tabLabels d) = false)
    as ->; [|done].
  induction (tabLabels d) as [|t rest IH]; [done|].
  assert (t ∈ ["Welcome"; "Get Started"]) as Ht by (apply H, elem_of_cons; by left).
  cbn [existsb]. rewrite IH by (intros text Hin; apply H, elem_of_cons; by right).
  rewrite !elem_of_cons, elem_of_nil in Ht.
  destruct Ht as [->|[->|[]]]; reflexivity.
Qed.

(** Placeholder text alone is not content, unless the workbench shell is
    there. *)
Lemma hasContent_placeholders d :
  placeholderOnly d → found (hasContent d) = shell d.
Proof.
  intros (Hlines & Htabs & Hterm). unfold hasContent, shell.
  rewrite monacoCode_placeholders, codeFile_placeholders, Hterm by done.
  simpl. by destruct (workbench d && (explorer d || activitybar d))%bool.
Qed.

(** *** The steps of a capture *)

Lemma screenDetection_plain P h s :
  P (Launch false) = true → P NewPage = true → P DetectScreen = true →
  P CloseBrowser = true → forallb P (screenDetection h s) = true.
Proof.
  intros H1 H2 H3 H4. unfold screenDetection.
  destruct (systemScreenSize s); [done|].
  destruct (screen h); simpl; by rewrite ?H1, ?H2, ?H3, ?H4.
Qed.

Lemma getSystemScreenSize_trace h s :
  ∃ size s1,
    getSystemScreenSize h s = (Ret size, s1)
    ∧ trace s1 = trace s ++ screenDetection h s
    ∧ browser s1 = browser s.
Proof.
  unfold getSystemScreenSize, screenDetection.
  destruct (systemScreenSize s) as [size|].
  - exists size, s. by rewrite app_nil_r.
  - destruct (screen h) as [size|]; eexists; eexists; (split; [reflexivity|]); done.
Qed.

(** The shared browser is there after [initBrowser], which makes no call
    to the editor page. *)
Lemma initBrowser_trace h s :
  launches h = true →
  ∃ s1 events,
    initBrowser h s = (Ret tt, s1)
    ∧ trace s1 = trace s ++ events
    ∧ forallb plain events = true
    ∧ browser s1 = true.
Proof.
  intros Hl. unfold initBrowser. destruct (browser s) eqn:Eb.
  - exists s, []. by rewrite app_nil_r.
  - destruct (getSystemScreenSize_trace h s) as (size & s1 & Hs & Ht & _).
    rewrite (bind_ret _ _ _ _ _ Hs). unfold launchShared. rewrite Hl.
    eexists. exists (screenDetection h s ++ [Launch true]).
    split; [reflexivity|]. simpl. rewrite Ht, <- app_assoc.
    split; [done|]. split; [|done].
    rewrite forallb_app. by rewrite (screenDetection_plain plain).
Qed.

(** The trust step: it begins by waiting for a button, never throws, and
    does not look for the password input. *)
Lemma trustDialog_trace p s :
  ∃ s1 events,
    trustDialog p s = (Ret tt, s1)
    ∧ trace s1 = trace s ++ [Sleep 2000; ListButtons; WaitForSelector Button 20000]
                 ++ events
    ∧ forallb notAuth events = true.
Proof.
  unfold trustDialog. rewrite !emit_then, soft_eq.
  match goal with |- context [snd (?m ?s0)] =>
    assert (emitsFirst (WaitForSelector Button 20000) notAuth m) as Hm
  end.
  { unfold waitForSelector.
    apply emitsFirst_bind; [apply emitsFirst_emit|intros ?]; emits_auto. }
  destruct (Hm (logged [ListButtons] (logged [Sleep 2000] s))) as (events & Ht & Hp).
  eexists. exists events. split; [reflexivity|]. split; [|done].
  cbn [snd]. rewrite Ht. simpl. by rewrite <- !app_assoc.
Qed.

(** The authentication probe: it begins by looking for the password
    input, never throws, and makes no call of the trust step. *)
Lemma authenticate_trace p s :
  ∃ s1 events,
    authenticate p s = (Ret tt, s1)
    ∧ trace s1 = trace s ++ PasswordProbe :: events
    ∧ forallb notTrust events = true.
Proof.
  unfold authenticate. rewrite soft_eq.
  match goal with |- context [snd (?m ?s0)] =>
    assert (emitsFirst PasswordProbe notTrust m) as Hm
  end.
  { unfold waitForSelector. apply emitsFirst_emit. emits_auto. }
  destruct (Hm s) as (events & Ht & Hp).
  eexists. exists events. split; [reflexivity|]. by split.
Qed.

(** The workspace setup never throws and makes no call of the trust step. *)
Lemma setupWorkspace_trace p subject s :
  ∃ s1 events,
    setupWorkspace p subject s = (Ret tt, s1)
    ∧ trace s1 = trace s ++ events
    ∧ forallb notTrust events = true.
Proof.
  unfold setupWorkspace. rewrite soft_eq.
  match goal with |- context [snd (?m ?s0)] =>
    assert (emits notTrust m) as Hm
  end.
  { unfold waitForSelector, openOrCreateFile, createSampleFile, typeInto.
    emits_auto. }
  destruct (Hm s) as (events & Ht & Hp).
  eexists. exists events. split; [reflexivity|]. by split.
Qed.

(** The readiness check never throws; when an editor is present it
    reports the analysis of the document. *)
Lemma contentReadiness_eq p s :
  contentReadiness p s = (Ret tt, logged (readinessEvents (document p)) s).
Proof.
  unfold contentReadiness, readinessEvents, waitForSelector. rewrite soft_eq.
  destruct (editorInterface (document p)).
  - rewrite (bind_ret _ _ _ tt (logged [WaitForSelector EditorInterface 10000] s))
      by (by rewrite emit_then, mret_eq).
    rewrite !emit_then.
    destruct (found (hasContent (document p))).
    + by rewrite emit_eq, !logged_logged.
    + by rewrite mret_eq, !logged_logged.
  - rewrite (bind_throw _ _ _ "Waiting for selector failed: timeout exceeded"
               (logged [WaitForSelector EditorInterface 10000] s)); [done|].
    by rewrite emit_then.
Qed.

Lemma readinessEvents_plain d : forallb notTrust (readinessEvents d) = true.
Proof.
  unfold readinessEvents. destruct (editorInterface d); [|done].
  by destruct (found (hasContent d)).
Qed.

Lemma shoot_emits h p size url userId subject captureEvent :
  emits notTrust (shoot h p size url userId subject captureEvent).
Proof. unfold shoot. emits_auto. Qed.

Lemma shoot_ok h p size url userId subject captureEvent s :
  screenshotOk p = true →
  ∃ r s1, shoot h p size url userId subject captureEvent s = (Ret r, s1)
          ∧ success r = true.
Proof.
  intros Hok. unfold shoot. cbv zeta. rewrite emit_then, Hok.
  erewrite bind_ret; [|reflexivity]. eexists. eexists. split; [reflexivity|done].
Qed.

(** *** The order of the steps *)

(** What follows the body of [captureScreenshot]: the [catch] that turns
    an error into a failed result, and the [finally] that closes the page. *)
Lemma finish_trace (body : M ScreenshotResult) (F : string → ScreenshotResult) s :
  ∃ events,
    trace (snd ((tryCatch body (fun message => mret (F message))
                 ≫= fun result => closePage ;; mret result) s))
    = trace (snd (body s)) ++ events
    ∧ forallb notTrust events = true.
Proof.
  assert (∀ (r : ScreenshotResult), emits notTrust (closePage ;; mret r)) as Hc
    by (intros r; emits_auto).
  unfold mbind at 1, M_bind at 1, tryCatch.
  destruct (body s) as [[r|e] s1]; cbn [snd].
  - apply (Hc r).
  - rewrite mret_eq. apply (Hc (F e)).
Qed.

Lemma finish_result (body : M ScreenshotResult) (F : string → ScreenshotResult) s r s1 :
  body s = (Ret r, s1) →
  ∃ s2, (tryCatch body (fun message => mret (F message))
         ≫= fun result => closePage ;; mret result) s = (Ret r, s2).
Proof.
  intros Hb. rewrite (bind_ret _ _ _ _ _ (tryCatch_ret _ _ _ _ _ Hb)).
  unfold mbind, M_bind, closePage. destruct (browser s1); by eexists.
Qed.

(** The body of [captureScreenshot] up to the final screenshot, when the
    browser starts and the navigation succeeds. *)
Lemma body_steps h p containerUrl userId subject captureEvent s :
  launches h = true → navigates p = true →
  ∃ size s7 pre mid afterAuth,
    (initBrowser h ;;
     screenSize ← getSystemScreenSize h ;
     emit NewPage ;;
     goto p containerUrl ;;
     trustDialog p ;;
     emit (Sleep 3000) ;;
     authenticate p ;;
     setupWorkspace p subject ;;
     contentReadiness p ;;
     shoot h p screenSize containerUrl userId subject captureEvent) s
    = shoot h p size containerUrl userId subject captureEvent s7
    ∧ trace s7 = trace s ++ pre ++ Goto containerUrl :: mid
                 ++ PasswordProbe :: afterAuth ++ readinessEvents (document p)
    ∧ forallb plain pre = true
    ∧ WaitForSelector Button 20000 ∈ mid
    ∧ forallb notAuth mid = true
    ∧ forallb notTrust afterAuth = true.
Proof.
  intros Hl Hnav.
  destruct (initBrowser_trace h s Hl) as (s1 & ev0 & H0 & Ht0 & Hp0 & _).
  rewrite (bind_ret _ _ _ _ _ H0).
  destruct (getSystemScreenSize_trace h s1) as (size & s2 & H1 & Ht1 & _).
  rewrite (bind_ret _ _ _ _ _ H1). rewrite emit_then.
  unfold goto. rewrite Hnav.
  rewrite (bind_ret _ _ _ tt (logged [Goto containerUrl] (logged [NewPage] s2)))
    by (by rewrite emit_then, mret_eq).
  destruct (trustDialog_trace p (logged [Goto containerUrl] (logged [NewPage] s2)))
    as (s4 & evT & H4 & Ht4 & Hp4).
  rewrite (bind_ret _ _ _ _ _ H4), emit_then.
  destruct (authenticate_trace p (logged [Sleep 3000] s4)) as (s5 & evA & H5 & Ht5 & Hp5).
  rewrite (bind_ret _ _ _ _ _ H5).
  destruct (setupWorkspace_trace p subject s5) as (s6 & evS & H6 & Ht6 & Hp6).
  rewrite (bind_ret _ _ _ _ _ H6).
  rewrite (bind_ret _ _ _ _ _ (contentReadiness_eq p s6)).
  exists size, (logged (readinessEvents (document p)) s6).
  exists (ev0 ++ screenDetection h s1 ++ [NewPage]).
  exists ([Sleep 2000; ListButtons; WaitForSelector Button 20000] ++ evT
          ++ [Sleep 3000]).
  exists (evA ++ evS).
  split; [reflexivity|]. split; [|split; [|split; [|split]]].
  - cbn [logged trace]. rewrite Ht6, Ht5. cbn [logged trace].
    rewrite Ht4. cbn [logged trace]. rewrite Ht1, Ht0.
    rewrite <- !app_assoc. reflexivity.
  - rewrite !forallb_app, Hp0. by rewrite (screenDetection_plain plain).
  - rewrite !elem_of_app. left. rewrite !elem_of_cons. auto.
  - rewrite !forallb_app, Hp4. reflexivity.
  - by rewrite forallb_app, Hp5, Hp6.
Qed.

(** C4, as the code has it: in every capture whose browser starts and
    whose navigation succeeds, the steps run in the order navigation,
    trust-dialog dismissal, authentication probe: the wait for the trust
    button comes after [page.goto] and before the first look for a password
    input, and no call of the trust step follows that probe. *)
Theorem C4_trust_step_precedes_authentication
    h p containerUrl userId subject captureEvent s :
  launches h = true → navigates p = true →
  ∃ events,
    trace (snd (captureScreenshot h p containerUrl userId subject captureEvent s))
    = trace s ++ events
    ∧ trustBeforeAuth containerUrl events.
Proof.
  intros Hl Hnav. unfold captureScreenshot.
  match goal with |- context [tryCatch ?b ?handler] =>
    destruct (finish_trace b
                (fun message => failed message containerUrl userId subject "browser") s)
      as (evF & HtF & HpF)
  end.
  destruct (body_steps h p containerUrl userId subject captureEvent s Hl Hnav)
    as (size & s7 & pre & mid & afterAuth & Hbody & Ht7 & Hpre & Hw & Hmid & Ha).
  destruct (shoot_emits h p size containerUrl userId subject captureEvent s7)
    as (evS & HtS & HpS).
  exists (pre ++ Goto containerUrl :: mid ++ PasswordProbe ::
          afterAuth ++ readinessEvents (document p) ++ evS ++ evF).
  split.
  - rewrite HtF, Hbody, HtS, Ht7. rewrite <- !app_assoc. simpl.
    rewrite <- ?app_assoc. simpl. by rewrite <- ?app_assoc.
  - exists pre, mid, (afterAuth ++ readinessEvents (document p) ++ evS ++ evF).
    split; [done|]. split; [exact Hpre|]. split; [exact Hw|]. split; [exact Hmid|].
    rewrite !forallb_app. by rewrite Ha, readinessEvents_plain, HpS, HpF.
Qed.

(** C4, the witness: the capture of the example page. *)
Lemma C4_trust_step_precedes_authentication_witness :
  ∃ events,
    trace (snd (captureScreenshot Examples.machine
                  (Examples.editor (Examples.bareDocument [Examples.primeSource]))
                  "http://localhost:8087" 7 "JavaScript" "manual" Examples.idle))
    = trace Examples.idle ++ events
    ∧ trustBeforeAuth "http://localhost:8087" events.
Proof.
  apply (C4_trust_step_precedes_authentication Examples.machine
           (Examples.editor (Examples.bareDocument [Examples.primeSource]))
           "http://localhost:8087" 7 "JavaScript" "manual" Examples.idle);
    reflexivity.
Defined.

(** C4, the counterexample: in the capture of the example page the search
    for the trust button is made before any probe for the password input. *)
Lemma C4_authentication_is_not_first : ¬ authBeforeTrust Examples.editorRun.
Proof.
  intros H.
  specialize (H [Launch false; NewPage; DetectScreen; CloseBrowser; Launch true;
                 NewPage; Goto "http://localhost:8087"; Sleep 2000; ListButtons;
                 WaitForSelector Button 20000]
                (skipn 11 Examples.editorRun) eq_refl).
  rewrite !elem_of_cons, elem_of_nil in H.
  repeat (destruct H as [H|H]; [discriminate H|]). done.
Qed.

(** *** Readiness and the capture *)

(** C7, as the code has it: a view-lines node whose text includes
    [function isPrime(num)] and none of the placeholder strings makes the
    analysis report content; a document that shows only the placeholder
    texts, and not the workbench shell, makes it report none; and in
    either case, as for every document, the capture goes on: when the
    browser starts, the navigation succeeds and the final screenshot
    succeeds, [captureScreenshot] returns [success: true], the readiness
    check having been made on the way. *)
Theorem C7_readiness_never_aborts_capture
    h p containerUrl userId subject captureEvent s text :
  launches h = true → navigates p = true → screenshotOk p = true →
  (text ∈ viewLines (document p) →
   includes text "function isPrime(num)" = true →
   anyIncludes text placeholders = false →
   found (hasContent (document p)) = true)
  ∧ (placeholderOnly (document p) → shell (document p) = false →
     found (hasContent (document p)) = false)
  ∧ ∃ r s',
      captureScreenshot h p containerUrl userId subject captureEvent s = (Ret r, s')
      ∧ success r = true
      ∧ ∃ before after,
          trace s' = trace s ++ before ++ readinessEvents (document p) ++ after.
Proof.
  intros Hl Hnav Hok. split; [apply hasContent_code|]. split.
  { intros Hph Hshell. by rewrite hasContent_placeholders. }
  unfold captureScreenshot.
  destruct (body_steps h p containerUrl userId subject captureEvent s Hl Hnav)
    as (size & s7 & pre & mid & afterAuth & Hbody & Ht7 & _).
  destruct (shoot_ok h p size containerUrl userId subject captureEvent s7 Hok)
    as (r & s8 & Hshoot & Hsuccess).
  destruct (shoot_emits h p size containerUrl userId subject captureEvent s7)
    as (evS & HtS & _).
  rewrite Hshoot in HtS. cbn [snd] in HtS.
  match goal with |- context [tryCatch ?b ?handler] =>
    destruct (finish_trace b
                (fun message => failed message containerUrl userId subject "browser") s)
      as (evF & HtF & _);
    destruct (finish_result b
                (fun message => failed message containerUrl userId subject "browser")
                s r s8) as (s9 & Hwhole)
  end.
  { by rewrite Hbody. }
  rewrite Hwhole in HtF. rewrite Hbody, Hshoot in HtF. cbn [snd] in HtF.
  exists r, s9. split; [exact Hwhole|]. split; [exact Hsuccess|].
  exists (pre ++ Goto containerUrl :: mid ++ PasswordProbe :: afterAuth), (evS ++ evF).
  rewrite HtF, HtS, Ht7. rewrite <- !app_assoc. simpl.
  rewrite <- ?app_assoc. simpl. by rewrite <- ?app_assoc.
Qed.

(** C7, the witness: the sample function in the editor of the example page. *)
Lemma C7_readiness_never_aborts_capture_witness :
  (Examples.primeSource ∈ viewLines (Examples.bareDocument [Examples.primeSource]) →
   includes Examples.primeSource "function isPrime(num)" = true →
   anyIncludes Examples.primeSource placeholders = false →
   found (hasContent (Examples.bareDocument [Examples.primeSource])) = true)
  ∧ (placeholderOnly (Examples.bareDocument [Examples.primeSource]) →
     shell (Examples.bareDocument [Examples.primeSource]) = false →
     found (hasContent (Examples.bareDocument [Examples.primeSource])) = false)
  ∧ ∃ r s',
      captureScreenshot Examples.machine
        (Examples.editor (Examples.bareDocument [Examples.primeSource]))
        "http://localhost:8087" 7 "JavaScript" "manual" Examples.idle = (Ret r, s')
      ∧ success r = true
      ∧ ∃ before after,
          trace s' = trace Examples.idle ++ before
                     ++ readinessEvents (Examples.bareDocument [Examples.primeSource])
                     ++ after.
Proof.
  apply (C7_readiness_never_aborts_capture Examples.machine
           (Examples.editor (Examples.bareDocument [Examples.primeSource]))
           "http://localhost:8087" 7 "JavaScript" "manual" Examples.idle
           Examples.primeSource); reflexivity.
Defined.

(** C7, the counterexample: the welcome page shows only placeholder text,
    yet the analysis reports content, because the workbench and the
    activity bar are there. *)
Lemma C7_placeholders_inside_workbench : ¬ readinessClaim.
Proof.
  intros [_ H]. specialize (H Examples.welcomePage).
  assert (placeholderOnly Examples.welcomePage) as Hp.
  { split; [|split; [|done]]; simpl; intros text Ht;
      apply list_elem_of_singleton in Ht as ->;
      rewrite !elem_of_cons; auto. }
  specialize (H Hp). vm_compute in H. discriminate H.
Qed.

(** The sample function next to a placeholder word is not reported either. *)
Lemma sample_with_greeting :
  includes "// Welcome function isPrime(num) {}" "function isPrime(num)" = true
  ∧ found (hasContent (Examples.bareDocument ["// Welcome function isPrime(num) {}"]))
    = false.
Proof. split; reflexivity. Qed.

(** The two documents of the claim, without the workbench shell. *)
Lemma readiness_examples :
  found (hasContent (Examples.bareDocument [Examples.primeSource])) = true
  ∧ found (hasContent (Examples.bareDocument ["Welcome"; "Get Started"])) = false
  ∧ success (match fst (captureScreenshot Examples.machine
                          (Examples.editor
                             (Examples.bareDocument ["Welcome"; "Get Started"]))
                          "http://localhost:8087" 7 "JavaScript" "manual"
                          Examples.idle)
             with Ret r => r
             | Throw message => failed message "" 0 "" ""
             end) = true.
Proof. repeat split; reflexivity. Qed.

End Driver.

(** ** The provisioner: shutdown, release and isolation *)

Module Lifecycle.
Import Docker ContainerManager Spec JsFacts Provisioning Shutdown.

(** *** Shutdown *)

Lemma cleanupEach_eq userIds s :
  cleanupEach userIds s = (Ret tt, foldl (fun s userId => cleaned userId s) s userIds).
Proof.
  revert s. induction userIds as [|userId rest IH]; intros s; [done|].
  cbn [cleanupEach foldl].
  by rewrite (bind_ret _ _ _ _ _ (cleanupUserContainers_eq userId s)).
Qed.

Lemma wf_cleanedAll userIds s :
  wf s → obliging (docker s) →
  wf (foldl (fun s userId => cleaned userId s) s userIds).
Proof.
  revert s. induction userIds as [|userId rest IH]; intros s Hwf Hob; [done|].
  simpl. apply IH; [by apply wf_cleaned|by apply obliging_cleaned].
Qed.

Lemma cleanedAll_sublist userIds s :
  containers (docker (foldl (fun s userId => cleaned userId s) s userIds))
    `sublist_of` containers (docker s).
Proof.
  revert s. induction userIds as [|userId rest IH]; intros s; [done|].
  simpl. etrans; [apply IH|apply cleaned_sublist].
Qed.

Lemma cleanedAll_active userIds s :
  (∀ entry, entry ∈ activeContainers s → fst entry ∈ userIds) →
  activeContainers (foldl (fun s userId => cleaned userId s) s userIds) = [].
Proof.
  revert s. induction userIds as [|userId rest IH]; intros s Hkeys.
  - simpl. destruct (activeContainers s) as [|entry m]; [done|].
    exfalso. eapply elem_of_nil, (Hkeys entry). by apply elem_of_cons; left.
  - simpl. apply IH. intros entry Hentry. cbn [cleaned activeContainers] in Hentry.
    unfold delete in Hentry. apply list_elem_of_filter in Hentry as [Hne Hin].
    apply Hkeys in Hin. apply elem_of_cons in Hin as [Heq|Hin]; [|done].
    rewrite Heq, Z.eqb_refl in Hne. done.
Qed.

(** X1: next to a daemon that stops every container it is asked to stop,
    [cleanupAllContainers], from a state that satisfies the provisioner's
    invariant, returns normally, leaves [activeContainers] empty and leaves
    no container running; the daemon only loses containers. *)
Theorem X1_shutdown_stops_every_workspace s :
  wf s →
  obliging (docker s) →
  ∃ s',
    cleanupAllContainers s = (Ret tt, s')
    ∧ activeContainers s' = []
    ∧ (∀ c, c ∈ containers (docker s') → cRunning c = false)
    ∧ (∀ userId, live userId (docker s') = [])
    ∧ containers (docker s') `sublist_of` containers (docker s).
Proof.
  intros Hwf Hob. unfold cleanupAllContainers.
  rewrite (bind_ret _ _ _ _ _ (cleanupEach_eq _ s)).
  set (s1 := foldl (fun s userId => cleaned userId s) s (map fst (activeContainers s))).
  assert (activeContainers s1 = []) as Hempty.
  { apply cleanedAll_active. intros entry Hentry.
    apply list_elem_of_fmap. by exists entry. }
  assert (∀ c, c ∈ containers (docker s1) → cRunning c = false) as Hidle.
  { intros c Hc. destruct (cRunning c) eqn:Hrun; [|done]. exfalso.
    destruct (wf_cleanedAll (map fst (activeContainers s)) s Hwf Hob) as [_ _ Hlive].
    specialize (Hlive c Hc Hrun). fold s1 in Hlive.
    rewrite Hempty in Hlive. by apply elem_of_nil in Hlive. }
  eexists. split; [reflexivity|]. cbn [activeContainers docker with_active].
  split; [done|]. split; [exact Hidle|]. split; [|apply cleanedAll_sublist].
  intros userId. unfold live.
  destruct (filter _ _) as [|c l] eqn:E; [done|]. exfalso.
  assert (c ∈ filter (fun c => cRunning c && (nUser (cName c) =? userId)%Z)
                     (containers (docker s1))) as Hc
    by (rewrite E; by apply elem_of_cons; left).
  apply list_elem_of_filter in Hc as [Hp Hc].
  apply Is_true_true, andb_true_iff in Hp as [Hrun _].
  rewrite (Hidle c Hc) in Hrun. done.
Qed.

Lemma wf_provisioned : wf Examples.provisioned ∧ obliging (docker Examples.provisioned).
Proof.
  split.
  - apply wf_spinUpContainer; [apply wf_fresh|apply obliging_fresh].
  - apply obliging_spinUpContainer; [apply wf_fresh|apply obliging_fresh].
Qed.

Lemma wf_twoUsers : wf twoUsers ∧ obliging (docker twoUsers).
Proof.
  destruct wf_provisioned as [Hwf Hob]. split.
  - by apply wf_spinUpContainer.
  - by apply obliging_spinUpContainer.
Qed.

(** X1, the witness: the server on which user 7 and user 9 have a workspace. *)
Lemma X1_shutdown_stops_every_workspace_witness :
  ∃ s',
    cleanupAllContainers twoUsers = (Ret tt, s')
    ∧ activeContainers s' = []
    ∧ (∀ c, c ∈ containers (docker s') → cRunning c = false)
    ∧ (∀ userId, live userId (docker s') = [])
    ∧ containers (docker s') `sublist_of` containers (docker twoUsers).
Proof.
  apply (X1_shutdown_stops_every_workspace twoUsers); apply wf_twoUsers.
Defined.

(** What the assumption on the daemon excludes: [cleanupAllContainers]
    returns normally with the map empty also when the daemon fails the
    request to stop container 0, which then goes on running. *)
Lemma refused_stop_survives_shutdown :
  ∃ s',
    cleanupAllContainers Examples.stubborn = (Ret tt, s')
    ∧ activeContainers s' = []
    ∧ map cId (live 7 (docker s')) = ["0"].
Proof. eexists. split; [vm_compute; reflexivity|]. split; reflexivity. Qed.

(** *** Releasing what was provisioned *)

Section MapMore.
Context {V : Type}.
Implicit Types (m : Map V) (k : Z) (v : V).

Lemma set_absent k v m : get k m = None → set k v m = m ++ [(k, v)].
Proof.
  induction m as [|[k' v'] m IH]; simpl; [done|].
  destruct (Z.eqb_spec k' k); [done|]. intros H. by rewrite IH.
Qed.

Lemma set_last k v v' m : get k m = None → set k v' (m ++ [(k, v)]) = m ++ [(k, v')].
Proof.
  induction m as [|[k0 v0] m IH]; simpl.
  - by rewrite Z.eqb_refl.
  - destruct (Z.eqb_spec k0 k); [done|]. intros H. by rewrite IH.
Qed.

Lemma get_last k v m : get k m = None → get k (m ++ [(k, v)]) = Some v.
Proof.
  induction m as [|[k0 v0] m IH]; simpl.
  - by rewrite Z.eqb_refl.
  - destruct (Z.eqb_spec k0 k); [done|]. apply IH.
Qed.
End MapMore.

Lemma track_absent userId id m :
  get userId m = None → track userId id m = m ++ [(userId, [id])].
Proof.
  intros Hnone. unfold track, has, tracked. rewrite Hnone.
  rewrite (set_absent _ _ _ Hnone), (get_last _ _ _ Hnone). simpl.
  by apply set_last.
Qed.

Lemma existsb_eqb_false id (l : list string) :
  id ∉ l → existsb (String.eqb id) l = false.
Proof.
  intros Hni. apply not_true_iff_false. intros (x & Hx & Heq)%existsb_exists.
  apply String.eqb_eq in Heq as <-. by apply Hni, list_elem_of_In.
Qed.

Lemma untrack_last id userId m :
  (∀ entry, entry ∈ m → id ∉ snd entry) →
  untrack id (m ++ [(userId, [id])]) = m.
Proof.
  induction m as [|[u cs] m IH]; intros Hfree; simpl.
  - by rewrite String.eqb_refl.
  - rewrite existsb_eqb_false
      by (apply (Hfree (u, cs)); by apply elem_of_cons; left).
    rewrite IH; [done|]. intros entry Hentry. apply Hfree. by apply elem_of_cons; right.
Qed.

Lemma remove_added c d :
  (∀ c', c' ∈ containers d → cId c' ≠ cId c) →
  containers (remove (cId c) (added c d)) = containers d.
Proof.
  intros Hfresh. unfold remove, added. cbn [containers with_containers].
  rewrite filter_app, filter_cons, filter_nil.
  rewrite decide_False
    by (unfold has_id; rewrite String.eqb_refl; simpl; tauto).
  rewrite app_nil_r. induction (containers d) as [|c' l IH]; [done|].
  rewrite filter_cons.
  rewrite decide_True.
  - f_equal. apply IH. intros c'' Hc''. apply Hfresh. by apply elem_of_cons; right.
  - unfold has_id. destruct (String.eqb_spec (cId c') (cId c)) as [E|E]; [|done].
    destruct (Hfresh c'); [by apply elem_of_cons; left|done].
Qed.

(** X2: next to a daemon that stops every container it is asked to stop,
    on a state that satisfies the invariant, stopping the container a
    successful [spinUpContainer] has just returned undoes the provisioning:
    the call returns normally, the user has no entry in [activeContainers]
    and no live container, and map and containers are exactly those that
    [cleanupUserContainers] alone would have left. *)
Theorem X2_stop_undoes_spin_up subject userId e s url id s1 :
  wf s →
  obliging (docker s) →
  spinUpContainer subject userId e s = (Ret (url, id), s1) →
  ∃ s2,
    stopContainer id s1 = (Ret tt, s2)
    ∧ activeContainers s2 = activeContainers (snd (cleanupUserContainers userId s))
    ∧ containers (docker s2) = containers (docker (snd (cleanupUserContainers userId s)))
    ∧ get userId (activeContainers s2) = None
    ∧ live userId (docker s2) = [].
Proof.
  intros Hwf Hob Hspin. rewrite spinUpContainer_flat in Hspin by done.
  apply spinUpFlat_success in Hspin as (image & _ & -> & ->).
  rewrite cleanupUserContainers_eq. cbn [snd].
  pose proof (cleaned_ids userId s Hwf) as Hids.
  pose proof (cleaned_tracked_ids userId s Hwf) as Htr.
  pose proof (live_cleaned userId s Hwf Hob) as Hlive.
  pose proof (cleaned_refuses userId s) as Href.
  set (s0 := cleaned userId s) in *. set (d1 := docker s0) in *.
  set (c1 := newContainer d1 userId e image true).
  assert (∀ c', c' ∈ containers d1 → cId c' ≠ cId c1) as Hfresh.
  { intros c' Hc'. apply issued_fresh, Hids, Hc'. }
  assert (get userId (activeContainers s0) = None) as Hnone by apply get_delete.
  rewrite stopContainer_eq. cbn [docker activeContainers templateWorkspace added refuses].
  assert (is_running (pretty (nextId d1)) (added c1 d1) = true) as ->.
  { rewrite is_running_added. apply orb_true_iff; right.
    unfold c1, newContainer, has_id. cbn [cId cRunning]. by rewrite String.eqb_refl. }
  rewrite Href, Hob. cbn [negb andb].
  eexists. split; [reflexivity|]. cbn [activeContainers docker].
  assert (untrack (pretty (nextId d1))
            (track userId (pretty (nextId d1)) (activeContainers s0))
          = activeContainers s0) as Hmap.
  { rewrite track_absent by done. apply untrack_last.
    intros entry Hentry Hin. by apply (issued_fresh d1 _ (Htr entry _ Hentry Hin)). }
  assert (containers (remove (pretty (nextId d1)) (added c1 d1)) = containers d1)
    as Hcs by (by apply (remove_added c1 d1)).
  rewrite Hmap, Hcs. repeat split; [done|].
  unfold live. rewrite Hcs. exact Hlive.
Qed.

(** X2, the witness: the workspace of user 7 on the example server. *)
Lemma X2_stop_undoes_spin_up_witness :
  ∃ s2,
    stopContainer "0" Examples.provisioned = (Ret tt, s2)
    ∧ activeContainers s2
      = activeContainers (snd (cleanupUserContainers 7 Examples.server))
    ∧ containers (docker s2)
      = containers (docker (snd (cleanupUserContainers 7 Examples.server)))
    ∧ get 7 (activeContainers s2) = None
    ∧ live 7 (docker s2) = [].
Proof.
  apply (X2_stop_undoes_spin_up "JavaScript" 7 Examples.firstCall Examples.server
           "http://localhost:51234" "0" Examples.provisioned).
  - apply wf_fresh.
  - apply obliging_fresh.
  - vm_compute. reflexivity.
Defined.

(** What the assumption on the daemon excludes: when the daemon fails the
    request, [stopContainer] returns normally and nothing is undone. *)
Lemma refused_stop_undoes_nothing :
  stopContainer "0" Examples.stubborn = (Ret tt, Examples.stubborn)
  ∧ is_running "0" (docker Examples.stubborn) = true
  ∧ tracked 7 (activeContainers Examples.stubborn) = ["0"].
Proof. split; [by apply stopContainer_refused|]. split; reflexivity. Qed.

(** X3: a failed [spinUpContainer] has released the workspace the user
    had, whatever made it fail (unsupported subject, missing image, name
    conflict, port already allocated): none of the identifiers tracked for
    the user before the call is tracked for the user afterwards, and each
    of them that the daemon does not refuse to stop is no longer running. *)
Theorem X3_failed_spin_up_releases_the_workspace subject userId e s message s' :
  wf s →
  spinUpContainer subject userId e s = (Throw message, s') →
  (∀ id, id ∈ tracked userId (activeContainers s) →
         id ∉ tracked userId (activeContainers s'))
  ∧ (∀ id, id ∈ tracked userId (activeContainers s) →
           refuses (docker s) id = false → is_running id (docker s') = false).
Proof.
  intros Hwf Hspin.
  rewrite spinUpContainer_flat in Hspin by done.
  unfold spinUpFlat in Hspin. cbv zeta in Hspin.
  repeat case_match; try discriminate Hspin;
    injection Hspin as <- <-; cbn [activeContainers docker cleaned];
    (split; [intros id _; rewrite tracked_delete; apply not_elem_of_nil|]);
    intros id Hid R; rewrite ?is_running_added; cbn [newContainer cRunning];
    rewrite ?andb_false_r, ?orb_false_r; by apply stopAll_idle.
Qed.

(** X3, the witness: user 9 asks for a workspace on the port that the
    workspace of user 7 holds. *)
Lemma X3_failed_spin_up_releases_the_workspace_witness :
  (∀ id, id ∈ tracked 9 (activeContainers twoUsers) →
         id ∉ tracked 9 (activeContainers
                           (snd (spinUpContainer "Java" 9
                                   {| getPort := 51234; now := 1700000090000 |}
                                   twoUsers))))
  ∧ (∀ id, id ∈ tracked 9 (activeContainers twoUsers) →
           refuses (docker twoUsers) id = false →
           is_running id
             (docker (snd (spinUpContainer "Java" 9
                             {| getPort := 51234; now := 1700000090000 |} twoUsers)))
           = false).
Proof.
  apply (X3_failed_spin_up_releases_the_workspace "Java" 9
           {| getPort := 51234; now := 1700000090000 |} twoUsers
           "(HTTP code 500) server error - port is already allocated").
  - apply wf_twoUsers.
  - vm_compute. reflexivity.
Defined.

(** *** Users do not disturb each other *)

Lemma tracked_entry userId m x :
  x ∈ tracked userId m → ∃ l, (userId, l) ∈ m ∧ x ∈ l.
Proof.
  unfold tracked. destruct (get userId m) as [l|] eqn:E; simpl.
  - intros Hx. exists l. split; [by apply get_elem_of|done].
  - by intros ?%elem_of_nil.
Qed.

Lemma track_entry userId id m entry :
  entry ∈ track userId id m →
  entry ∈ m ∨ (fst entry = userId ∧ ∀ x, x ∈ snd entry → x = id ∨ x ∈ tracked userId m).
Proof.
  unfold track. intros [Hentry| ->]%elem_of_set.
  - destruct (has userId m); [by left|].
    apply elem_of_set in Hentry as [Hentry| ->]; [by left|].
    right. split; [done|]. by intros x ?%elem_of_nil.
  - right. split; [done|]. cbn [snd]. intros x [Hx|Hx]%elem_of_app.
    + right. destruct (has userId m); [done|].
      unfold tracked in Hx. rewrite get_set in Hx. by apply elem_of_nil in Hx.
    + left. by apply list_elem_of_singleton in Hx.
Qed.

Lemma untrack_entry id m entry :
  entry ∈ untrack id m →
  ∃ entry', entry' ∈ m ∧ fst entry' = fst entry
            ∧ ∀ x, x ∈ snd entry → x ∈ snd entry'.
Proof.
  induction m as [|[u cs] m IH]; simpl.
  - by intros ?%elem_of_nil.
  - destruct (existsb (String.eqb id) cs).
    + destruct (removeFirst id cs) as [|c cs'] eqn:E.
      * intros Hin. exists entry. split; [by apply elem_of_cons; right|done].
      * intros [->|Hin]%elem_of_cons.
        -- exists (u, cs). split; [by apply elem_of_cons; left|]. split; [done|].
           cbn [snd]. intros x Hx. apply (elem_of_removeFirst id). by rewrite E.
        -- exists entry. split; [by apply elem_of_cons; right|done].
    + intros [->|Hin]%elem_of_cons.
      * exists (u, cs). split; [by apply elem_of_cons; left|done].
      * destruct (IH Hin) as (entry' & ? & ? & ?).
        exists entry'. split; [by apply elem_of_cons; right|done].
Qed.

Lemma owned_fresh imgs : owned (fresh imgs).
Proof. by intros entry id c ?%elem_of_nil. Qed.

Lemma owned_cleaned userId s : owned s → owned (cleaned userId s).
Proof.
  intros Hown entry id c Hentry Hid Hc Hcid.
  apply (Hown entry id c); [|done| |done].
  - by apply (elem_of_delete userId).
  - eapply elem_of_sublist; [done|apply cleaned_sublist].
Qed.

Lemma owned_ready s d :
  owned {| activeContainers := activeContainers s; docker := d;
           templateWorkspace := templateWorkspace s |} →
  owned {| activeContainers := activeContainers s; docker := d;
           templateWorkspace := true |}.
Proof. intros H. exact H. Qed.

Lemma owned_spinUpContainer subject userId e s :
  wf s → owned s → owned (snd (spinUpContainer subject userId e s)).
Proof.
  intros Hwf Hown. rewrite spinUpContainer_flat by done.
  pose proof (cleaned_ids userId s Hwf) as Hids.
  pose proof (cleaned_tracked_ids userId s Hwf) as Htr.
  pose proof (owned_cleaned userId s Hown) as Hown1.
  set (s1 := cleaned userId s) in *.
  unfold spinUpFlat. cbv zeta. fold s1.
  repeat case_match; cbn [snd]; try exact Hown1.
  - (* the container was created and could not be started *)
    intros entry id c Hentry Hid [Hc| ->%list_elem_of_singleton]%elem_of_app Hcid.
    + by apply (Hown1 entry id c).
    + exfalso. cbn [newContainer cId] in Hcid. subst id.
      by apply (issued_fresh (docker s1) _ (Htr entry _ Hentry Hid)).
  - (* the container runs and is tracked *)
    intros entry id c Hentry Hid Hc Hcid. cbn [activeContainers docker] in *.
    apply elem_of_app in Hc as [Hc|Hc].
    + destruct (track_entry _ _ _ _ Hentry) as [Hold|[Hu Hnew]].
      * by apply (Hown1 entry id c).
      * destruct (Hnew id Hid) as [->|Hin].
        -- exfalso. by apply (issued_fresh (docker s1) _ (Hids c Hc)).
        -- destruct (tracked_entry _ _ _ Hin) as (l & Hl & Hx).
           rewrite Hu. by apply (Hown1 (userId, l) id c).
    + apply list_elem_of_singleton in Hc as ->.
      cbn [newContainer cId cName nUser] in *. subst id.
      destruct (track_entry _ _ _ _ Hentry) as [Hold|[Hu _]]; [|done].
      exfalso. by apply (issued_fresh (docker s1) _ (Htr entry _ Hold Hid)).
Qed.

Lemma owned_stopContainer id s : owned s → owned (snd (stopContainer id s)).
Proof.
  intros Hown. rewrite stopContainer_eq. cbn [snd].
  destruct (_ && _); [|done].
  intros entry x c Hentry Hx Hc Hcid. cbn [activeContainers docker] in *.
  destruct (untrack_entry _ _ _ Hentry) as (entry' & Hentry' & <- & Hsub).
  apply elem_of_remove in Hc as [Hc _].
  by apply (Hown entry' x c); [|apply Hsub|..].
Qed.

Lemma filter_filter_absorb {A} (P Q : A → Prop)
    `{!∀ x, Decision (P x)} `{!∀ x, Decision (Q x)} (l : list A) :
  (∀ x, x ∈ l → P x → Q x) → filter P (filter Q l) = filter P l.
Proof.
  induction l as [|x l IH]; intros Himp; [done|].
  assert (filter P (filter Q l) = filter P l) as IH'
    by (apply IH; intros y Hy; apply Himp; by apply elem_of_cons; right).
  rewrite (filter_cons Q). destruct (decide (Q x)) as [Hq|Hq].
  - rewrite !filter_cons, IH'. done.
  - rewrite IH', filter_cons. rewrite decide_False; [done|].
    intros Hp. apply Hq, Himp; [by apply elem_of_cons; left|done].
Qed.

Lemma live_afterStop other d id :
  (∀ c, c ∈ containers d → cId c = id → nUser (cName c) ≠ other) →
  live other (afterStop d id) = live other d.
Proof.
  intros Hforeign. unfold afterStop. destruct (_ && _); [|done].
  unfold live, remove. cbn [containers with_containers].
  apply filter_filter_absorb. intros c Hc Hp.
  apply Is_true_true, andb_true_iff in Hp as [_ Hu]. apply Z.eqb_eq in Hu.
  unfold has_id. destruct (String.eqb_spec (cId c) id) as [E|E]; [|done].
  by destruct (Hforeign c Hc E).
Qed.

Lemma live_stopAll other d ids :
  (∀ id c, id ∈ ids → c ∈ containers d → cId c = id → nUser (cName c) ≠ other) →
  live other (foldl afterStop d ids) = live other d.
Proof.
  revert d. induction ids as [|id ids IH]; intros d Hforeign; [done|].
  simpl. rewrite IH.
  - apply live_afterStop. intros c Hc Hid. apply (Hforeign id c); [|done..].
    by apply elem_of_cons; left.
  - intros id' c Hid' Hc Hcid. apply (Hforeign id' c); [|  |done].
    + by apply elem_of_cons; right.
    + eapply elem_of_sublist; [done|apply afterStop_sublist].
Qed.

Lemma live_cleaned_other userId other s :
  owned s → other ≠ userId →
  live other (docker (cleaned userId s)) = live other (docker s).
Proof.
  intros Hown Hne. cbn [cleaned docker]. apply live_stopAll.
  intros id c Hid Hc Hcid Hu.
  destruct (tracked_entry _ _ _ Hid) as (l & Hl & Hx).
  apply Hne. rewrite <- Hu. by apply (Hown (userId, l) id c).
Qed.

(** X4: a [spinUpContainer] call for one user leaves every other user's
    workspace alone: what is tracked for the other user and the other
    user's live containers are the same before and after, whether the call
    succeeds or throws.  The ownership of tracked identifiers that this
    rests on holds on a fresh server and is kept by every operation. *)
Theorem X4_spin_up_leaves_other_users_alone subject userId other e s :
  wf s → owned s → other ≠ userId →
  tracked other (activeContainers (snd (spinUpContainer subject userId e s)))
  = tracked other (activeContainers s)
  ∧ live other (docker (snd (spinUpContainer subject userId e s)))
    = live other (docker s)
  ∧ owned (snd (spinUpContainer subject userId e s)).
Proof.
  intros Hwf Hown Hne.
  split; [|split; [|by apply owned_spinUpContainer]].
  - rewrite spinUpContainer_flat by done.
    assert (tracked other (activeContainers (cleaned userId s))
            = tracked other (activeContainers s)) as Hc
      by (cbn [cleaned activeContainers]; by apply tracked_delete_ne).
    unfold spinUpFlat. cbv zeta. repeat case_match; cbn [snd activeContainers]; try done.
    by rewrite tracked_track_ne.
  - rewrite spinUpContainer_flat by done.
    pose proof (live_cleaned_other userId other s Hown Hne) as Hc.
    unfold spinUpFlat. cbv zeta. repeat case_match; cbn [snd docker]; try done.
    + rewrite live_added. cbn [newContainer cRunning andb]. by rewrite app_nil_r.
    + rewrite live_added. cbn [newContainer cRunning cName nUser andb].
      destruct (Z.eqb_spec userId other) as [E|_]; [by destruct Hne|].
      by rewrite app_nil_r.
Qed.

(** X4, the witness: user 7 replaces the workspace while user 9 has one. *)
Lemma X4_spin_up_leaves_other_users_alone_witness :
  tracked 9 (activeContainers
               (snd (spinUpContainer "Java" 7 Examples.secondCall twoUsers)))
  = tracked 9 (activeContainers twoUsers)
  ∧ live 9 (docker (snd (spinUpContainer "Java" 7 Examples.secondCall twoUsers)))
    = live 9 (docker twoUsers)
  ∧ owned (snd (spinUpContainer "Java" 7 Examples.secondCall twoUsers)).
Proof.
  apply (X4_spin_up_leaves_other_users_alone "Java" 7 9 Examples.secondCall twoUsers).
  - apply wf_twoUsers.
  - apply owned_spinUpContainer; [apply wf_provisioned|].
    apply owned_spinUpContainer; [apply wf_fresh|apply owned_fresh].
  - discriminate.
Defined.

End Lifecycle.

(** ** The capture service: what a capture leaves behind *)

Module Service.
Import Capture Spec JsFacts Tracing Engine Driver Release.

(** *** Steps that leave the staging files and the collection alone *)

Section Keeps.
Context {A B : Type}.

Lemma keeps_ret (a : A) : keeps (mret a : M A).
Proof. by intros s. Qed.

Lemma keeps_throw message : keeps (throw message : M A).
Proof. by intros s. Qed.

Lemma keeps_bind (m : M A) (f : A → M B) :
  keeps m → (∀ a, keeps (f a)) → keeps (m ≫= f).
Proof.
  intros Hm Hf s. destruct (Hm s) as [H1 H2].
  unfold mbind, M_bind. destruct (m s) as [[a|e] s1]; simpl in *; [|done].
  destruct (Hf a s1) as [H3 H4]. split; congruence.
Qed.

Lemma keeps_tryCatch (m : M A) (h : string → M A) :
  keeps m → (∀ e, keeps (h e)) → keeps (tryCatch m h).
Proof.
  intros Hm Hh s. destruct (Hm s) as [H1 H2].
  unfold tryCatch. destruct (m s) as [[a|e] s1]; simpl in *; [done|].
  destruct (Hh e s1) as [H3 H4]. split; congruence.
Qed.

(** Running a step that keeps them, then going on. *)
Lemma keeps_then (m : M A) (f : A → M B) (Q : outcome B * service → Prop) s :
  keeps m →
  (∀ e s1, files s1 = files s → screenshots s1 = screenshots s → Q (Throw e, s1)) →
  (∀ a s1, files s1 = files s → screenshots s1 = screenshots s → Q (f a s1)) →
  Q ((m ≫= f) s).
Proof.
  intros Hm Ht Hr. destruct (Hm s) as [H1 H2].
  unfold mbind, M_bind. destruct (m s) as [[a|e] s1]; simpl in *; auto.
Qed.
End Keeps.

Lemma keeps_emit e : keeps (emit e).
Proof. by intros s. Qed.

Lemma keeps_getSystemScreenSize h : keeps (getSystemScreenSize h).
Proof.
  intros s. unfold getSystemScreenSize.
  destruct (systemScreenSize s); [done|]. by destruct (screen h).
Qed.

Lemma keeps_launchShared h : keeps (launchShared h).
Proof. intros s. unfold launchShared. by destruct (launches h). Qed.

Lemma keeps_initBrowser h : keeps (initBrowser h).
Proof.
  intros s. unfold initBrowser. destruct (browser s); [done|].
  apply (keeps_bind (getSystemScreenSize h) (fun _ => launchShared h));
    [apply keeps_getSystemScreenSize|intros _; apply keeps_launchShared].
Qed.

Lemma keeps_closePage : keeps closePage.
Proof. intros s. unfold closePage. by destruct (browser s). Qed.

Lemma keeps_setBrowser b : keeps (setBrowser b).
Proof. by intros s. Qed.

(** Discharges [keeps] goals over the combinators of the capture code. *)
Ltac keeps_step :=
  first
    [ apply keeps_ret
    | apply keeps_throw
    | apply keeps_emit
    | apply keeps_getSystemScreenSize
    | apply keeps_initBrowser
    | apply keeps_closePage
    | apply keeps_setBrowser
    | apply keeps_bind; [|intros ?]
    | apply keeps_tryCatch; [|intros ?]
    | match goal with
      | |- keeps (if ?b then _ else _) => destruct b
      | |- keeps (match ?l with [] => _ | _ :: _ => _ end) => destruct l
      end ].

Ltac keeps_auto := repeat keeps_step.

(** The trust step never throws, leaves the collection alone and writes
    at most the diagnostic screenshot. *)
Lemma trustDialog_files p s :
  ∃ s1, trustDialog p s = (Ret tt, s1)
        ∧ files s1 = debugFile p ++ files s
        ∧ screenshots s1 = screenshots s.
Proof.
  unfold trustDialog, waitForSelector, debugFile.
  destruct (buttonAppears p), (trustInPage p), (trustByText p), (debugSnapshot p);
    eexists; (split; [reflexivity|]); done.
Qed.

Lemma keeps_authenticate p : keeps (authenticate p).
Proof. unfold authenticate, waitForSelector. keeps_auto. Qed.

Lemma keeps_setupWorkspace p subject : keeps (setupWorkspace p subject).
Proof.
  unfold setupWorkspace, waitForSelector, openOrCreateFile, createSampleFile, typeInto.
  keeps_auto.
Qed.

Lemma keeps_contentReadiness p : keeps (contentReadiness p).
Proof. unfold contentReadiness, waitForSelector. keeps_auto. Qed.

Lemma keeps_goto p url : keeps (goto p url).
Proof. unfold goto. keeps_auto. Qed.

Lemma keeps_pollLoop page attempts round : keeps (pollLoop page attempts round).
Proof.
  revert round. induction attempts as [|n IH]; intros round; cbn [pollLoop]; [keeps_auto|].
  apply keeps_bind; [keeps_auto|intros _].
  destruct (nonEmpty _); [keeps_auto|]. destruct (usable _); [keeps_auto|].
  apply keeps_bind; [keeps_auto|intros _].
  apply keeps_bind; [keeps_auto|intros _]. apply IH.
Qed.

(** *** The screen size is detected once *)

(** X5: [getSystemScreenSize] detects the screen at most once per process:
    after any call, every later call returns the same size, whatever the
    machine shows by then, and makes no further call to the browser.  This
    holds for the fallback as well: when the first detection fails, the
    size is 1920 x 1080 from then on. *)
Theorem X5_screen_size_detected_once h h' s :
  ∃ size s1,
    getSystemScreenSize h s = (Ret size, s1)
    ∧ getSystemScreenSize h' s1 = (Ret size, s1)
    ∧ (systemScreenSize s = None → screen h = None → size = (1920, 1080))
    ∧ (∀ known, systemScreenSize s = Some known → size = known ∧ s1 = s).
Proof.
  unfold getSystemScreenSize. destruct (systemScreenSize s) as [size|] eqn:E.
  - exists size, s. rewrite E. split; [done|]. split; [done|]. split; [done|].
    by intros known [= <-].
  - destruct (screen h) as [size|]; eexists; eexists;
      (split; [reflexivity|]); cbn [systemScreenSize]; repeat split; done.
Qed.

(** *** Releasing the shared browser *)

(** X6: [cleanup] never throws and always forgets the shared browser,
    whether or not [browser.close()] succeeds; it makes no call when there
    is no browser.  The detected screen size survives it, so the next
    [initBrowser] on a machine that can launch starts a new browser
    without detecting the screen again. *)
Theorem X6_cleanup_forgets_the_browser closes h s :
  launches h = true →
  ∃ s1 s2,
    cleanup closes s = (Ret tt, s1)
    ∧ browser s1 = false
    ∧ systemScreenSize s1 = systemScreenSize s
    ∧ files s1 = files s ∧ screenshots s1 = screenshots s
    ∧ trace s1 = trace s ++ (if browser s then [CloseBrowser] else [])
    ∧ initBrowser h s1 = (Ret tt, s2)
    ∧ browser s2 = true
    ∧ trace s2 = trace s1 ++ screenDetection h s ++ [Launch true].
Proof.
  intros Hl.
  assert (∃ s1, cleanup closes s = (Ret tt, s1) ∧ browser s1 = false
                ∧ systemScreenSize s1 = systemScreenSize s
                ∧ files s1 = files s ∧ screenshots s1 = screenshots s
                ∧ trace s1 = trace s ++ (if browser s then [CloseBrowser] else []))
    as (s1 & Hc & Hb & Hsize & Hf & Hs & Ht).
  { unfold cleanup. destruct (browser s) eqn:Eb.
    - unfold closeShared, tryCatch.
      destruct closes; eexists; (split; [reflexivity|]); done.
    - exists s. by rewrite app_nil_r. }
  exists s1. unfold initBrowser. rewrite Hb.
  destruct (getSystemScreenSize_trace h s1) as (size & s2 & H2 & Ht2 & Hb2).
  rewrite (bind_ret _ _ _ _ _ H2). unfold launchShared. rewrite Hl.
  eexists. repeat split; try done. cbn [trace]. rewrite Ht2, <- app_assoc.
  unfold screenDetection. by rewrite Hsize.
Qed.

(** X6, the witness: the example machine with its browser open. *)
Lemma X6_cleanup_forgets_the_browser_witness :
  ∃ s1 s2,
    cleanup false (snd (initBrowser Examples.machine Examples.idle)) = (Ret tt, s1)
    ∧ browser s1 = false
    ∧ systemScreenSize s1
      = systemScreenSize (snd (initBrowser Examples.machine Examples.idle))
    ∧ files s1 = files (snd (initBrowser Examples.machine Examples.idle))
    ∧ screenshots s1 = screenshots (snd (initBrowser Examples.machine Examples.idle))
    ∧ trace s1 = trace (snd (initBrowser Examples.machine Examples.idle))
                 ++ (if browser (snd (initBrowser Examples.machine Examples.idle))
                     then [CloseBrowser] else [])
    ∧ initBrowser Examples.machine s1 = (Ret tt, s2)
    ∧ browser s2 = true
    ∧ trace s2 = trace s1
                 ++ screenDetection Examples.machine
                      (snd (initBrowser Examples.machine Examples.idle))
                 ++ [Launch true].
Proof.
  apply (X6_cleanup_forgets_the_browser false Examples.machine
           (snd (initBrowser Examples.machine Examples.idle))).
  reflexivity.
Defined.

(** *** The viewport capture *)

Lemma shoot_eq h p size url userId subject captureEvent s :
  shoot h p size url userId subject captureEvent s
  = if screenshotOk p then
      (Ret (shot h p size url userId subject captureEvent),
       {| browser := browser s; systemScreenSize := systemScreenSize s;
          files := (stagedPath h userId subject captureEvent, jpeg p) :: files s;
          screenshots := screenshots s;
          trace := trace s ++ [Screenshot (stagedPath h userId subject captureEvent)] |})
    else
      (Throw "Protocol error (Page.captureScreenshot)",
       logged [Screenshot (stagedPath h userId subject captureEvent)] s).
Proof.
  unfold shoot. cbv zeta. rewrite emit_then. by destruct (screenshotOk p).
Qed.

Lemma captureScreenshot_outcome h p url userId subject captureEvent s :
  ∃ r s',
    captureScreenshot h p url userId subject captureEvent s = (Ret r, s')
    ∧ screenshots s' = screenshots s
    ∧ ((∃ message, r = failed message url userId subject "browser"
                   ∧ (files s' = files s ∨ files s' = debugFile p ++ files s))
       ∨ (∃ size, r = shot h p size url userId subject captureEvent
                  ∧ files s' = (stagedPath h userId subject captureEvent, jpeg p)
                               :: debugFile p ++ files s)).
Proof.
  unfold captureScreenshot.
  match goal with |- context [tryCatch ?b ?handler] => set (body := b) end.
  assert (bodyOutcome h p url userId subject captureEvent s (body s)) as Hbody.
  { subst body.
    apply keeps_then; [keeps_auto|intros; split; [by left|done]|intros _ s1 Hf1 Hs1].
    apply keeps_then; [keeps_auto|intros; split; [left|]; congruence
                      |intros size s2 Hf2 Hs2].
    apply keeps_then; [keeps_auto|intros; split; [left|]; congruence
                      |intros _ s3 Hf3 Hs3].
    apply keeps_then; [apply keeps_goto|intros; split; [left|]; congruence
                      |intros _ s4 Hf4 Hs4].
    destruct (trustDialog_files p s4) as (s5 & Ht & Hf5 & Hs5).
    rewrite (bind_ret _ _ _ _ _ Ht).
    assert (files s5 = debugFile p ++ files s) as Hf5' by congruence.
    assert (screenshots s5 = screenshots s) as Hs5' by congruence.
    clear Ht Hf5 Hs5.
    apply keeps_then; [keeps_auto|intros; split; [right|]; congruence
                      |intros _ s6 Hf6 Hs6].
    apply keeps_then; [apply keeps_authenticate|intros; split; [right|]; congruence
                      |intros _ s7 Hf7 Hs7].
    apply keeps_then; [apply keeps_setupWorkspace|intros; split; [right|]; congruence
                      |intros _ s8 Hf8 Hs8].
    apply keeps_then; [apply keeps_contentReadiness|intros; split; [right|]; congruence
                      |intros _ s9 Hf9 Hs9].
    rewrite shoot_eq. destruct (screenshotOk p); simpl.
    - split; [by exists size|]. split; congruence.
    - split; [right|]; congruence. }
  unfold mbind, M_bind, tryCatch.
  destruct (body s) as [[r|e] s1]; simpl in Hbody.
  - destruct Hbody as ((size & ->) & Hf & Hs).
    destruct (keeps_closePage s1) as [Hf' Hs'].
    destruct (closePage s1) as [[[]|e] s2] eqn:Ec.
    + eexists. eexists. split; [reflexivity|]. simpl in *. split; [congruence|].
      right. exists size. split; [done|congruence].
    + unfold closePage in Ec. destruct (browser s1); discriminate Ec.
  - destruct Hbody as [Hf Hs]. rewrite mret_eq.
    destruct (keeps_closePage s1) as [Hf' Hs'].
    destruct (closePage s1) as [[[]|e'] s2] eqn:Ec.
    + eexists. eexists. split; [reflexivity|]. simpl in *. split; [congruence|].
      left. exists e. split; [done|]. destruct Hf as [Hf|Hf]; [left|right]; congruence.
    + unfold closePage in Ec. destruct (browser s1); discriminate Ec.
Qed.


Lemma captureScreenshot_success h p url userId subject captureEvent s :
  launches h = true → navigates p = true → screenshotOk p = true →
  ∃ r s', captureScreenshot h p url userId subject captureEvent s = (Ret r, s')
          ∧ success r = true.
Proof.
  intros Hl Hnav Hok. unfold captureScreenshot.
  destruct (body_steps h p url userId subject captureEvent s Hl Hnav)
    as (size & s7 & pre & mid & afterAuth & Hbody & _).
  destruct (shoot_ok h p size url userId subject captureEvent s7 Hok)
    as (r & s8 & Hshoot & Hsuccess).
  match goal with |- context [tryCatch ?b ?handler] =>
    destruct (finish_result b
                (fun message => failed message url userId subject "browser")
                s r s8) as (s9 & Hwhole)
  end.
  { by rewrite Hbody. }
  by exists r, s9.
Qed.

Lemma lookupFile_head path content fs :
  lookupFile path ((path, content) :: fs) = Some content.
Proof. unfold lookupFile. simpl. by rewrite String.eqb_refl. Qed.

Lemma lookupFile_cons_ne path other content fs :
  other ≠ path → lookupFile other ((path, content) :: fs) = lookupFile other fs.
Proof.
  intros Hne. unfold lookupFile. cbn [List.find fst].
  destruct (String.eqb_spec path other) as [E|_]; [by destruct Hne|done].
Qed.

Lemma lookupFile_filter_same path fs :
  lookupFile path (filter (fun f => negb (String.eqb (fst f) path)) fs) = None.
Proof.
  unfold lookupFile. induction fs as [|[q c] fs IH]; [done|].
  rewrite filter_cons. cbn [fst]. destruct (String.eqb q path) eqn:E; simpl; [done|].
  by rewrite E.
Qed.

Lemma lookupFile_filter_other path other fs :
  other ≠ path →
  lookupFile other (filter (fun f => negb (String.eqb (fst f) path)) fs)
  = lookupFile other fs.
Proof.
  intros Hne. unfold lookupFile. induction fs as [|[q c] fs IH]; [done|].
  rewrite filter_cons. cbn [fst]. destruct (String.eqb_spec q path) as [->|E]; simpl.
  - destruct (String.eqb_spec path other) as [E'|_]; [by destruct Hne|]. apply IH.
  - destruct (String.eqb q other); [done|]. apply IH.
Qed.

Lemma lookupFile_debug other p fs :
  other ≠ debugPath → lookupFile other (debugFile p ++ fs) = lookupFile other fs.
Proof.
  intros Hne. unfold debugFile. destruct (_ && _); [|done].
  by apply lookupFile_cons_ne.
Qed.

(** X7: [captureScreenshot] never throws: it returns a result in every
    case, leaves the collection alone, and says [success] exactly when the
    picture has been staged.  A failed result carries the error message and
    no file path, and the only file that can have been written is the
    diagnostic screenshot of the trust step; a successful one names the
    staging file, which then holds the bytes of the screenshot, and besides
    it only that diagnostic screenshot has been written, which happens
    when a button showed up and no trust control was clicked. *)
Theorem X7_viewport_capture_never_throws h p url userId subject captureEvent s :
  ∃ r s',
    captureScreenshot h p url userId subject captureEvent s = (Ret r, s')
    ∧ screenshots s' = screenshots s
    ∧ ((success r = false ∧ (∃ message, error r = Some message)
        ∧ filePath r = None
        ∧ (files s' = files s ∨ files s' = debugFile p ++ files s))
       ∨ (success r = true ∧ error r = None
          ∧ filePath r = Some (stagedPath h userId subject captureEvent)
          ∧ files s' = (stagedPath h userId subject captureEvent, jpeg p)
                       :: debugFile p ++ files s
          ∧ lookupFile (stagedPath h userId subject captureEvent) (files s')
            = Some (jpeg p)
          ∧ screenshotOk p = true))
    ∧ (∀ other, other ≠ stagedPath h userId subject captureEvent →
                other ≠ debugPath →
                lookupFile other (files s') = lookupFile other (files s)).
Proof.
  destruct (captureScreenshot_outcome h p url userId subject captureEvent s)
    as (r & s' & Hc & Hs & [(message & -> & Hf)|(size & -> & Hf)]).
  - exists (failed message url userId subject "browser"), s'.
    split; [done|]. split; [done|]. split.
    + left. cbn. eauto.
    + intros other _ Hd. destruct Hf as [->| ->]; [done|by apply lookupFile_debug].
  - exists (shot h p size url userId subject captureEvent), s'.
    split; [done|]. split; [done|]. split.
    2:{ intros other Hst Hd. rewrite Hf, lookupFile_cons_ne by done.
        by apply lookupFile_debug. }
    right. cbn [success error filePath shot].
    rewrite Hf, lookupFile_head. repeat split.
    destruct (screenshotOk p) eqn:Hok; [done|]. exfalso.
    revert Hc. unfold captureScreenshot.
    match goal with |- context [tryCatch ?b ?handler] => set (body := b) end.
    assert (∀ res, body s = res → fst res ≠ Ret (shot h p size url userId subject captureEvent))
      as Hno.
    { intros res <-. subst body. unfold mbind, M_bind.
      repeat (match goal with
              | |- context [match ?m ?st with _ => _ end] =>
                  lazymatch m with
                  | shoot _ _ _ _ _ _ _ => fail
                  | _ => destruct (m st) as [[?|?] ?]; [|done]
                  end
              end).
      rewrite shoot_eq, Hok. done. }
    unfold mbind, M_bind, tryCatch. specialize (Hno (body s) eq_refl).
    destruct (body s) as [[r|e] s1]; simpl in Hno.
    + unfold closePage. destruct (browser s1); simpl; intros [= -> _]; done.
    + unfold closePage. rewrite mret_eq. destruct (browser s1); simpl; intros [= H _];
        discriminate H.
Qed.


(** *** Saving what was staged *)

Lemma find_app_last {A} (f : A → bool) (l : list A) (x : A) :
  f x = true → ∃ y, List.find f (l ++ [x]) = Some y.
Proof.
  intros Hx. induction l as [|a l IH]; simpl.
  - rewrite Hx. by eexists.
  - destruct (f a); [by eexists|done].
Qed.

Lemma tagged_nonempty text : String.eqb ("data:image/" +:+ text) "" = false.
Proof. reflexivity. Qed.


Lemma tagged_prefix text : startsWith ("data:image/" +:+ text) "data:image/" = true.
Proof. unfold startsWith. simpl. apply StringFacts.prefix_nil. Qed.

(** A tagged payload offered to a collection that answers is stored as a
    new document, and a document is returned. *)
Lemma saveScreenshot_tagged (d : MongoDB.screenshotData) (date : Z)
    (c : MongoDB.collection) text :
  MongoDB.image d = Str ("data:image/" +:+ text) → MongoDB.online c = true →
  ∃ saved,
    MongoDB.saveScreenshot d date c
    = (Ret saved,
       {| MongoDB.docs :=
            MongoDB.docs c ++ [{| MongoDB._id := MongoDB.nextObjectId c;
                                  MongoDB.data := d; MongoDB.createdAt := date |}];
          MongoDB.nextObjectId := N.succ (MongoDB.nextObjectId c);
          MongoDB.online := true |}).
Proof.
  intros Himg Hon. unfold MongoDB.saveScreenshot. rewrite Himg.
  cbn [truthy MongoDB.notString]. rewrite tagged_nonempty, tagged_prefix.
  cbn [negb orb]. unfold mbind, M_bind, MongoDB.insertOne. rewrite Hon.
  unfold MongoDB.retrieve, MongoDB.findOne. cbn [MongoDB.docs].
  destruct (find_app_last (fun doc => (MongoDB._id doc =? MongoDB.nextObjectId c)%N)
              (MongoDB.docs c)
              {| MongoDB._id := MongoDB.nextObjectId c; MongoDB.data := d;
                 MongoDB.createdAt := date |}) as [saved ->].
  { cbn. apply N.eqb_refl. }
  by exists saved.
Qed.

Lemma saveScreenshot_offline (d : MongoDB.screenshotData) (date : Z)
    (c : MongoDB.collection) text :
  MongoDB.image d = Str ("data:image/" +:+ text) → MongoDB.online c = false →
  MongoDB.saveScreenshot d date c = (Throw "MongoNetworkError: connection closed", c).
Proof.
  intros Himg Hoff. unfold MongoDB.saveScreenshot. rewrite Himg.
  cbn [truthy MongoDB.notString]. rewrite tagged_nonempty, tagged_prefix.
  cbn [negb orb]. unfold mbind, M_bind, MongoDB.insertOne. by rewrite Hoff.
Qed.

Section Persist.
Variable toBase64 : string → string.

(** The document that [persist] offers to [saveScreenshot]. *)
Lemma toScreenshotData_tagged result buffer userId url captureEvent codespace :
  MongoDB.image (toScreenshotData toBase64 result buffer userId url captureEvent codespace)
  = Str ("data:image/" +:+ ("jpeg;base64," +:+ toBase64 buffer)).
Proof. reflexivity. Qed.

Lemma persist_online h result path buffer userId url captureEvent codespace s :
  success result = true → filePath result = Some path → path ≠ "" →
  lookupFile path (files s) = Some buffer →
  MongoDB.online (screenshots s) = true →
  ∃ s',
    persist toBase64 h result userId url captureEvent codespace s = (Ret result, s')
    ∧ MongoDB.docs (screenshots s')
      = MongoDB.docs (screenshots s)
        ++ [{| MongoDB._id := MongoDB.nextObjectId (screenshots s);
               MongoDB.data := toScreenshotData toBase64 result buffer userId url
                                 captureEvent codespace;
               MongoDB.createdAt := saveDate h |}]
    ∧ files s' = filter (fun f => negb (String.eqb (fst f) path)) (files s)
    ∧ trace s' = trace s ++ [Unlink path].
Proof.
  intros Hok Hpath Hne Hfile Hon. unfold persist. rewrite Hpath, Hok.
  destruct (String.eqb_spec path "") as [|_]; [done|]. cbn [negb andb].
  destruct (saveScreenshot_tagged
              (toScreenshotData toBase64 result buffer userId url captureEvent codespace)
              (saveDate h) (screenshots s) _ (toScreenshotData_tagged _ _ _ _ _ _) Hon)
    as [saved Hsave].
  unfold tryCatch, mbind, M_bind, readFileSync, saveToMongo, unlinkSync.
  rewrite Hfile. cbn [screenshots]. rewrite Hsave. cbn [files]. rewrite Hfile.
  eexists. split; [reflexivity|]. done.
Qed.

Lemma persist_offline h result path buffer userId url captureEvent codespace s :
  success result = true → filePath result = Some path → path ≠ "" →
  lookupFile path (files s) = Some buffer →
  MongoDB.online (screenshots s) = false →
  persist toBase64 h result userId url captureEvent codespace s
  = (Ret (withError result "MongoDB save failed: MongoNetworkError: connection closed"), s).
Proof.
  intros Hok Hpath Hne Hfile Hoff. unfold persist. rewrite Hpath, Hok.
  destruct (String.eqb_spec path "") as [|_]; [done|]. cbn [negb andb].
  pose proof (saveScreenshot_offline
                (toScreenshotData toBase64 result buffer userId url captureEvent codespace)
                (saveDate h) (screenshots s) _ (toScreenshotData_tagged _ _ _ _ _ _) Hoff)
    as Hsave.
  unfold tryCatch, mbind, M_bind, readFileSync, saveToMongo.
  rewrite Hfile. rewrite Hsave. cbn. by destruct s.
Qed.

Lemma stagedPath_nonempty h userId subject captureEvent :
  stagedPath h userId subject captureEvent ≠ "".
Proof. done. Qed.

(** X8: when the browser starts, the navigation and the final screenshot
    succeed and the collection answers, [captureAndSaveToMongoDB] returns
    the successful result of the capture, the collection gains exactly one
    document, whose image is the staged bytes in base64 behind the
    [data:image/jpeg;base64,] prefix and whose metadata names the user,
    the URL and the event of the call, and the staging file is removed:
    no file is left under its path.  The only other file touched is the
    diagnostic screenshot of the trust step, written when a button showed
    up and no trust control was clicked. *)
Theorem X8_capture_is_saved_and_unstaged h p url userId subject captureEvent s :
  launches h = true → navigates p = true → screenshotOk p = true →
  MongoDB.online (screenshots s) = true →
  ∃ r s' doc,
    captureAndSaveToMongoDB toBase64 h p url userId subject captureEvent s = (Ret r, s')
    ∧ success r = true ∧ error r = None
    ∧ MongoDB.docs (screenshots s') = MongoDB.docs (screenshots s) ++ [doc]
    ∧ MongoDB.image (MongoDB.data doc)
      = Str ("data:image/jpeg;base64," +:+ toBase64 (jpeg p))
    ∧ MongoDB.userId (MongoDB.data doc) = userId
    ∧ MongoDB.containerUrl (MongoDB.meta (MongoDB.data doc)) = Some url
    ∧ MongoDB.captureEvent (MongoDB.meta (MongoDB.data doc)) = captureEvent
    ∧ MongoDB.subject (MongoDB.meta (MongoDB.data doc)) = subject
    ∧ MongoDB.isCodespaceCapture (MongoDB.meta (MongoDB.data doc)) = true
    ∧ lookupFile (stagedPath h userId subject captureEvent) (files s') = None
    ∧ (∀ other, other ≠ stagedPath h userId subject captureEvent →
                lookupFile other (files s') = lookupFile other (debugFile p ++ files s))
    ∧ (∀ other, other ≠ stagedPath h userId subject captureEvent →
                other ≠ debugPath →
                lookupFile other (files s') = lookupFile other (files s)).
Proof.
  intros Hl Hnav Hok Hon.
  destruct (captureScreenshot_success h p url userId subject captureEvent s Hl Hnav Hok)
    as (r0 & s0 & Hc0 & Hsucc).
  destruct (captureScreenshot_outcome h p url userId subject captureEvent s)
    as (r & s1 & Hc & Hs & [(message & -> & Hf)|(size & -> & Hf)]).
  { rewrite Hc0 in Hc. injection Hc as -> _. discriminate Hsucc. }
  unfold captureAndSaveToMongoDB. rewrite (bind_ret _ _ _ _ _ Hc).
  destruct (persist_online h (shot h p size url userId subject captureEvent)
              (stagedPath h userId subject captureEvent) (jpeg p) userId
              url captureEvent true s1) as (s' & Hp & Hdocs & Hfiles & _).
  { done. } { done. } { apply stagedPath_nonempty. }
  { rewrite Hf. apply lookupFile_head. } { by rewrite Hs. }
  cbn [containerUrl shot]. rewrite Hp. eexists. exists s'. eexists.
  split; [reflexivity|]. split; [done|]. split; [done|].
  split; [by rewrite Hdocs, Hs|]. cbn.
  assert (∀ other, other ≠ stagedPath h userId subject captureEvent →
                   lookupFile other (files s')
                   = lookupFile other (debugFile p ++ files s)) as Hother.
  { intros other Hne. rewrite Hfiles, lookupFile_filter_other by done.
    rewrite Hf. by apply lookupFile_cons_ne. }
  repeat split.
  - rewrite Hfiles. apply lookupFile_filter_same.
  - exact Hother.
  - intros other Hne Hd. rewrite Hother by done. by apply lookupFile_debug.
Qed.

(** X9: under the same conditions but with a collection that does not
    answer, [captureAndSaveToMongoDB] still returns normally; the result
    says [success: false] with the error [MongoDB save failed: ...], no
    document is stored, and the staging file is not removed: it stays on
    disk with the bytes of the screenshot. *)
Theorem X9_outage_leaves_the_staged_file h p url userId subject captureEvent s :
  launches h = true → navigates p = true → screenshotOk p = true →
  MongoDB.online (screenshots s) = false →
  ∃ r s',
    captureAndSaveToMongoDB toBase64 h p url userId subject captureEvent s = (Ret r, s')
    ∧ success r = false
    ∧ error r = Some "MongoDB save failed: MongoNetworkError: connection closed"
    ∧ filePath r = Some (stagedPath h userId subject captureEvent)
    ∧ screenshots s' = screenshots s
    ∧ lookupFile (stagedPath h userId subject captureEvent) (files s') = Some (jpeg p).
Proof.
  intros Hl Hnav Hok Hoff.
  destruct (captureScreenshot_success h p url userId subject captureEvent s Hl Hnav Hok)
    as (r0 & s0 & Hc0 & Hsucc).
  destruct (captureScreenshot_outcome h p url userId subject captureEvent s)
    as (r & s1 & Hc & Hs & [(message & -> & Hf)|(size & -> & Hf)]).
  { rewrite Hc0 in Hc. injection Hc as -> _. discriminate Hsucc. }
  unfold captureAndSaveToMongoDB. rewrite (bind_ret _ _ _ _ _ Hc).
  rewrite (persist_offline h (shot h p size url userId subject captureEvent)
             (stagedPath h userId subject captureEvent) (jpeg p));
    [|done|done|apply stagedPath_nonempty|rewrite Hf; apply lookupFile_head
     |by rewrite Hs].
  eexists. exists s1. split; [reflexivity|]. cbn.
  repeat split; [done|]. rewrite Hf. apply lookupFile_head.
Qed.

End Persist.


(** X8, the witness: the capture of the example page without a trust
    control on the example machine, base64 left as the identity. *)
Lemma X8_capture_is_saved_and_unstaged_witness :
  ∃ r s' doc,
    captureAndSaveToMongoDB (fun b => b) Examples.machine
      (Examples.undecided (Examples.bareDocument [Examples.primeSource]))
      "http://localhost:8087" 7 "JavaScript" "manual" Examples.idle = (Ret r, s')
    ∧ success r = true ∧ error r = None
    ∧ MongoDB.docs (screenshots s') = MongoDB.docs (screenshots Examples.idle) ++ [doc]
    ∧ MongoDB.image (MongoDB.data doc)
      = Str ("data:image/jpeg;base64," +:+
             jpeg (Examples.undecided (Examples.bareDocument [Examples.primeSource])))
    ∧ MongoDB.userId (MongoDB.data doc) = 7
    ∧ MongoDB.containerUrl (MongoDB.meta (MongoDB.data doc)) = Some "http://localhost:8087"
    ∧ MongoDB.captureEvent (MongoDB.meta (MongoDB.data doc)) = "manual"
    ∧ MongoDB.subject (MongoDB.meta (MongoDB.data doc)) = "JavaScript"
    ∧ MongoDB.isCodespaceCapture (MongoDB.meta (MongoDB.data doc)) = true
    ∧ lookupFile (stagedPath Examples.machine 7 "JavaScript" "manual") (files s') = None
    ∧ (∀ other, other ≠ stagedPath Examples.machine 7 "JavaScript" "manual" →
                lookupFile other (files s')
                = lookupFile other
                    (debugFile (Examples.undecided
                                  (Examples.bareDocument [Examples.primeSource]))
                     ++ files Examples.idle))
    ∧ (∀ other, other ≠ stagedPath Examples.machine 7 "JavaScript" "manual" →
                other ≠ debugPath →
                lookupFile other (files s') = lookupFile other (files Examples.idle)).
Proof.
  apply (X8_capture_is_saved_and_unstaged (fun b => b) Examples.machine
           (Examples.undecided (Examples.bareDocument [Examples.primeSource]))
           "http://localhost:8087" 7 "JavaScript" "manual" Examples.idle);
    reflexivity.
Defined.

(** On that page the diagnostic screenshot is left behind. *)
Lemma diagnostic_file_is_left :
  lookupFile debugPath
    (files (snd (captureAndSaveToMongoDB (fun b => b) Examples.machine
                   (Examples.undecided (Examples.bareDocument [Examples.primeSource]))
                   "http://localhost:8087" 7 "JavaScript" "manual" Examples.idle)))
  = Some "JFIF trust".
Proof. reflexivity. Qed.

(** X9, the witness: the same capture while the collection does not answer. *)
Lemma X9_outage_leaves_the_staged_file_witness :
  ∃ r s',
    captureAndSaveToMongoDB (fun b => b) Examples.machine
      (Examples.editor (Examples.bareDocument [Examples.primeSource]))
      "http://localhost:8087" 7 "JavaScript" "manual"
      {| browser := false; systemScreenSize := None; files := [];
         screenshots := {| MongoDB.docs := []; MongoDB.nextObjectId := 0;
                           MongoDB.online := false |};
         trace := [] |} = (Ret r, s')
    ∧ success r = false
    ∧ error r = Some "MongoDB save failed: MongoNetworkError: connection closed"
    ∧ filePath r = Some (stagedPath Examples.machine 7 "JavaScript" "manual")
    ∧ screenshots s' = {| MongoDB.docs := []; MongoDB.nextObjectId := 0;
                          MongoDB.online := false |}
    ∧ lookupFile (stagedPath Examples.machine 7 "JavaScript" "manual") (files s')
      = Some (jpeg (Examples.editor (Examples.bareDocument [Examples.primeSource]))).
Proof.
  apply (X9_outage_leaves_the_staged_file (fun b => b) Examples.machine
           (Examples.editor (Examples.bareDocument [Examples.primeSource]))
           "http://localhost:8087" 7 "JavaScript" "manual"
           {| browser := false; systemScreenSize := None; files := [];
              screenshots := {| MongoDB.docs := []; MongoDB.nextObjectId := 0;
                                MongoDB.online := false |};
              trace := [] |});
    reflexivity.
Defined.

(** *** The desktop capture *)


Lemma splitComma_nonempty s : splitComma s ≠ [].
Proof.
  induction s as [|c s IH]; [done|]. cbn [splitComma].
  destruct (Ascii.eqb c ","); [done|]. by destruct (splitComma s).
Qed.


Section Desktop.
Variables fromBase64 toBase64 : string → string.

Lemma stageDesktop_eq h size imageData userId subject captureEvent s :
  stageDesktop fromBase64 h size imageData userId subject captureEvent s
  = match splitComma imageData !! 1%nat with
    | None =>
        (Throw "The first argument must be of type string or an instance of Buffer", s)
    | Some base64Data =>
        (Ret (desktopShot h size (fromBase64 base64Data) userId subject captureEvent),
         {| browser := browser s; systemScreenSize := systemScreenSize s;
            files := (stagedDesktopPath h userId subject captureEvent,
                      fromBase64 base64Data) :: files s;
            screenshots := screenshots s;
            trace := trace s
                     ++ [WriteFile (stagedDesktopPath h userId subject captureEvent)] |})
    end.
Proof.
  unfold stageDesktop. cbv zeta. by destruct (splitComma imageData !! 1%nat).
Qed.

Lemma desktop_body_outcome h page userId subject captureEvent s :
  desktopOutcome h userId subject captureEvent s
    ((screenSize ← getSystemScreenSize h ;
      launchDedicated h ;;
      emit NewPage ;;
      emit SetContent ;;
      emit (Sleep 3000) ;;
      imageData ← pollLoop page 8 0 ;
      match imageData with
      | None => throw "Desktop capture timed out - could not capture screen data"
      | Some imageData =>
          stageDesktop fromBase64 h screenSize imageData userId subject captureEvent
      end) s).
Proof.
  apply keeps_then; [keeps_auto|by intros|intros size s1 Hf1 Hs1].
  apply keeps_then; [unfold launchDedicated; keeps_auto|intros; split; congruence
                    |intros _ s2 Hf2 Hs2].
  apply keeps_then; [keeps_auto|intros; split; congruence|intros _ s3 Hf3 Hs3].
  apply keeps_then; [keeps_auto|intros; split; congruence|intros _ s4 Hf4 Hs4].
  apply keeps_then; [keeps_auto|intros; split; congruence|intros _ s5 Hf5 Hs5].
  apply keeps_then; [apply keeps_pollLoop|intros; split; congruence
                    |intros imageData s6 Hf6 Hs6].
  destruct imageData as [imageData|]; [|split; cbn; congruence].
  rewrite stageDesktop_eq. destruct (splitComma imageData !! 1%nat) as [b64|]; cbn.
  - exists size, (fromBase64 b64). split; [done|]. split; congruence.
  - split; congruence.
Qed.

(** X10: [captureDesktopScreen] never throws, whatever the page shows
    (an error, no frame, a frame that cannot be decoded, a usable frame)
    and whether or not the dedicated browser starts.  The collection is
    left alone; a failed result carries an error message and no file path,
    and no file has been written; a successful one names the staging file,
    which is the one file that has been written. *)
Theorem X10_desktop_capture_never_throws h page userId subject captureEvent s :
  ∃ r s',
    captureDesktopScreen fromBase64 h page userId subject captureEvent s = (Ret r, s')
    ∧ screenshots s' = screenshots s
    ∧ ((success r = false ∧ (∃ message, error r = Some message)
        ∧ filePath r = None ∧ files s' = files s)
       ∨ (success r = true ∧ error r = None
          ∧ filePath r = Some (stagedDesktopPath h userId subject captureEvent)
          ∧ ∃ buffer,
              files s' = (stagedDesktopPath h userId subject captureEvent, buffer)
                         :: files s)).
Proof.
  unfold captureDesktopScreen.
  match goal with |- context [tryCatch ?b ?handler] => set (body := b) end.
  pose proof (desktop_body_outcome h page userId subject captureEvent s) as Hbody.
  fold body in Hbody.
  unfold mbind, M_bind, tryCatch.
  destruct (body s) as [[r|e] s1]; simpl in Hbody.
  - destruct Hbody as (size & buffer & -> & Hf & Hs).
    unfold closeDedicated. destruct (launches h);
      (eexists; eexists; split; [reflexivity|]); cbn;
      (split; [done|]); right; repeat split; by exists buffer.
  - destruct Hbody as [Hf Hs]. rewrite mret_eq.
    unfold closeDedicated. destruct (launches h);
      (eexists; eexists; split; [reflexivity|]); cbn;
      (split; [done|]); left; repeat split; eauto.
Qed.




End Desktop.


End Service.
(** ** The monitoring database: queries *)

Module Queries.
Import MongoDB MongoQueries JsFacts.

(** *** Sorting and limiting *)

Section CursorFacts.
Context {A : Type} (date : A → Z).

Lemma insertNewest_perm x l : insertNewest date x l ≡ₚ x :: l.
Proof.
  induction l as [|y l IH]; [done|]. cbn [insertNewest].
  destruct (date y <=? date x)%Z; [done|].
  rewrite IH. apply Permutation_swap.
Qed.

Lemma newestFirst_perm l : newestFirst date l ≡ₚ l.
Proof.
  induction l as [|x l IH]; [done|]. cbn [newestFirst foldr].
  fold (newestFirst date l). by rewrite insertNewest_perm, IH.
Qed.

Lemma elem_of_newestFirst x l : x ∈ newestFirst date l ↔ x ∈ l.
Proof. by rewrite newestFirst_perm. Qed.

Lemma insertNewest_descending x l :
  descending date l → descending date (insertNewest date x l).
Proof.
  induction l as [|y l IH]; [by split|]. cbn [insertNewest].
  intros [Hy Hl]. destruct (Z.leb_spec (date y) (date x)) as [Hle|Hlt].
  - cbn [descending]. repeat split; [|done..].
    apply Forall_cons. split; [done|].
    eapply Forall_impl; [exact Hy|]. intros z Hz. simpl in Hz. lia.
  - cbn [descending]. split; [|by apply IH].
    rewrite insertNewest_perm. apply Forall_cons. split; [lia|done].
Qed.

Lemma newestFirst_descending l : descending date (newestFirst date l).
Proof.
  induction l as [|x l IH]; [done|]. cbn [newestFirst foldr].
  by apply insertNewest_descending.
Qed.

Lemma descending_app l1 l2 x y :
  descending date (l1 ++ l2) → x ∈ l1 → y ∈ l2 → (date y ≤ date x)%Z.
Proof.
  induction l1 as [|z l1 IH]; [by intros _ ?%elem_of_nil|].
  cbn [app descending]. intros [Hz Hd] [->|Hx]%elem_of_cons Hy.
  - rewrite Forall_forall in Hz. apply Hz. apply elem_of_app. by right.
  - by apply IH.
Qed.

Lemma descending_take n l : descending date l → descending date (take n l).
Proof.
  revert n. induction l as [|x l IH]; intros [|n]; try done.
  cbn [take descending]. intros [Hx Hd]. split; [|by apply IH].
  rewrite Forall_forall in *. intros y Hy. apply Hx.
  apply elem_of_take in Hy as (i & Hi & _). by eapply list_elem_of_lookup_2.
Qed.

(** What a limit cuts off is never newer than what it keeps. *)
Lemma take_keeps_newest n l x y :
  descending date l → x ∈ take n l → y ∈ l → (date x < date y)%Z → y ∈ take n l.
Proof.
  intros Hd Hx Hy Hlt. rewrite <- (take_drop n l) in Hy, Hd.
  apply elem_of_app in Hy as [Hy|Hy]; [done|].
  pose proof (descending_app _ _ x y Hd Hx Hy). lia.
Qed.

Lemma limitTo_positive limit (l : list A) :
  (0 < limit)%Z → limitTo limit l = take (Z.to_nat limit) l.
Proof.
  intros Hpos. unfold limitTo. destruct (Z.eqb_spec limit 0); [lia|].
  f_equal. lia.
Qed.
End CursorFacts.

(** *** Screenshots *)

(** X12: on a collection that answers and with a positive limit (100 when
    none is given), [getScreenshots] returns documents of the collection
    that match the user filter, newest first and no more than the limit;
    none of the documents left out is newer than one returned.  A user id
    of 0 is falsy and filters nothing, like a missing one; any other id
    returns only that user's documents. *)
Theorem X12_getScreenshots_newest_within_limit (userId limit : option Z) c :
  online c = true → (0 < default 100 limit) →
  ∃ result,
    getScreenshots userId limit c = Ret result
    ∧ descending createdAt result
    ∧ (length result ≤ Z.to_nat (default 100%Z limit))%nat
    ∧ (∀ doc, doc ∈ result →
              doc ∈ docs c ∧ byUser userId (MongoDB.userId (data doc)) = true)
    ∧ (∀ doc other, doc ∈ result → other ∈ docs c →
                    byUser userId (MongoDB.userId (data other)) = true →
                    createdAt doc < createdAt other → other ∈ result)
    ∧ getScreenshots (Some 0) limit c = getScreenshots None limit c
    ∧ (∀ u doc, userId = Some u → u ≠ 0 → doc ∈ result →
                MongoDB.userId (data doc) = u).
Proof.
  intros Hon Hpos. unfold getScreenshots. rewrite Hon.
  rewrite !limitTo_positive by done.
  set (matching := filter (fun doc => byUser userId (MongoDB.userId (data doc))) (docs c)).
  assert (∀ doc, doc ∈ take (Z.to_nat (default 100 limit)) (newestFirst createdAt matching) →
                 doc ∈ docs c ∧ byUser userId (MongoDB.userId (data doc)) = true) as Hin.
  { intros doc Hdoc. apply elem_of_take in Hdoc as (i & Hdoc & _).
    apply list_elem_of_lookup_2, elem_of_newestFirst in Hdoc.
    apply list_elem_of_filter in Hdoc as [Hm Hdoc]. split; [done|].
    by apply Is_true_true. }
  eexists. split; [reflexivity|].
  split; [apply descending_take, newestFirst_descending|].
  split; [rewrite length_take; lia|]. split; [exact Hin|].
  split; [|split].
  - intros doc other Hdoc Hother Hm Hlt.
    apply (take_keeps_newest createdAt _ _ doc other);
      [apply newestFirst_descending|done| |done].
    apply elem_of_newestFirst, list_elem_of_filter. split; [by apply Is_true_true|done].
  - reflexivity.
  - intros u doc -> Hu Hdoc. destruct (Hin doc Hdoc) as [_ Hm].
    cbn [byUser] in Hm. apply orb_true_iff in Hm as [Hz|He].
    + apply Z.eqb_eq in Hz. done.
    + by apply Z.eqb_eq in He.
Qed.

(** X12, the witness: the captures of user 7 in the example album. *)
Lemma X12_getScreenshots_newest_within_limit_witness :
  ∃ result,
    getScreenshots (Some 7) None album = Ret result
    ∧ descending createdAt result
    ∧ (length result ≤ Z.to_nat (default 100%Z None))%nat
    ∧ (∀ doc, doc ∈ result →
              doc ∈ docs album
              ∧ byUser (Some 7) (MongoDB.userId (data doc)) = true)
    ∧ (∀ doc other, doc ∈ result → other ∈ docs album →
                    byUser (Some 7) (MongoDB.userId (data other)) = true →
                    createdAt doc < createdAt other → other ∈ result)
    ∧ getScreenshots (Some 0) None album
      = getScreenshots None None album
    ∧ (∀ u doc, Some 7 = Some u → u ≠ 0 → doc ∈ result →
                MongoDB.userId (data doc) = u).
Proof.
  apply (X12_getScreenshots_newest_within_limit (Some 7) None album).
  - reflexivity.
  - reflexivity.
Defined.

(** *** Saving and listing *)

Lemma find_fresh_last {A} (f : A → bool) (l : list A) (x : A) :
  (∀ y, y ∈ l → f y = false) → f x = true → List.find f (l ++ [x]) = Some x.
Proof.
  intros Hl Hx. induction l as [|a l IH]; simpl.
  - by rewrite Hx.
  - rewrite (Hl a) by (by apply elem_of_cons; left).
    apply IH. intros y Hy. apply Hl. by apply elem_of_cons; right.
Qed.

Lemma startsWith_nonempty text : startsWith text "data:image/" = true → text ≠ "".
Proof. by destruct text. Qed.

(** X13: round trip through the collection.  On a collection that answers
    and whose identifiers were all handed out by it, [saveScreenshot] of a
    payload tagged [data:image/...] returns the stored document, which holds
    exactly the data given, under a new identifier; [findOne] retrieves it
    by that identifier; and [getAllScreenshots] afterwards lists it together
    with every document that was there, newest first. *)
Theorem X13_saved_screenshot_is_listed d date c text :
  image d = Str text → startsWith text "data:image/" = true →
  online c = true →
  (∀ doc, doc ∈ docs c → (_id doc < nextObjectId c)%N) →
  ∃ c' all,
    saveScreenshot d date c
    = (Ret {| _id := nextObjectId c; data := d; createdAt := date |}, c')
    ∧ findOne (nextObjectId c) c'
      = Some {| _id := nextObjectId c; data := d; createdAt := date |}
    ∧ (∀ doc, doc ∈ docs c' → (_id doc < nextObjectId c')%N)
    ∧ getAllScreenshots c' = Ret all
    ∧ all ≡ₚ {| _id := nextObjectId c; data := d; createdAt := date |} :: docs c
    ∧ descending createdAt all.
Proof.
  intros Himg Htag Hon Hids.
  assert (findOne (nextObjectId c)
            {| docs := docs c ++ [{| _id := nextObjectId c; data := d; createdAt := date |}];
               nextObjectId := N.succ (nextObjectId c); online := online c |}
          = Some {| _id := nextObjectId c; data := d; createdAt := date |}) as Hfind.
  { unfold findOne. cbn [docs]. apply find_fresh_last.
    - intros doc Hdoc. apply N.eqb_neq. specialize (Hids doc Hdoc). lia.
    - cbn. apply N.eqb_refl. }
  eexists. eexists. split.
  { unfold saveScreenshot. rewrite Himg. cbn [truthy notString].
    destruct (String.eqb_spec text "") as [E|_]; [by apply startsWith_nonempty in E|].
    rewrite Htag. cbn [negb orb].
    unfold mbind, M_bind, insertOne. rewrite Hon.
    unfold retrieve. rewrite Hon in Hfind. rewrite Hfind. reflexivity. }
  split; [by rewrite Hon in Hfind|]. split.
  { cbn [docs nextObjectId]. intros doc [Hdoc| ->%list_elem_of_singleton]%elem_of_app.
    - specialize (Hids doc Hdoc). lia.
    - cbn. lia. }
  unfold getAllScreenshots. cbn [online docs]. split; [reflexivity|].
  split; [|apply newestFirst_descending].
  rewrite newestFirst_perm. by rewrite Permutation_app_comm.
Qed.

(** X13, the witness: a tagged capture of user 7 offered to the empty store. *)
Lemma X13_saved_screenshot_is_listed_witness :
  ∃ c' all,
    saveScreenshot
      {| MongoDB.userId := 7; MongoDB.type := "screenshot";
         image := Str "data:image/jpeg;base64,/9j/4AAQSkZJRg";
         meta := Examples.desktopMeta |} 1714557601000 Examples.emptyStore
    = (Ret {| _id := nextObjectId Examples.emptyStore;
              data := {| MongoDB.userId := 7; MongoDB.type := "screenshot";
                         image := Str "data:image/jpeg;base64,/9j/4AAQSkZJRg";
                         meta := Examples.desktopMeta |};
              createdAt := 1714557601000 |}, c')
    ∧ findOne (nextObjectId Examples.emptyStore) c'
      = Some {| _id := nextObjectId Examples.emptyStore;
                data := {| MongoDB.userId := 7; MongoDB.type := "screenshot";
                           image := Str "data:image/jpeg;base64,/9j/4AAQSkZJRg";
                           meta := Examples.desktopMeta |};
                createdAt := 1714557601000 |}
    ∧ (∀ doc, doc ∈ docs c' → (_id doc < nextObjectId c')%N)
    ∧ getAllScreenshots c' = Ret all
    ∧ all ≡ₚ {| _id := nextObjectId Examples.emptyStore;
                data := {| MongoDB.userId := 7; MongoDB.type := "screenshot";
                           image := Str "data:image/jpeg;base64,/9j/4AAQSkZJRg";
                           meta := Examples.desktopMeta |};
                createdAt := 1714557601000 |} :: docs Examples.emptyStore
    ∧ descending createdAt all.
Proof.
  apply (X13_saved_screenshot_is_listed
           {| MongoDB.userId := 7; MongoDB.type := "screenshot";
              image := Str "data:image/jpeg;base64,/9j/4AAQSkZJRg";
              meta := Examples.desktopMeta |} 1714557601000 Examples.emptyStore
           "data:image/jpeg;base64,/9j/4AAQSkZJRg").
  - reflexivity.
  - reflexivity.
  - reflexivity.
  - intros doc Hdoc. simpl in Hdoc. by apply elem_of_nil in Hdoc.
Defined.


(** *** Screen-share events *)

Lemma groupFirst_elem sorted seen r :
  r ∈ groupFirst sorted seen →
  (shUserId (payload r) ∉ seen)
  ∧ ∃ l1 l2, sorted = l1 ++ r :: l2
             ∧ ∀ x, x ∈ l1 → shUserId (payload x) ≠ shUserId (payload r).
Proof.
  revert seen. induction sorted as [|a rest IH]; intros seen; cbn [groupFirst].
  - by intros ?%elem_of_nil.
  - destruct (bool_decide (shUserId (payload a) ∈ seen)) eqn:E.
    + apply bool_decide_eq_true in E. intros Hr.
      destruct (IH seen Hr) as (Hns & l1 & l2 & -> & Hl1).
      split; [done|]. exists (a :: l1), l2. split; [done|].
      intros x [->|Hx]%elem_of_cons; [|by apply Hl1].
      intros Heq. apply Hns. by rewrite <- Heq.
    + apply bool_decide_eq_false in E. intros [->|Hr]%elem_of_cons.
      * split; [done|]. exists [], rest. split; [done|]. by intros x ?%elem_of_nil.
      * destruct (IH _ Hr) as (Hns & l1 & l2 & -> & Hl1).
        apply not_elem_of_cons in Hns as [Hne Hns].
        split; [done|]. exists (a :: l1), l2. split; [done|].
        intros x [->|Hx]%elem_of_cons; [done|by apply Hl1].
Qed.

Lemma groupFirst_latest sorted seen r :
  descending created sorted →
  (∀ a b, a ∈ sorted → b ∈ sorted →
          shUserId (payload a) = shUserId (payload b) → created a = created b → a = b) →
  r ∈ sorted → shUserId (payload r) ∉ seen →
  (∀ x, x ∈ sorted → shUserId (payload x) = shUserId (payload r) →
        created x ≤ created r) →
  r ∈ groupFirst sorted seen.
Proof.
  revert seen. induction sorted as [|a rest IH]; intros seen Hd Hapart Hr Hns Hlatest.
  - by apply elem_of_nil in Hr.
  - destruct Hd as [Ha Hd]. cbn [groupFirst].
    assert (∀ a b, a ∈ rest → b ∈ rest →
                   shUserId (payload a) = shUserId (payload b) →
                   created a = created b → a = b) as Hapart'.
    { intros x y Hx Hy. apply Hapart; by apply elem_of_cons; right. }
    assert (∀ x, x ∈ rest → shUserId (payload x) = shUserId (payload r) →
                 created x ≤ created r) as Hlatest'.
    { intros x Hx. apply Hlatest. by apply elem_of_cons; right. }
    destruct (decide (shUserId (payload a) = shUserId (payload r))) as [Heq|Hne].
    + assert (a = r) as ->.
      { apply elem_of_cons in Hr as [->|Hr]; [done|].
        apply Hapart; [by apply elem_of_cons; left|by apply elem_of_cons; right|done|].
        rewrite Forall_forall in Ha. specialize (Ha r Hr).
        specialize (Hlatest a). apply Z.le_antisymm; [|done].
        apply Hlatest; [by apply elem_of_cons; left|done]. }
      rewrite bool_decide_eq_false_2 by done. by apply elem_of_cons; left.
    + apply elem_of_cons in Hr as [->|Hr]; [done|].
      destruct (bool_decide (shUserId (payload a) ∈ seen)).
      * by apply IH.
      * apply elem_of_cons; right. apply IH; try done.
        apply not_elem_of_cons. split; [done|done].
Qed.

Lemma groupFirst_length sorted seen :
  (length (groupFirst sorted seen) ≤ length sorted)%nat.
Proof.
  revert seen. induction sorted as [|a rest IH]; intros seen; cbn [groupFirst]; [done|].
  destruct (bool_decide _); cbn [length].
  - specialize (IH seen). lia.
  - specialize (IH (shUserId (payload a) :: seen)). lia.
Qed.

(** X14: on a collection that answers and in which no two events of one
    user bear the same date, [getActiveScreenShares] returns exactly the
    events that are the latest of their user and have the action [start]:
    a user who started and has not stopped since is listed, once, with
    that start event; a user whose latest event is a stop or an error is
    not. *)
Theorem X14_active_shares_are_latest_starts t :
  up t = true → datesTellApart (rows t) →
  ∃ active,
    getActiveScreenShares t = Ret active
    ∧ (∀ r, r ∈ active ↔ latestOfUser (rows t) r ∧ isStart r = true)
    ∧ (∀ a b, a ∈ active → b ∈ active →
              shUserId (payload a) = shUserId (payload b) → a = b)
    ∧ (length active ≤ length (rows t))%nat.
Proof.
  intros Hup Hapart. unfold getActiveScreenShares. rewrite Hup.
  set (sorted := newestFirst created (rows t)).
  assert (∀ r, r ∈ filter (fun r => isStart r) (groupFirst sorted [])
               ↔ latestOfUser (rows t) r ∧ isStart r = true) as Hchar.
  { intros r. rewrite list_elem_of_filter. split.
    - intros [Hs Hr]. split; [|by apply Is_true_true].
      destruct (groupFirst_elem _ _ _ Hr) as (_ & l1 & l2 & Hsplit & Hl1).
      assert (r ∈ sorted) as Hin
        by (rewrite Hsplit; apply elem_of_app; right; by apply elem_of_cons; left).
      split; [by apply (elem_of_newestFirst created)|].
      intros other Hother Hu. apply (elem_of_newestFirst created) in Hother.
      fold sorted in Hother. rewrite Hsplit in Hother.
      apply elem_of_app in Hother as [Hother|Hother]; [by destruct (Hl1 other Hother)|].
      apply elem_of_cons in Hother as [->|Hother]; [done|].
      pose proof (newestFirst_descending created (rows t)) as Hd. fold sorted in Hd.
      rewrite Hsplit, (cons_middle r l1 l2), app_assoc in Hd.
      apply (descending_app created _ _ r other Hd); [|done].
      apply elem_of_app; right. by apply list_elem_of_singleton.
    - intros [[Hr Hlatest] Hs]. split; [by apply Is_true_true|].
      apply groupFirst_latest.
      + apply newestFirst_descending.
      + intros a b Ha Hb. apply Hapart; by apply (elem_of_newestFirst created).
      + by apply (elem_of_newestFirst created).
      + apply not_elem_of_nil.
      + intros x Hx. apply Hlatest. unfold sorted in Hx.
        by apply elem_of_newestFirst in Hx. }
  eexists. split; [reflexivity|]. split; [exact Hchar|]. split.
  - intros a b [[Ha Hla] _]%Hchar [[Hb Hlb] _]%Hchar Hu.
    apply Hapart; try done. apply Z.le_antisymm; [by apply Hlb|by apply Hla].
  - etrans; [apply length_filter|]. etrans; [apply groupFirst_length|].
    unfold sorted. by rewrite newestFirst_perm.
Qed.

(** X14, the witness: user 7 started and stopped, user 9 started. *)
Lemma X14_active_shares_are_latest_starts_witness :
  ∃ active,
    getActiveScreenShares shareLog = Ret active
    ∧ (∀ r, r ∈ active ↔ latestOfUser (rows shareLog) r ∧ isStart r = true)
    ∧ (∀ a b, a ∈ active → b ∈ active →
              shUserId (payload a) = shUserId (payload b) → a = b)
    ∧ (length active ≤ length (rows shareLog))%nat.
Proof.
  apply (X14_active_shares_are_latest_starts shareLog).
  - reflexivity.
  - intros a b Ha Hb. unfold shareLog in Ha, Hb. cbn [rows] in Ha, Hb.
    rewrite !elem_of_cons, elem_of_nil in Ha, Hb.
    destruct Ha as [->|[->|[->|[]]]]; destruct Hb as [->|[->|[->|[]]]];
      cbn; intros; try done; try lia.
Defined.

End Queries.
(** ** Event logs *)

Module LogFacts.
Import MongoQueries HybridStorage LogRoutes JsFacts Queries.

Lemma filter_all {A} (f : A → bool) (l : list A) :
  (∀ x, x ∈ l → f x = true) → filter (fun x => f x) l = l.
Proof.
  induction l as [|x l IH]; intros H; [done|].
  rewrite filter_cons, decide_True
    by (apply Is_true_true, H; by apply elem_of_cons; left).
  rewrite IH; [done|]. intros y Hy. apply H. by apply elem_of_cons; right.
Qed.

Lemma filter_none {A} (f : A → bool) (l : list A) :
  (∀ x, x ∈ l → f x = false) → filter (fun x => f x) l = [].
Proof.
  induction l as [|x l IH]; intros H; [done|].
  rewrite filter_cons, decide_False
    by (apply Is_true_false, H; by apply elem_of_cons; left).
  apply IH. intros y Hy. apply H. by apply elem_of_cons; right.
Qed.

Lemma getLogs_all t :
  up t = true →
  MongoQueries.getLogs None None None t = Ret (take 100 (newestFirst created (rows t))).
Proof.
  intros Hup. unfold MongoQueries.getLogs. rewrite Hup. cbn [default].
  rewrite limitTo_positive by lia. by rewrite filter_all.
Qed.

Lemma hybrid_getLogs_length t :
  length (HybridStorage.getLogs t)
  = (if up t then Nat.min 100 (length (rows t)) else 0%nat).
Proof.
  unfold HybridStorage.getLogs. destruct (up t) eqn:Hup.
  - rewrite getLogs_all by done. cbn [converted].
    by rewrite length_map, length_take, newestFirst_perm.
  - unfold MongoQueries.getLogs. by rewrite Hup.
Qed.

(** X16: [HybridStorage.getLogs] never throws.  When MongoDB answers it
    returns the converted logs newest first, but never more than 100 of
    them, the default limit of [mongoService.getLogs]: of a larger
    collection only the 100 newest are seen.  When MongoDB does not answer
    it returns the empty list, as for an empty collection. *)
Theorem X16_getLogs_shows_the_newest_hundred t :
  HybridStorage.getLogs t
  = (if up t then map toLog (take 100 (newestFirst created (rows t))) else [])
  ∧ length (HybridStorage.getLogs t)
    = (if up t then Nat.min 100 (length (rows t)) else 0%nat)
  ∧ descending timestamp (HybridStorage.getLogs t)
  ∧ (∀ log, log ∈ HybridStorage.getLogs t → ∃ r, r ∈ rows t ∧ log = toLog r).
Proof.
  split; [|split; [apply hybrid_getLogs_length|]].
  { unfold HybridStorage.getLogs. destruct (up t) eqn:Hup.
    - by rewrite getLogs_all.
    - unfold MongoQueries.getLogs. by rewrite Hup. }
  unfold HybridStorage.getLogs. destruct (up t) eqn:Hup.
  - rewrite getLogs_all by done. cbn [converted]. split.
    + pose proof (descending_take created 100 _ (newestFirst_descending created (rows t)))
        as Hd.
      induction (take 100 (newestFirst created (rows t))) as [|r l IH]; [done|].
      destruct Hd as [Hr Hd]. cbn [map descending]. split; [|by apply IH].
      rewrite Forall_forall. intros log (r' & -> & Hr')%list_elem_of_fmap.
      cbn. rewrite Forall_forall in Hr. by apply Hr.
    + intros log (r & -> & Hr)%list_elem_of_fmap. exists r. split; [|done].
      apply elem_of_take in Hr as (i & Hr & _).
      by apply list_elem_of_lookup_2, elem_of_newestFirst in Hr.
  - unfold MongoQueries.getLogs. rewrite Hup. cbn. split; [done|].
    by intros log ?%elem_of_nil.
Qed.

(** *** Clearing the logs *)

Lemma deleteMany_up {A} (matches : stored A → bool) (t : table A) :
  up t = true →
  deleteMany matches t
  = (Ret (Z.of_nat (length (filter (fun r => matches r) (rows t)))),
     {| rows := filter (fun r => negb (matches r)) (rows t); up := true |}).
Proof. intros Hup. unfold deleteMany. by rewrite Hup. Qed.

Lemma deleteMany_down {A} (matches : stored A → bool) (t : table A) :
  up t = false → deleteMany matches t = (Throw networkError, t).
Proof. intros Hup. unfold deleteMany. by rewrite Hup. Qed.

Lemma filter_bool_cons {A} (f : A → bool) (x : A) (l : list A) :
  filter (fun x => f x) (x :: l)
  = if f x then x :: filter (fun x => f x) l else filter (fun x => f x) l.
Proof.
  rewrite filter_cons. destruct (f x) eqn:E.
  - rewrite decide_True; [done|]. by apply Is_true_true.
  - rewrite decide_False; [done|]. by apply Is_true_false.
Qed.

Lemma otherType_eq r :
  otherType r
  = (negb (String.eqb (lgType (payload r)) "screenshot")
     && negb (String.eqb (lgType (payload r)) "tab-switch")
     && negb (String.eqb (lgType (payload r)) "screen-share")
     && negb (String.eqb (lgType (payload r)) "screenshot-error"))%bool.
Proof.
  unfold otherType, clearedByType.
  destruct (String.eqb_spec (lgType (payload r)) "screenshot") as [->|E1];
    [by rewrite bool_decide_eq_true_2 by (rewrite !elem_of_cons; tauto)|].
  destruct (String.eqb_spec (lgType (payload r)) "tab-switch") as [->|E2];
    [by rewrite bool_decide_eq_true_2 by (rewrite !elem_of_cons; tauto)|].
  destruct (String.eqb_spec (lgType (payload r)) "screen-share") as [->|E3];
    [by rewrite bool_decide_eq_true_2 by (rewrite !elem_of_cons; tauto)|].
  destruct (String.eqb_spec (lgType (payload r)) "screenshot-error") as [->|E4];
    [by rewrite bool_decide_eq_true_2 by (rewrite !elem_of_cons; tauto)|].
  by rewrite bool_decide_eq_false_2 by (rewrite !elem_of_cons, elem_of_nil; tauto).
Qed.

Lemma four_deletions (l : list (stored logData)) :
  filter (fun r => negb (String.eqb (lgType (payload r)) "screenshot-error"))
    (filter (fun r => negb (String.eqb (lgType (payload r)) "screen-share"))
       (filter (fun r => negb (String.eqb (lgType (payload r)) "tab-switch"))
          (filter (fun r => negb (String.eqb (lgType (payload r)) "screenshot")) l)))
  = filter (fun r => otherType r) l.
Proof.
  induction l as [|r l IH]; [done|].
  rewrite (filter_bool_cons otherType), otherType_eq, <- IH.
  rewrite (filter_bool_cons (fun r => negb (String.eqb (lgType (payload r)) "screenshot"))).
  destruct (String.eqb (lgType (payload r)) "screenshot"); [done|]. cbn [negb andb].
  rewrite (filter_bool_cons (fun r => negb (String.eqb (lgType (payload r)) "tab-switch"))).
  destruct (String.eqb (lgType (payload r)) "tab-switch"); [done|]. cbn [negb andb].
  rewrite (filter_bool_cons (fun r => negb (String.eqb (lgType (payload r)) "screen-share"))).
  destruct (String.eqb (lgType (payload r)) "screen-share"); [done|]. cbn [negb andb].
  rewrite (filter_bool_cons
             (fun r => negb (String.eqb (lgType (payload r)) "screenshot-error"))).
  by destruct (String.eqb (lgType (payload r)) "screenshot-error").
Qed.

Lemma clearTypes_up t :
  up t = true →
  (deleteLogsByType "screenshot" ;; deleteLogsByType "tab-switch" ;;
   deleteLogsByType "screen-share" ;; deleteLogsByType "screenshot-error" ;;
   mret tt) t
  = (Ret tt, {| rows := filter (fun r => otherType r) (rows t); up := true |}).
Proof.
  intros Hup. unfold deleteLogsByType.
  erewrite bind_ret; [|by apply deleteMany_up].
  erewrite bind_ret; [|by apply deleteMany_up].
  erewrite bind_ret; [|by apply deleteMany_up].
  erewrite bind_ret; [|by apply deleteMany_up].
  cbn [rows]. by rewrite four_deletions.
Qed.

Lemma clearTypes_down t :
  up t = false →
  (deleteLogsByType "screenshot" ;; deleteLogsByType "tab-switch" ;;
   deleteLogsByType "screen-share" ;; deleteLogsByType "screenshot-error" ;;
   mret tt) t
  = (Throw networkError, t).
Proof.
  intros Hup. unfold deleteLogsByType.
  erewrite bind_throw; [done|by apply deleteMany_down].
Qed.

(** X15: [POST /api/admin/clear-all-logs] always answers 200 with
    [success: true].  When MongoDB answers, the logs collection is empty
    afterwards, [sqliteCount] is the number of logs but at most 100 (what
    [storage.getLogs] returned), [mongoCount] is the number of logs whose
    type is none of the four that the first step deletes, and
    [totalCleared] is their sum, which need not be the number of logs
    removed.  When MongoDB does not answer, nothing is deleted and the
    answer is still a success, with all three counts 0. *)
Theorem X15_clear_all_logs_report t :
  clearAllLogsRoute t
  = if up t then
      ({| clStatus := 200; clSuccess := true;
          sqliteCount := Z.of_nat (Nat.min 100 (length (rows t)));
          mongoCount := Z.of_nat (length (filter (fun r => otherType r) (rows t)));
          totalCleared := Z.of_nat (Nat.min 100 (length (rows t)))
                          + Z.of_nat (length (filter (fun r => otherType r) (rows t))) |},
       {| rows := []; up := true |})
    else
      ({| clStatus := 200; clSuccess := true; sqliteCount := 0; mongoCount := 0;
          totalCleared := 0 |}, t).
Proof.
  unfold clearAllLogsRoute. rewrite hybrid_getLogs_length. destruct (up t) eqn:Hup.
  - rewrite (tryCatch_ret _ _ _ _ _ (clearTypes_up t Hup)).
    erewrite (tryCatch_ret (deleteMany _)); [|by apply deleteMany_up]. cbn [rows].
    rewrite (filter_all (fun _ : stored logData => true)) by done.
    rewrite (filter_none (fun _ : stored logData => negb true)) by done.
    erewrite tryCatch_ret; [reflexivity|].
    erewrite bind_ret; [|by apply deleteMany_up]. reflexivity.
  - rewrite (tryCatch_throw _ _ _ _ _ (clearTypes_down t Hup)). cbn.
    erewrite (tryCatch_throw (deleteMany _)); [|by apply deleteMany_down]. cbn.
    erewrite tryCatch_throw; [reflexivity|].
    erewrite bind_throw; [done|by apply deleteMany_down].
Qed.

End LogFacts.

(** ** The identifiers and the round trip of the event logs *)

Module LogIds.
Import MongoQueries Text HybridStorage LogRoutes JsFacts Queries LogFacts.

(** *** [parseInt] of an [ObjectId] *)

Lemma hexDigit_cases (k : N) :
  hexDigit k ∈ ["0"; "1"; "2"; "3"; "4"; "5"; "6"; "7"; "8"; "9";
                "a"; "b"; "c"; "d"; "e"; "f"]%char.
Proof.
  destruct k as [|p]; [|do 4 (try destruct p as [p|p|])]; cbn;
    rewrite !elem_of_cons; tauto.
Qed.

Lemma fmap_unit (found : option Z) : (fun n => 1 * n) <$> found = found.
Proof. by destruct found as [[|p|p]|]. Qed.

(** The text of an [ObjectId] has no white space, no sign and no prefix
    [0x]: [parseInt] reads its leading decimal digits. *)
Lemma parseInt_hexText d n : parseInt (hexText d n) = parseDigits 10 (hexText d n) None.
Proof.
  destruct d as [|d]; [done|]. cbn [hexText].
  pose proof (hexDigit_cases ((n / 16 ^ N.of_nat d) mod 16)) as Hc.
  revert Hc. generalize (hexDigit ((n / 16 ^ N.of_nat d) mod 16)). intros c Hc.
  rewrite !elem_of_cons, elem_of_nil in Hc.
  destruct Hc as [->|Hc].
  - destruct d as [|d]; [reflexivity|]. cbn [hexText].
    pose proof (hexDigit_cases ((n / 16 ^ N.of_nat d) mod 16)) as Hc.
    revert Hc. generalize (hexDigit ((n / 16 ^ N.of_nat d) mod 16)). intros c Hc.
    rewrite !elem_of_cons, elem_of_nil in Hc.
    repeat (destruct Hc as [->|Hc]; [apply fmap_unit|]). done.
  - repeat (destruct Hc as [->|Hc]; [apply fmap_unit|]). done.
Qed.

Lemma letter_stops c :
  isDigit c = false →
  match digitValue c with Some v => (v <? 10)%Z = false | None => True end.
Proof.
  unfold isDigit, digitValue. cbv zeta. intros ->. cbv iota.
  destruct ((97 <=? _)%nat && _) eqn:E1; cbv iota.
  { apply andb_true_iff in E1 as [?%Nat.leb_le _]. apply Z.ltb_ge. lia. }
  destruct ((65 <=? _)%nat && _) eqn:E2; cbv iota; [|done].
  apply andb_true_iff in E2 as [?%Nat.leb_le _]. apply Z.ltb_ge. lia.
Qed.

(** What follows the first letter is not read. *)
Lemma parseDigits_stops prefix c rest acc :
  isDigit c = false →
  parseDigits 10 (prefix ++ String c rest) acc = parseDigits 10 prefix acc.
Proof.
  intros Hc%letter_stops. revert acc.
  induction prefix as [|a prefix IH]; intros acc.
  - change ("" +:+ String c rest) with (String c rest). cbn [parseDigits].
    destruct (digitValue c); [by rewrite Hc|done].
  - change (String a prefix +:+ String c rest)
      with (String a (prefix +:+ String c rest)).
    cbn [parseDigits]. destruct (digitValue a); [|done].
    destruct (_ <? 10)%Z; [apply IH|done].
Qed.

(** X17: the [id] of a converted log is [parseInt] of the hexadecimal text
    of its [ObjectId], which reads the decimal digits before the first
    letter.  Two logs whose texts agree up to and including a letter get
    the same [id], and the [id] is [NaN] when the text begins with a
    letter: the [id] does not tell logs apart.  When the digits before the
    letter are at most 15, the [id] is the number they spell. *)
Theorem X17_log_ids_repeat (a b : stored logData) prefix c rest1 rest2 :
  objectIdText (oid a) = (prefix ++ String c rest1)%string →
  objectIdText (oid b) = (prefix ++ String c rest2)%string →
  isDigit c = false →
  id (toLog a) = id (toLog b)
  ∧ ((String.length prefix ≤ 15)%nat → id (toLog a) = parseDigits 10 prefix None)
  ∧ (prefix = "" → id (toLog a) = None).
Proof.
  intros Ha Hb Hc. cbn [toLog id]. unfold objectIdText in *.
  rewrite !parseInt_hexText, Ha, Hb.
  rewrite !parseDigits_stops by done. repeat split. by intros ->.
Qed.

Lemma X17_log_ids_repeat_witness :
  id (toLog firstOfSecond) = id (toLog secondOfSecond)
  ∧ ((String.length "663212" ≤ 15)%nat →
     id (toLog firstOfSecond) = parseDigits 10 "663212" None)
  ∧ ("663212" = "" → id (toLog firstOfSecond) = None).
Proof.
  apply (X17_log_ids_repeat firstOfSecond secondOfSecond "663212" "a"
           "00000000000000001" "00000000000000002"); reflexivity.
Defined.

End LogIds.
(** ** Saving and then asking *)

Module RoundTrips.
Import MongoDB MongoQueries Text HybridStorage LogRoutes JsFacts Queries LogFacts.

Section Newest.
Context {A : Type} (date : A → Z).

Lemma insertNewest_older x y l :
  (date y < date x)%Z →
  insertNewest date y (x :: l) = x :: insertNewest date y l.
Proof.
  intros Hlt. cbn [insertNewest].
  destruct (Z.leb_spec (date x) (date y)); [lia|done].
Qed.

(** A document newer than all the others comes first. *)
Lemma newestFirst_snoc l x :
  (∀ y, y ∈ l → (date y < date x)%Z) →
  newestFirst date (l ++ [x]) = x :: newestFirst date l.
Proof.
  intros Hl. induction l as [|y l IH]; [done|].
  cbn [app newestFirst foldr]. fold (newestFirst date (l ++ [x])).
  fold (newestFirst date l).
  rewrite IH by (intros z Hz; apply Hl; by apply elem_of_cons; right).
  apply insertNewest_older, Hl. by apply elem_of_cons; left.
Qed.

Lemma newestFirst_filter_snoc (f : A → bool) l x :
  f x = true →
  (∀ y, y ∈ l → (date y < date x)%Z) →
  newestFirst date (filter (fun r => f r) (l ++ [x]))
  = x :: newestFirst date (filter (fun r => f r) l).
Proof.
  intros Hx Hl. rewrite filter_app, (filter_bool_cons f), Hx.
  apply newestFirst_snoc. intros y [_ Hy]%list_elem_of_filter. by apply Hl.
Qed.
End Newest.

Section Rows.
Context {A : Type}.

Lemma insertRow_fresh (id : N) (document : A) (date : Z) (t : table A) :
  up t = true → (∀ r, r ∈ rows t → oid r ≠ id) →
  insertRow id document date t
  = (Ret id, {| rows := rows t ++ [{| oid := id; payload := document; created := date |}];
                up := true |}).
Proof.
  intros Hup Hfresh. unfold insertRow. rewrite Hup.
  replace (existsb _ (rows t)) with false; [done|].
  symmetry. apply not_true_is_false. intros (r & Hr & E)%existsb_exists.
  apply (Hfresh r); [by apply list_elem_of_In|]. by apply N.eqb_eq.
Qed.

Lemma retrieveRow_fresh message (id : N) (document : A) (date : Z) l b :
  (∀ r, r ∈ l → oid r ≠ id) →
  retrieveRow message id
    {| rows := l ++ [{| oid := id; payload := document; created := date |}]; up := b |}
  = (Ret {| oid := id; payload := document; created := date |},
     {| rows := l ++ [{| oid := id; payload := document; created := date |}]; up := b |}).
Proof.
  intros Hfresh. unfold retrieveRow, findRow. cbn [rows].
  rewrite find_fresh_last; [done| |by apply N.eqb_refl].
  intros r Hr. by apply N.eqb_neq, Hfresh.
Qed.
End Rows.

(** *** Logs *)

Lemma saveLog_fresh log id date t :
  up t = true → (∀ r, r ∈ rows t → oid r ≠ id) →
  saveLog log id date t
  = (Ret {| oid := id; payload := log; created := date |},
     {| rows := rows t ++ [{| oid := id; payload := log; created := date |}];
        up := true |}).
Proof.
  intros Hup Hfresh. unfold saveLog.
  erewrite bind_ret; [|by apply insertRow_fresh]. by apply retrieveRow_fresh.
Qed.

Lemma getLogs_head type user l x :
  logQuery type user x = true →
  (∀ y, y ∈ l → (created y < created x)%Z) →
  head (converted (MongoQueries.getLogs type user None {| rows := l ++ [x]; up := true |}))
  = Some (toLog x).
Proof.
  intros Hq Hnew. unfold MongoQueries.getLogs. cbn [up rows default converted].
  rewrite limitTo_positive by lia.
  by rewrite (newestFirst_filter_snoc created (logQuery type user)).
Qed.

(** X18: round trip of a log.  On a collection that answers, with a new
    [ObjectId] and a date later than those of all stored logs, [createLog]
    returns the converted log, and afterwards [getLogs], [getLogsByUserId]
    of its user and [getLogsByType] of its type all list that log first. *)
Theorem X18_created_log_is_listed_first insertLog iso id date t :
  up t = true →
  (∀ r, r ∈ rows t → oid r ≠ id) →
  (∀ r, r ∈ rows t → (created r < date)%Z) →
  ∃ log t',
    createLog insertLog iso id date t = (Ret log, t')
    ∧ HybridStorage.userId log = inUserId insertLog
    ∧ HybridStorage.type log = inType insertLog
    ∧ HybridStorage.data log = default "null" (inData insertLog)
    ∧ timestamp log = date
    ∧ head (HybridStorage.getLogs t') = Some log
    ∧ head (getLogsByUserId (inUserId insertLog) t') = Some log
    ∧ head (getLogsByType (inType insertLog) t') = Some log
    ∧ length (rows t') = S (length (rows t)).
Proof.
  intros Hup Hfresh Hnew. eexists. eexists. split.
  { unfold createLog. erewrite bind_ret; [|by apply saveLog_fresh]. reflexivity. }
  repeat split.
  - by apply getLogs_head.
  - apply getLogs_head; [|done]. unfold logQuery, byUser. cbn.
    rewrite Z.eqb_refl. by rewrite orb_true_r.
  - apply getLogs_head; [|done]. unfold logQuery, byUser. cbn.
    rewrite String.eqb_refl. by rewrite orb_true_r.
  - cbn [rows]. rewrite length_app. cbn. lia.
Qed.

Lemma X18_created_log_is_listed_first_witness :
  ∃ log t',
    createLog laterLog "2024-05-01T10:10:00.000Z" 200 5000 manyLogs = (Ret log, t')
    ∧ HybridStorage.userId log = inUserId laterLog
    ∧ HybridStorage.type log = inType laterLog
    ∧ HybridStorage.data log = default "null" (inData laterLog)
    ∧ timestamp log = 5000
    ∧ head (HybridStorage.getLogs t') = Some log
    ∧ head (getLogsByUserId (inUserId laterLog) t') = Some log
    ∧ head (getLogsByType (inType laterLog) t') = Some log
    ∧ length (rows t') = S (length (rows manyLogs)).
Proof.
  apply (X18_created_log_is_listed_first laterLog "2024-05-01T10:10:00.000Z" 200 5000
           manyLogs).
  - reflexivity.
  - apply Forall_forall. vm_compute. repeat constructor; discriminate.
  - apply Forall_forall. vm_compute. repeat constructor.
Defined.

(** *** Screen-share events *)

Lemma groupFirst_seen sorted seen1 seen2 :
  (∀ u, u ∈ seen1 ↔ u ∈ seen2) → groupFirst sorted seen1 = groupFirst sorted seen2.
Proof.
  revert seen1 seen2. induction sorted as [|r rest IH]; intros seen1 seen2 Hs; [done|].
  cbn [groupFirst]. rewrite (bool_decide_ext _ _ (Hs _)).
  destruct (bool_decide _); [by apply IH|]. f_equal. apply IH.
  intros u. rewrite !elem_of_cons. by rewrite Hs.
Qed.

(** A user that already has its group gets no other. *)
Lemma groupFirst_without sorted seen u :
  groupFirst sorted (u :: seen)
  = filter (fun r => negb (shUserId (payload r) =? u)%Z) (groupFirst sorted seen).
Proof.
  revert seen. induction sorted as [|r rest IH]; intros seen; [done|].
  cbn [groupFirst]. destruct (decide (shUserId (payload r) ∈ seen)) as [Hseen|Hseen].
  { rewrite (bool_decide_eq_true_2 (_ ∈ seen)) by done.
    rewrite bool_decide_eq_true_2 by (apply elem_of_cons; by right). apply IH. }
  rewrite (bool_decide_eq_false_2 (_ ∈ seen)) by done.
  rewrite (filter_bool_cons (fun r => negb (shUserId (payload r) =? u)%Z)).
  destruct (Z.eqb_spec (shUserId (payload r)) u) as [E|E]; cbn [negb].
  - rewrite bool_decide_eq_true_2 by (apply elem_of_cons; by left).
    rewrite E, <- IH. apply groupFirst_seen. intros v. rewrite !elem_of_cons. tauto.
  - rewrite bool_decide_eq_false_2
      by (rewrite elem_of_cons; intros [?|?]; [by apply E|done]).
    f_equal. rewrite <- IH. apply groupFirst_seen. intros v. rewrite !elem_of_cons. tauto.
Qed.

Lemma filter_swap {A} (f g : A → bool) (l : list A) :
  filter (fun r => f r) (filter (fun r => g r) l)
  = filter (fun r => g r) (filter (fun r => f r) l).
Proof.
  induction l as [|x l IH]; [done|].
  rewrite (filter_bool_cons g), (filter_bool_cons f).
  destruct (g x) eqn:Eg, (f x) eqn:Ef;
    rewrite ?(filter_bool_cons f), ?(filter_bool_cons g), ?Eg, ?Ef, ?IH; done.
Qed.

Lemma active_after_save share id date t :
  up t = true →
  (∀ r, r ∈ rows t → oid r ≠ id) →
  (∀ r, r ∈ rows t → (created r < date)%Z) →
  ∃ t' before,
    saveScreenShareEvent share id date t
    = (Ret {| oid := id; payload := share; created := date |}, t')
    ∧ getActiveScreenShares t = Ret before
    ∧ getActiveScreenShares t'
      = Ret ((if isStart {| oid := id; payload := share; created := date |}
              then [{| oid := id; payload := share; created := date |}] else [])
             ++ filter (fun r => negb (shUserId (payload r) =? shUserId share)%Z) before).
Proof.
  intros Hup Hfresh Hnew. eexists. eexists. split.
  { unfold saveScreenShareEvent.
    erewrite bind_ret; [|by apply insertRow_fresh]. by apply retrieveRow_fresh. }
  unfold getActiveScreenShares. rewrite Hup. cbn [up rows]. split; [reflexivity|].
  f_equal. rewrite (newestFirst_snoc created) by done.
  cbn [groupFirst]. rewrite bool_decide_eq_false_2 by apply not_elem_of_nil.
  rewrite (filter_bool_cons isStart). cbn [payload].
  rewrite groupFirst_without, (filter_swap isStart).
  by destruct (isStart _).
Qed.

Lemma isStart_action (r : stored shareData) :
  isStart r = true ↔ action (payload r) = Str "start".
Proof.
  unfold isStart. destruct (action (payload r)) as [| | |a| |]; try done.
  rewrite String.eqb_eq. split; [by intros ->|by intros [= ->]].
Qed.

(** X19: the sharing status follows the event saved last.  On a collection
    that answers and in which no two events of one user bear the same date,
    after [saveScreenShareEvent] has stored an event with a new [ObjectId]
    and a date later than all stored ones, [getActiveScreenShares] lists
    that event exactly when its action is [start], lists no other event of
    its user, and lists the events of every other user exactly as before:
    a start makes its user active, any other action makes the user
    inactive, and no other user is affected. *)
Theorem X19_sharing_follows_the_last_event share id date t :
  up t = true →
  datesTellApart (rows t) →
  (∀ r, r ∈ rows t → oid r ≠ id) →
  (∀ r, r ∈ rows t → (created r < date)%Z) →
  ∃ t' before after,
    saveScreenShareEvent share id date t
    = (Ret {| oid := id; payload := share; created := date |}, t')
    ∧ getActiveScreenShares t = Ret before
    ∧ getActiveScreenShares t' = Ret after
    ∧ ({| oid := id; payload := share; created := date |} ∈ after
       ↔ action share = Str "start")
    ∧ (∀ r, r ∈ after → shUserId (payload r) = shUserId share →
            r = {| oid := id; payload := share; created := date |})
    ∧ (∀ r, shUserId (payload r) ≠ shUserId share → (r ∈ after ↔ r ∈ before)).
Proof.
  intros Hup _ Hfresh Hnew.
  destruct (active_after_save share id date t Hup Hfresh Hnew)
    as (t' & before & Hsave & Hbefore & Hafter).
  exists t', before. eexists. split; [exact Hsave|]. split; [exact Hbefore|].
  split; [exact Hafter|].
  pose proof (isStart_action {| oid := id; payload := share; created := date |}) as Hs.
  cbn [payload] in Hs.
  assert (∀ r, r ∈ filter (fun r => negb (shUserId (payload r) =? shUserId share)%Z) before
               ↔ shUserId (payload r) ≠ shUserId share ∧ r ∈ before) as Hother.
  { intros r. rewrite list_elem_of_filter, Is_true_true, negb_true_iff.
    by rewrite Z.eqb_neq. }
  repeat split.
  - intros [Hin|Hin]%elem_of_app.
    + destruct (isStart _); [by apply Hs|by apply elem_of_nil in Hin].
    + by apply Hother in Hin as [Hne _].
  - intros Hstart%Hs. rewrite Hstart. apply elem_of_app; left.
    by apply list_elem_of_singleton.
  - intros r [Hin|Hin]%elem_of_app Hu.
    + destruct (isStart _); [by apply list_elem_of_singleton|by apply elem_of_nil in Hin].
    + by apply Hother in Hin as [Hne _].
  - intros [Hin|Hin]%elem_of_app.
    + destruct (isStart _); [|by apply elem_of_nil in Hin].
      apply list_elem_of_singleton in Hin as ->. done.
    + by apply Hother in Hin as [_ Hin].
  - intros Hin. apply elem_of_app; right. by apply Hother.
Qed.

Lemma X19_sharing_follows_the_last_event_witness :
  ∃ t' before after,
    saveScreenShareEvent (stopOf 9) 4 4000 shareLog
    = (Ret {| oid := 4; payload := stopOf 9; created := 4000 |}, t')
    ∧ getActiveScreenShares shareLog = Ret before
    ∧ getActiveScreenShares t' = Ret after
    ∧ ({| oid := 4; payload := stopOf 9; created := 4000 |} ∈ after
       ↔ action (stopOf 9) = Str "start")
    ∧ (∀ r, r ∈ after → shUserId (payload r) = shUserId (stopOf 9) →
            r = {| oid := 4; payload := stopOf 9; created := 4000 |})
    ∧ (∀ r, shUserId (payload r) ≠ shUserId (stopOf 9) → (r ∈ after ↔ r ∈ before)).
Proof.
  apply (X19_sharing_follows_the_last_event (stopOf 9) 4 4000 shareLog).
  - reflexivity.
  - intros a b Ha Hb. unfold shareLog in Ha, Hb. cbn [rows] in Ha, Hb.
    rewrite !elem_of_cons, elem_of_nil in Ha, Hb.
    destruct Ha as [->|[->|[->|[]]]]; destruct Hb as [->|[->|[->|[]]]];
      cbn; intros; try done; try lia.
  - apply Forall_forall. vm_compute. repeat constructor; discriminate.
  - apply Forall_forall. vm_compute. repeat constructor.
Defined.

(** *** Statistics *)

(** X20: [getMonitoringStats] answers exactly when all three collections
    answer; then the totals are the sizes of the collections, and the
    number of active screen shares is neither negative nor larger than the
    number of screen-share events. *)
Theorem X20_stats_count_the_collections db :
  getMonitoringStats db
  = (if online (screenshotsOf db) && up (screenShares db) && up (logsOf db) then
       Ret {| totalScreenshots := Z.of_nat (length (docs (screenshotsOf db)));
              totalScreenShares := Z.of_nat (length (rows (screenShares db)));
              activeScreenShares :=
                Z.of_nat (length (filter (fun r => isStart r)
                                    (groupFirst (newestFirst created
                                                   (rows (screenShares db))) [])));
              totalLogs := Z.of_nat (length (rows (logsOf db))) |}
     else Throw networkError)
  ∧ ∀ found, getMonitoringStats db = Ret found →
             (0 ≤ activeScreenShares found ≤ totalScreenShares found)%Z.
Proof.
  assert (getMonitoringStats db
          = (if online (screenshotsOf db) && up (screenShares db) && up (logsOf db) then
               Ret {| totalScreenshots := Z.of_nat (length (docs (screenshotsOf db)));
                      totalScreenShares := Z.of_nat (length (rows (screenShares db)));
                      activeScreenShares :=
                        Z.of_nat (length (filter (fun r => isStart r)
                                            (groupFirst (newestFirst created
                                                           (rows (screenShares db))) [])));
                      totalLogs := Z.of_nat (length (rows (logsOf db))) |}
             else Throw networkError)) as Heq.
  { unfold getMonitoringStats, getActiveScreenShares, countScreenshots, countDocuments.
    by destruct (online (screenshotsOf db)), (up (screenShares db)), (up (logsOf db)). }
  split; [exact Heq|]. rewrite Heq. intros found.
  destruct (_ && _); [|done]. intros [= <-]. cbn [activeScreenShares totalScreenShares].
  split; [lia|]. apply inj_le.
  etrans; [apply length_filter|]. etrans; [apply groupFirst_length|].
  by rewrite newestFirst_perm.
Qed.

(** *** Screenshots of a period *)

(** X21: on a collection that answers, [getScreenshotsByDateRange] returns,
    newest first, exactly the documents made from [startDate] to [endDate],
    both included, of the user asked for; a user id of 0 asks for all
    users, as a missing one does; and nothing is returned when [endDate]
    is before [startDate]. *)
Theorem X21_date_range_is_inclusive startDate endDate (userId : option Z) c :
  online c = true →
  ∃ result,
    getScreenshotsByDateRange startDate endDate userId c = Ret result
    ∧ descending createdAt result
    ∧ (∀ doc, doc ∈ result ↔
              doc ∈ docs c
              ∧ (startDate ≤ createdAt doc ≤ endDate)%Z
              ∧ ∀ u, userId = Some u → u ≠ 0%Z → MongoDB.userId (MongoDB.data doc) = u)
    ∧ ((endDate < startDate)%Z → result = []).
Proof.
  intros Hon. unfold getScreenshotsByDateRange. rewrite Hon.
  eexists. split; [reflexivity|]. split; [apply newestFirst_descending|].
  assert (∀ doc, byUser userId (MongoDB.userId (MongoDB.data doc)) = true
                 ↔ ∀ u, userId = Some u → u ≠ 0%Z → MongoDB.userId (MongoDB.data doc) = u)
    as Huser.
  { intros doc. unfold byUser. destruct userId as [v|]; [|by split].
    rewrite orb_true_iff, !Z.eqb_eq. split.
    - intros [E|E] u [= <-] Hu; [done|done].
    - intros H. destruct (decide (v = 0%Z)) as [E|E]; [by left|right].
      by apply H. }
  assert (∀ doc, doc ∈ newestFirst createdAt
                   (filter (fun doc => (startDate <=? createdAt doc)%Z
                                       && (createdAt doc <=? endDate)%Z
                                       && byUser userId (MongoDB.userId (MongoDB.data doc)))
                           (docs c))
                 ↔ doc ∈ docs c
                   ∧ (startDate ≤ createdAt doc ≤ endDate)%Z
                   ∧ ∀ u, userId = Some u → u ≠ 0%Z → MongoDB.userId (MongoDB.data doc) = u)
    as Hchar.
  { intros doc. rewrite elem_of_newestFirst, list_elem_of_filter, <- Huser.
    rewrite Is_true_true, !andb_true_iff, !Z.leb_le. tauto. }
  split; [exact Hchar|].
  intros Hempty.
  destruct (newestFirst createdAt _) as [|doc rest] eqn:E in Hchar |- *; [done|].
  assert (doc ∈ doc :: rest) as Hdoc%Hchar by (by apply elem_of_cons; left). lia.
Qed.

Lemma X21_date_range_is_inclusive_witness :
  ∃ result,
    getScreenshotsByDateRange 1000 2000 (Some 7) album = Ret result
    ∧ descending createdAt result
    ∧ (∀ doc, doc ∈ result ↔
              doc ∈ docs album
              ∧ (1000 ≤ createdAt doc ≤ 2000)%Z
              ∧ ∀ u, Some 7 = Some u → u ≠ 0%Z → MongoDB.userId (MongoDB.data doc) = u)
    ∧ ((2000 < 1000)%Z → result = []).
Proof. by apply (X21_date_range_is_inclusive 1000 2000 (Some 7) album). Defined.

End RoundTrips.
